(** * finance_tracker: the financial aggregation and valuation core

    A shallow embedding of the parts of [models.py], [currency.py],
    [forms.py] and [app.py] that compute balances, personal amounts,
    fixed-deposit values, currency conversions and the monthly report,
    followed by the properties the specification states about them; then
    the remaining views of accounts, deposits, summaries and budget and
    the pruning of [backup.py], with further properties of the code.

    Conventions of the embedding.
    - A [db.Float] column and a Python [float] are exact rationals ([Q]):
      the development is about the arithmetic the code writes down, not
      about binary64 rounding.  Equalities between amounts are therefore
      stated with [==] ([Qeq]).
    - A raised Python exception is the [Raise] case of [result].
    - Tables are lists of rows in insertion order.  The surrogate key of a
      transaction and the [created_at] columns are written by the database
      and read by none of the operations below; they are left out.
    - Strings are ASCII. *)

From Stdlib Require Import ZArith QArith Qabs Qround List String Ascii Bool Lia.
From Stdlib Require Import Lqa Sorted SpecFloat.
Import ListNotations.

Local Open Scope string_scope.
Local Open Scope Z_scope.

(** ** The Python runtime the code relies on *)

Module Py.

Inductive exn : Type :=
| ZeroDivisionError
| TypeError
| AttributeError
| ValueError
| OverflowError
| RequestException.

Inductive result (A : Type) : Type :=
| Ok (a : A)
| Raise (e : exn).
Arguments Ok {A} a.
Arguments Raise {A} e.

(** [x < y] and [x != 0] on numbers. *)
Definition Qltb (x y : Q) : bool :=
  match (x ?= y)%Q with Lt => true | _ => false end.

Definition Qnonzero (x : Q) : bool := negb (Qeq_bool x 0).

(** *** [datetime.date] *)

Record date : Type := mkdate { year : Z; month : Z; day : Z }.

Definition _is_leap (y : Z) : bool :=
  (y mod 4 =? 0) && (negb (y mod 100 =? 0) || (y mod 400 =? 0)).

Definition _days_before_year (y : Z) : Z :=
  let y := y - 1 in
  y * 365 + y / 4 - y / 100 + y / 400.

Definition _DAYS_BEFORE_MONTH (m : Z) : Z :=
  match m with
  | 1 => 0 | 2 => 31 | 3 => 59 | 4 => 90 | 5 => 120 | 6 => 151
  | 7 => 181 | 8 => 212 | 9 => 243 | 10 => 273 | 11 => 304 | 12 => 334
  | _ => 0
  end.

Definition _days_before_month (y m : Z) : Z :=
  _DAYS_BEFORE_MONTH m + (if (2 <? m) && _is_leap y then 1 else 0).

Definition _ymd2ord (y m d : Z) : Z :=
  _days_before_year y + _days_before_month y m + d.

Definition _days_in_month (y m : Z) : Z :=
  if (m =? 2) && _is_leap y then 29
  else match m with
       | 1 => 31 | 2 => 28 | 3 => 31 | 4 => 30 | 5 => 31 | 6 => 30
       | 7 => 31 | 8 => 31 | 9 => 30 | 10 => 31 | 11 => 30 | 12 => 31
       | _ => 0
       end.

(** [date(y, m, d)] checks its fields ([MINYEAR = 1], [MAXYEAR = 9999]). *)
Definition new_date (y m d : Z) : result date :=
  if (1 <=? y) && (y <=? 9999) && (1 <=? m) && (m <=? 12)
     && (1 <=? d) && (d <=? _days_in_month y m)
  then Ok (mkdate y m d)
  else Raise ValueError.

(** [d.strftime('%B')] *)
Definition month_name_of (d : date) : string :=
  match month d with
  | 1 => "January" | 2 => "February" | 3 => "March" | 4 => "April"
  | 5 => "May" | 6 => "June" | 7 => "July" | 8 => "August"
  | 9 => "September" | 10 => "October" | 11 => "November"
  | _ => "December"
  end.

Definition toordinal (d : date) : Z := _ymd2ord (year d) (month d) (day d).

(** [(a - b).days] *)
Definition days_between (a b : date) : Z := toordinal a - toordinal b.

(** *** [datetime.datetime]: a point of the naive local clock, in
    microseconds, and [timedelta(hours=1)]. *)
Definition datetime : Type := Z.
Definition timedelta_hours (h : Z) : Z := h * 3600 * 1000000.

(** *** [str] methods used by the views *)

Definition is_space (c : ascii) : bool :=
  let n := nat_of_ascii c in
  ((9 <=? n) && (n <=? 13))%nat || ((28 <=? n) && (n <=? 32))%nat.

Fixpoint lstrip (s : string) : string :=
  match s with
  | String c s' => if is_space c then lstrip s' else s
  | EmptyString => EmptyString
  end.

Fixpoint rev_onto (s acc : string) : string :=
  match s with
  | String c s' => rev_onto s' (String c acc)
  | EmptyString => acc
  end.

Definition strip (s : string) : string :=
  rev_onto (lstrip (rev_onto (lstrip s) "")) "".

Definition lower_char (c : ascii) : ascii :=
  let n := nat_of_ascii c in
  if ((65 <=? n) && (n <=? 90))%nat then ascii_of_nat (n + 32) else c.

Fixpoint lower (s : string) : string :=
  match s with
  | String c s' => String (lower_char c) (lower s')
  | EmptyString => EmptyString
  end.

(** [s.replace(' ', '_')] *)
Fixpoint replace_space (s : string) : string :=
  match s with
  | String c s' =>
      String (if Ascii.eqb c " "%char then "_"%char else c) (replace_space s')
  | EmptyString => EmptyString
  end.

(** [x or default] on strings: the empty string is falsy. *)
Definition str_or (s default : string) : string :=
  match s with EmptyString => default | _ => s end.

Definition str_or_None (s : string) : option string :=
  match s with EmptyString => None | _ => Some s end.

(** *** Values decoded by [response.json()] *)

#[warnings="-register-all"]
Inductive json : Type :=
| JNull
| JBool (b : bool)
| JNum (q : Q)
| JStr (s : string)
| JList (items : list json)
| JDict (items : list (string * json)).

(** A [dict] is the list of its items in insertion order. *)
Section Dict.
Context {K V : Type} (eqb : K -> K -> bool).

(** [d.get(key, default)]; where the items list comes from a document
    or a comprehension that gives a key twice, the last value counts. *)
Fixpoint dict_get (items : list (K * V)) (key : K) (default : V) : V :=
  match items with
  | [] => default
  | (k, v) :: rest =>
      if eqb k key then dict_get rest key v
      else dict_get rest key default
  end.

(** [key in d] *)
Definition dict_contains (items : list (K * V)) (key : K) : bool :=
  existsb (fun kv => eqb (fst kv) key) items.

(** [d[key] = value]: in place for a key of the dict, at the end for a
    new one. *)
Fixpoint dict_set (items : list (K * V)) (key : K) (value : V)
  : list (K * V) :=
  match items with
  | [] => [(key, value)]
  | (k, v) :: rest =>
      if eqb k key then (k, value) :: rest
      else (k, v) :: dict_set rest key value
  end.
End Dict.

(** [x.get(key, default)]: only a dict has the method. *)
Definition get (x : json) (key : string) (default : json) : result json :=
  match x with
  | JDict items => Ok (dict_get String.eqb items key default)
  | _ => Raise AttributeError
  end.

(** [amount * rate] and [amount / rate] for a float [amount] and a
    decoded [rate]: numbers and booleans are numeric operands, anything
    else is a [TypeError]; a zero divisor is a [ZeroDivisionError]. *)
Definition as_number (v : json) : option Q :=
  match v with
  | JNum q => Some q
  | JBool b => Some (if b then 1%Q else 0%Q)
  | _ => None
  end.

Definition mul (amount : Q) (rate : json) : result Q :=
  match as_number rate with
  | Some r => Ok (amount * r)%Q
  | None => Raise TypeError
  end.

Definition div (amount : Q) (rate : json) : result Q :=
  match as_number rate with
  | Some r => if Qeq_bool r 0 then Raise ZeroDivisionError
              else Ok (amount / r)%Q
  | None => Raise TypeError
  end.

End Py.
Export Py.

(** ** The database session *)

Module sql.

(** [func.sum(column)] over the selected rows: NULL when no row is
    selected, otherwise the rows added up in table order. *)
Definition sum (column : list Q) : option Q :=
  match column with
  | [] => None
  | x :: rest => Some (fold_left Qplus rest x)
  end.

(** [func.coalesce(value, default)] *)
Definition coalesce (value : option Q) (default : Q) : Q :=
  match value with
  | Some v => v
  | None => default
  end.

(** [db.session.add(row)]: the row joins the pending rows of the
    session, which the next commit writes in this order. *)
Definition add {A : Type} (row : A) (pending : list A) : list A :=
  pending ++ [row].

(** An integer bound to a parameter of a query: the driver refuses one
    that is no 64-bit integer. *)
Definition integer (n : Z) : result Z :=
  if (- 2 ^ 63 <=? n) && (n <? 2 ^ 63) then Ok n else Raise OverflowError.

(** [query.first()] *)
Definition first {A : Type} (rows : list A) : option A :=
  match rows with
  | [] => None
  | r :: _ => Some r
  end.

End sql.

(** ** models.py *)

Module Transaction.

Record t : Type := mk {
  account_id : Z;
  amount : Q;                (* full transaction amount *)
  my_share : option Q;       (* NULL = same as amount *)
  description : string;
  category : string;
  transaction_date : date
}.

Definition personal_amount (self : t) : Q :=
  match my_share self with
  | Some share => share
  | None => amount self
  end.

End Transaction.

Module Account.

Record t : Type := mk {
  id : Z;
  user_id : Z;
  name : string;
  account_type : string;
  currency : string;
  initial_balance : Q;
  display_order : Z
}.

(** [Account.current_balance], the query run against the transactions
    table [transactions]. *)
Definition current_balance (transactions : list Transaction.t) (self : t) : Q :=
  let total_transactions :=
    sql.coalesce
      (sql.sum (map Transaction.amount
                  (filter (fun tx => Transaction.account_id tx =? id self)
                          transactions)))
      0%Q in
  (initial_balance self + total_transactions)%Q.

End Account.

Module Category.

Record t : Type := mk {
  user_id : option Z;        (* NULL for default categories *)
  name : string
}.

Definition is_default (c : t) : bool :=
  match user_id c with None => true | Some _ => false end.

Definition owned_by (user : Z) (c : t) : bool :=
  match user_id c with Some u => u =? user | None => false end.

Definition get_user_categories (categories : list t) (user : Z) : list t :=
  let default_cats := filter is_default categories in
  let user_cats := filter (owned_by user) categories in
  default_cats ++ user_cats.

End Category.

Module FixedDeposit.

Record t : Type := mk {
  id : Z;
  account_id : Z;
  principal : Q;
  interest_rate : Q;         (* annual rate as a percentage *)
  start_date : date;
  maturity_date : date;
  bank_name : option string;
  fd_number : option string;
  is_matured : bool
}.

(** [today] is the value of [date.today()] when the property is read. *)
Definition days_to_maturity (today : date) (self : t) : Z :=
  if is_matured self then 0
  else
    let remaining := days_between (maturity_date self) today in
    Z.max 0 remaining.

End FixedDeposit.

(** The tables of the application database. *)
Record Store : Type := mkStore {
  accounts : list Account.t;
  categories : list Category.t;
  transactions : list Transaction.t;
  fixed_deposits : list FixedDeposit.t
}.

(** ** currency.py *)

Module currency.

(** Default exchange rate (fallback if the API fails): 1 USD = 83 INR. *)
Definition DEFAULT_EXCHANGE_RATE : Q := 83.

(** The module-level cache [_rate_cache]. *)
Record RateCache : Type := mkCache {
  rate : json;
  last_updated : option datetime
}.

Definition initial_rate_cache : RateCache :=
  {| rate := JNum DEFAULT_EXCHANGE_RATE; last_updated := None |}.

(** What [requests.get(..., timeout=5)] does: it raises, or it returns a
    response with a status code whose [json()] decodes to a value or
    raises. *)
Inductive http_result : Type :=
| ConnectionFails
| Response (status_code : Z) (body : option json).

(** What one call of [get_exchange_rate] observes of the outside: the
    clock when the age of the cache is taken, the outcome of the request,
    and the clock when the cache is stamped. *)
Record observation : Type := mkObs {
  now_at_check : datetime;
  http : http_result;
  now_at_store : datetime
}.

(** The state of the process as far as the converter goes: the cache,
    the observations its successive calls make, the number of calls made
    and the number of HTTP requests sent. *)
Record World : Type := mkWorld {
  _rate_cache : RateCache;
  outside : nat -> observation;
  calls : nat;
  requests_sent : nat
}.

(** Computations that read and write the world and may raise; the world
    survives an exception. *)
Definition M (A : Type) : Type := World -> result A * World.

Definition ret {A : Type} (a : A) : M A := fun w => (Ok a, w).

Definition bind {A B : Type} (c : M A) (k : A -> M B) : M B :=
  fun w =>
    match c w with
    | (Ok a, w') => k a w'
    | (Raise e, w') => (Raise e, w')
    end.

Definition lift {A : Type} (r : result A) : M A := fun w => (r, w).

Declare Scope py_scope.
Delimit Scope py_scope with py.
Notation "x <- c ;; k" := (bind c (fun x => k))
  (at level 61, c at next level, right associativity) : py_scope.
Notation "' p <- c ;; k" := (bind c (fun x => match x with p => k end))
  (at level 61, p pattern, c at next level, right associativity) : py_scope.

(** [for x in xs: acc = body(acc, x)] *)
Fixpoint for_each {A S : Type} (body : S -> A -> M S) (xs : list A) (acc : S)
  : M S :=
  match xs with
  | [] => ret acc
  | x :: rest => bind (body acc x) (for_each body rest)
  end.

(** The body of the [try] block: the rate read from the response, [None]
    when the status is not 200, or the exception raised on the way. *)
Definition fetched_rate (r : http_result) : result (option json) :=
  match r with
  | ConnectionFails => Raise RequestException
  | Response status_code body =>
      if status_code =? 200 then
        match body with
        | None => Raise ValueError
        | Some data =>
            match get data "rates" (JDict []) with
            | Ok rates =>
                match get rates "INR" (JNum DEFAULT_EXCHANGE_RATE) with
                | Ok rate => Ok (Some rate)
                | Raise e => Raise e
                end
            | Raise e => Raise e
            end
        end
      else Ok None
  end.

(** The cache is returned as it is when it is less than one hour old. *)
Definition is_fresh (cache : RateCache) (now : datetime) : bool :=
  match last_updated cache with
  | Some stamp => now - stamp <? timedelta_hours 1
  | None => false
  end.

Definition get_exchange_rate : M json :=
  fun w =>
    let seen := outside w (calls w) in
    let cache := _rate_cache w in
    if is_fresh cache (now_at_check seen) then
      (Ok (rate cache),
       {| _rate_cache := cache; outside := outside w;
          calls := S (calls w); requests_sent := requests_sent w |})
    else
      match fetched_rate (http seen) with
      | Ok (Some new_rate) =>
          (Ok new_rate,
           {| _rate_cache := {| rate := new_rate;
                                last_updated := Some (now_at_store seen) |};
              outside := outside w;
              calls := S (calls w); requests_sent := S (requests_sent w) |})
      | Ok None | Raise _ =>
          (Ok (rate cache),
           {| _rate_cache := cache; outside := outside w;
              calls := S (calls w); requests_sent := S (requests_sent w) |})
      end.

Definition convert_currency (amount : Q) (from_currency to_currency : string)
  : M Q :=
  if String.eqb from_currency to_currency then ret amount
  else
    (rate <- get_exchange_rate ;;
     if String.eqb from_currency "USD" && String.eqb to_currency "INR" then
       lift (mul amount rate)
     else if String.eqb from_currency "INR" && String.eqb to_currency "USD" then
       lift (div amount rate)
     else ret amount)%py.

End currency.

(** ** forms.py

    A form is the record of its fields' data after a submission that
    parsed.  A submission in which a field does not parse as its type, or
    whose CSRF token is wrong, never validates: it is the [BadPost]
    request below.  [validate] runs the validators declared on the
    fields. *)

Module forms.

Definition mem_Z (x : Z) (xs : list Z) : bool := existsb (Z.eqb x) xs.
Definition mem_str (x : string) (xs : list string) : bool :=
  existsb (String.eqb x) xs.

(** [DataRequired] on a string field, [Length(max=n)], and
    [NumberRange(min=lo)]. *)
Definition DataRequired_str (data : string) : bool :=
  negb (String.eqb (strip data) "").
Definition Length_max (n : nat) (data : string) : bool :=
  (String.length data <=? n)%nat.
Definition NumberRange_min (lo data : Q) : bool := Qle_bool lo data.

Module TransactionForm.
Record t : Type := mk {
  account_id : Z;
  transaction_type : string;
  amount : Q;
  my_share : option Q;     (* Optional: None when left empty *)
  description : string;
  category : string;
  new_category : string;
  transaction_date : date
}.

Definition validate (account_choices : list Z)
           (category_choices : list string) (form : t) : bool :=
  negb (account_id form =? 0) && mem_Z (account_id form) account_choices
  && mem_str (transaction_type form) ["expense"; "income"]
  && Qnonzero (amount form) && NumberRange_min (1 # 100) (amount form)
  && DataRequired_str (description form)
  && Length_max 200 (description form)
  && DataRequired_str (category form)
  && mem_str (category form) category_choices
  && Length_max 50 (new_category form).
End TransactionForm.

Module TransferForm.
Record t : Type := mk {
  from_account_id : Z;
  to_account_id : Z;
  amount : Q;
  description : string;
  transfer_date : date
}.

Definition validate (account_choices : list Z) (form : t) : bool :=
  negb (from_account_id form =? 0)
  && mem_Z (from_account_id form) account_choices
  && negb (to_account_id form =? 0)
  && mem_Z (to_account_id form) account_choices
  && Qnonzero (amount form) && NumberRange_min (1 # 100) (amount form)
  && Length_max 200 (description form).
End TransferForm.

Module EditFixedDepositForm.
Record t : Type := mk {
  account_id : Z;
  bank_name : string;
  fd_number : string;
  is_matured : string
}.

Definition validate (account_choices : list Z) (form : t) : bool :=
  negb (account_id form =? 0) && mem_Z (account_id form) account_choices
  && Length_max 100 (bank_name form)
  && Length_max 50 (fd_number form)
  && mem_str (is_matured form) ["0"; "1"].
End EditFixedDepositForm.

End forms.

(** ** app.py *)

Module app.
Import currency forms.
Local Open Scope py_scope.

(** A request to a form view: a GET, a POST that does not parse, or a
    POST carrying the form's data. *)
Inductive request (F : Type) : Type :=
| GET
| BadPost
| POST (form : F).
Arguments GET {F}.
Arguments BadPost {F}.
Arguments POST {F} form.

(** What a view answers: [first_or_404]'s 404, a redirect to an endpoint
    with the category of the flashed message, or a rendered template. *)
Inductive response : Type :=
| NotFound
| Redirect (endpoint flashed : string)
| Render (template : string).

(** [form.validate_on_submit()]: the data, when the request is a POST
    that validates. *)
Definition validate_on_submit {F : Type} (validate : F -> bool)
           (req : request F) : option F :=
  match req with
  | POST form => if validate form then Some form else None
  | _ => None
  end.

(** [Account.query.filter_by(id=account_id, user_id=user).first()] *)
Definition account_of_user (db : Store) (account_id user : Z)
  : option Account.t :=
  sql.first (filter (fun a => (Account.id a =? account_id)
                              && (Account.user_id a =? user))
                    (accounts db)).

(** [Account.query.filter_by(user_id=user).all()] *)
Definition accounts_of_user (db : Store) (user : Z) : list Account.t :=
  filter (fun a => Account.user_id a =? user) (accounts db).

(** *** /transactions/add *)

Definition add_category (c : Category.t) (db : Store) : Store :=
  {| accounts := accounts db;
     categories := categories db ++ [c];
     transactions := transactions db;
     fixed_deposits := fixed_deposits db |}.

(** [db.session.commit()] with the pending new transactions. *)
Definition commit_transactions (pending : list Transaction.t) (db : Store)
  : Store :=
  {| accounts := accounts db;
     categories := categories db;
     transactions := transactions db ++ pending;
     fixed_deposits := fixed_deposits db |}.

(** The category of the new transaction: the selected one, or for the
    ['__new__'] choice the normalised new name, created (and committed)
    unless the user or the defaults have it; [None] when the new name is
    empty. *)
Definition resolve_category (db : Store) (current_user : Z)
           (form : TransactionForm.t) : option (string * Store) :=
  let category_name := TransactionForm.category form in
  if String.eqb category_name "__new__" then
    let new_cat_name :=
      replace_space (lower (strip (TransactionForm.new_category form))) in
    if String.eqb new_cat_name "" then None
    else
      let existing :=
        sql.first
          (filter (fun c => (Category.owned_by current_user c
                             || Category.is_default c)
                            && String.eqb (Category.name c) new_cat_name)
                  (categories db)) in
      match existing with
      | None =>
          Some (new_cat_name,
                add_category
                  {| Category.user_id := Some current_user;
                     Category.name := new_cat_name |} db)
      | Some _ => Some (new_cat_name, db)
      end
  else Some (category_name, db).

Definition add_transaction (db : Store) (current_user : Z)
           (req : request TransactionForm.t) : response * Store :=
  let user_accounts := accounts_of_user db current_user in
  let account_choices := map Account.id user_accounts in
  let categories := Category.get_user_categories (categories db) current_user in
  let category_choices := "__new__" :: map Category.name categories in
  match user_accounts with
  | [] => (Redirect "add_account" "warning", db)
  | _ :: _ =>
      match validate_on_submit
              (TransactionForm.validate account_choices category_choices) req
      with
      | Some form =>
          (* Verify the account belongs to the user *)
          match account_of_user db (TransactionForm.account_id form)
                                current_user with
          | None => (Redirect "add_transaction" "danger", db)
          | Some account =>
              match resolve_category db current_user form with
              | None => (Redirect "add_transaction" "danger", db)
              | Some (category_name, db) =>
                  let expense :=
                    String.eqb (TransactionForm.transaction_type form)
                               "expense" in
                  (* Determine amount sign based on transaction type *)
                  let amount := Qabs (TransactionForm.amount form) in
                  let amount := if expense then (- amount)%Q else amount in
                  (* Handle my_share - if provided, apply same sign *)
                  let my_share :=
                    match TransactionForm.my_share form with
                    | Some share =>
                        if Qnonzero share then
                          let my_share := Qabs share in
                          Some (if expense then (- my_share)%Q else my_share)
                        else None
                    | None => None
                    end in
                  let transaction :=
                    {| Transaction.account_id := TransactionForm.account_id form;
                       Transaction.amount := amount;
                       Transaction.my_share := my_share;
                       Transaction.description :=
                         TransactionForm.description form;
                       Transaction.category := category_name;
                       Transaction.transaction_date :=
                         TransactionForm.transaction_date form |} in
                  let session := sql.add transaction [] in
                  (Redirect "account_detail" "success",
                   commit_transactions session db)
              end
          end
      | None => (Render "add_transaction.html", db)
      end
  end.

(** *** /transfer *)

Definition transfer (db : Store) (current_user : Z)
           (req : request TransferForm.t) : response * Store :=
  let user_accounts := accounts_of_user db current_user in
  let account_choices := map Account.id user_accounts in
  if (List.length user_accounts <? 2)%nat then
    (Redirect "add_account" "warning", db)
  else
    match validate_on_submit (TransferForm.validate account_choices) req with
    | Some form =>
        let from_account_id := TransferForm.from_account_id form in
        let to_account_id := TransferForm.to_account_id form in
        let amount := Qabs (TransferForm.amount form) in
        let description := str_or (TransferForm.description form) "Transfer" in
        let transfer_date := TransferForm.transfer_date form in
        (* Validate accounts *)
        if from_account_id =? to_account_id then
          (Redirect "transfer" "danger", db)
        else
          match account_of_user db from_account_id current_user,
                account_of_user db to_account_id current_user with
          | Some from_account, Some to_account =>
              (* Create outgoing transaction (negative amount from source) *)
              let outgoing :=
                {| Transaction.account_id := from_account_id;
                   Transaction.amount := (- amount)%Q;
                   Transaction.my_share := None;
                   Transaction.description :=
                     "Transfer to " ++ Account.name to_account ++ ": "
                                    ++ description;
                   Transaction.category := "transfer";
                   Transaction.transaction_date := transfer_date |} in
              (* Create incoming transaction (positive amount to destination) *)
              let incoming :=
                {| Transaction.account_id := to_account_id;
                   Transaction.amount := amount;
                   Transaction.my_share := None;
                   Transaction.description :=
                     "Transfer from " ++ Account.name from_account ++ ": "
                                      ++ description;
                   Transaction.category := "transfer";
                   Transaction.transaction_date := transfer_date |} in
              let session := sql.add outgoing [] in
              let session := sql.add incoming session in
              (Redirect "dashboard" "success",
               commit_transactions session db)
          | _, _ => (Redirect "transfer" "danger", db)
          end
    | None => (Render "transfer.html", db)
    end.

(** *** /reports/monthly *)

(** What the view hands to the template. *)
Record report : Type := mkReport {
  expenses : list (string * Q);      (* expenses_by_category *)
  total_income : Q;
  total_expenses : Q;
  net : Q;
  month_name : string;
  savings_contributions : Q;
  investment_contributions : Q
}.

Definition in_month (year month : Z) (tx : Transaction.t) : bool :=
  (Py.month (Transaction.transaction_date tx) =? month)
  && (Py.year (Transaction.transaction_date tx) =? year).

(** The transactions of the user's accounts dated in the month. *)
Definition monthly_transactions (db : Store) (current_user year month : Z)
  : list Transaction.t :=
  let account_ids := map Account.id (accounts_of_user db current_user) in
  filter (fun tx => mem_Z (Transaction.account_id tx) account_ids
                    && in_month year month tx)
         (transactions db).

(** [{a.id: a.currency for a in accounts}] *)
Definition account_currency_map (db : Store) (current_user : Z)
  : list (Z * string) :=
  map (fun a => (Account.id a, Account.currency a))
      (accounts_of_user db current_user).

(** The personal amount of a transaction, INR amounts converted to USD. *)
Definition personal_in_usd (currency_map : list (Z * string))
           (tx : Transaction.t) : M Q :=
  let personal := Transaction.personal_amount tx in
  let account_currency :=
    dict_get Z.eqb currency_map (Transaction.account_id tx) "USD" in
  if String.eqb account_currency "INR" then
    convert_currency personal "INR" "USD"
  else ret personal.

(** The accumulators of the loop over the month's transactions. *)
Definition totals : Type := (list (string * Q) * Q * Q)%type.

(** What one iteration does with the converted personal amount. *)
Definition tally (acc : totals) (personal : Q) (tx : Transaction.t) : totals :=
  let '(expenses_by_category, total_income, total_expenses) := acc in
  let not_transfer := negb (String.eqb (Transaction.category tx) "transfer") in
  if Qltb 0 personal && not_transfer then
    (expenses_by_category, (total_income + personal)%Q, total_expenses)
  else if Qltb personal 0 && not_transfer then
    let total_expenses := (total_expenses + personal)%Q in
    let cat := Transaction.category tx in
    let expenses_by_category :=
      if dict_contains String.eqb expenses_by_category cat
      then expenses_by_category
      else dict_set String.eqb expenses_by_category cat 0%Q in
    let expenses_by_category :=
      dict_set String.eqb expenses_by_category cat
        (dict_get String.eqb expenses_by_category cat 0 + Qabs personal)%Q in
    (expenses_by_category, total_income, total_expenses)
  else acc.

(** Inbound transfers of the month into the user's accounts of one type
    ([savings] or [investment]), in USD. *)
Definition contributions (db : Store) (current_user year month : Z)
           (account_type : string) : M Q :=
  let currency_map := account_currency_map db current_user in
  let ids :=
    map Account.id
        (filter (fun a => String.eqb (Account.account_type a) account_type)
                (accounts_of_user db current_user)) in
  let transfers :=
    filter (fun tx => mem_Z (Transaction.account_id tx) ids
                      && Qltb 0 (Transaction.amount tx)
                      && String.eqb (Transaction.category tx) "transfer"
                      && in_month year month tx)
           (transactions db) in
  for_each
    (fun total tx =>
       let amount := Transaction.amount tx in
       amount <-
         (if String.eqb
               (dict_get Z.eqb currency_map (Transaction.account_id tx) "USD")
               "INR"
          then convert_currency amount "INR" "USD"
          else ret amount) ;;
       ret (total + amount)%Q)
    transfers 0%Q.

Definition monthly_report (db : Store) (current_user year month : Z)
  : M report :=
  let currency_map := account_currency_map db current_user in
  ' (expenses_by_category, total_income, total_expenses) <-
    for_each
      (fun acc tx =>
         personal <- personal_in_usd currency_map tx ;;
         ret (tally acc personal tx))
      (monthly_transactions db current_user year month)
      ([], 0%Q, 0%Q) ;;
  savings_contributions <-
    contributions db current_user year month "savings" ;;
  investment_contributions <-
    contributions db current_user year month "investment" ;;
  first_day <- lift (new_date year month 1) ;;
  ret {| expenses := expenses_by_category;
         total_income := total_income;
         total_expenses := Qabs total_expenses;
         net := (total_income + total_expenses)%Q;
         month_name := month_name_of first_day;
         savings_contributions := savings_contributions;
         investment_contributions := investment_contributions |}.

(** *** /fixed-deposits/<fd_id>/edit *)

(** The UPDATE the session flushes for the four assignments of the view. *)
Definition set_fixed_deposit (fd_id account_id : Z)
           (bank_name fd_number : option string) (is_matured : bool)
           (db : Store) : Store :=
  {| accounts := accounts db;
     categories := categories db;
     transactions := transactions db;
     fixed_deposits :=
       map (fun fd =>
              if FixedDeposit.id fd =? fd_id then
                {| FixedDeposit.id := FixedDeposit.id fd;
                   FixedDeposit.account_id := account_id;
                   FixedDeposit.principal := FixedDeposit.principal fd;
                   FixedDeposit.interest_rate := FixedDeposit.interest_rate fd;
                   FixedDeposit.start_date := FixedDeposit.start_date fd;
                   FixedDeposit.maturity_date := FixedDeposit.maturity_date fd;
                   FixedDeposit.bank_name := bank_name;
                   FixedDeposit.fd_number := fd_number;
                   FixedDeposit.is_matured := is_matured |}
              else fd)
           (fixed_deposits db) |}.

Definition edit_fixed_deposit (db : Store) (current_user fd_id : Z)
           (req : request EditFixedDepositForm.t)
  : result (response * Store) :=
  match sql.first (filter (fun fd => FixedDeposit.id fd =? fd_id)
                          (fixed_deposits db)) with
  | None => Ok (NotFound, db)
  | Some fd =>
      (* fd.account: the account the deposit points to *)
      match sql.first (filter (fun a => Account.id a
                                        =? FixedDeposit.account_id fd)
                              (accounts db)) with
      | None => Raise AttributeError
      | Some account =>
          if negb (Account.user_id account =? current_user) then
            Ok (Redirect "fixed_deposits" "danger", db)
          else
            (* Populate account choices with INR accounts *)
            let inr_accounts :=
              filter (fun a => (Account.user_id a =? current_user)
                               && String.eqb (Account.currency a) "INR")
                     (accounts db) in
            let account_choices := map Account.id inr_accounts in
            match validate_on_submit
                    (EditFixedDepositForm.validate account_choices) req with
            | Some form =>
                Ok (Redirect "fixed_deposits" "success",
                    set_fixed_deposit (FixedDeposit.id fd)
                      (EditFixedDepositForm.account_id form)
                      (str_or_None (EditFixedDepositForm.bank_name form))
                      (str_or_None (EditFixedDepositForm.fd_number form))
                      (String.eqb (EditFixedDepositForm.is_matured form) "1")
                      db)
            | None => Ok (Render "edit_fixed_deposit.html", db)
            end
      end
  end.

End app.

(** ** The specification's vocabulary *)

Module Spec.
Import currency app.

(** [Σ xs] *)
Definition total (xs : list Q) : Q := fold_right Qplus 0%Q xs.

(** The transactions of an account. *)
Definition transactions_of (txs : list Transaction.t) (a : Account.t)
  : list Transaction.t :=
  filter (fun tx => Transaction.account_id tx =? Account.id a) txs.

(** [personal_amount] as the specification's testable property has it:
    a share that is null or zero gives the full amount. *)
Definition personal_amount_zero_as_absent (tx : Transaction.t) : Q :=
  match Transaction.my_share tx with
  | Some share => if Qnonzero share then share else Transaction.amount tx
  | None => Transaction.amount tx
  end.

(** A payload of the shape the rate source documents: an object whose
    [rates] member is an object whose [INR] member is a number. *)
Definition well_formed_payload (data : json) : bool :=
  match data with
  | JDict items =>
      match dict_get String.eqb items "rates" JNull with
      | JDict rates =>
          match dict_get String.eqb rates "INR" JNull with
          | JNum _ => true
          | _ => false
          end
      | _ => false
      end
  | _ => false
  end.

(** A fetch failure as the specification lists them: a network error, a
    non-200 response, a malformed payload. *)
Definition fetch_failure (r : http_result) : bool :=
  match r with
  | ConnectionFails => true
  | Response status_code body =>
      negb (status_code =? 200)
      || match body with
         | Some data => negb (well_formed_payload data)
         | None => true
         end
  end.

(** The payloads that stop the code: a body that is not JSON, a top
    level that is not an object, a [rates] member that is not one. *)
Definition unreadable_payload (body : option json) : bool :=
  match body with
  | Some (JDict items) =>
      match dict_get String.eqb items "rates" (JDict []) with
      | JDict _ => false
      | _ => true
      end
  | _ => true
  end.

(** A fetch the code gives up on: a network error, a non-200 response, or
    an unreadable payload. *)
Definition fetch_stops (r : http_result) : bool :=
  match r with
  | ConnectionFails => true
  | Response status_code body =>
      negb (status_code =? 200) || unreadable_payload body
  end.

(** The world after a call that leaves [cache] behind and sent [sent]
    requests. *)
Definition after_call (w : World) (cache : RateCache) (sent : nat) : World :=
  {| _rate_cache := cache;
     outside := outside w;
     calls := S (calls w);
     requests_sent := sent + requests_sent w |}.

(** The rate a readable payload gives: its [INR] rate, or the default
    when it has none. *)
Definition payload_rate (body : option json) : json :=
  match body with
  | Some (JDict items) =>
      match dict_get String.eqb items "rates" (JDict []) with
      | JDict rates =>
          dict_get String.eqb rates "INR" (JNum DEFAULT_EXCHANGE_RATE)
      | _ => JNull
      end
  | _ => JNull
  end.

(** **** The monthly report *)

(** The personal amounts in USD of a list of transactions, obtained from
    the converter one after the other. *)
Fixpoint converted_amounts (currency_map : list (Z * string))
         (txs : list Transaction.t) : M (list Q) :=
  match txs with
  | [] => ret []
  | tx :: rest =>
      bind (personal_in_usd currency_map tx) (fun p =>
      bind (converted_amounts currency_map rest) (fun ps =>
      ret (p :: ps)))
  end.

(** An entry of the month: a transaction with its personal amount in
    USD.  It is income when the amount is positive and an expense when
    it is negative, transfers apart. *)
Definition entry : Type := (Q * Transaction.t)%type.

Definition not_transfer (e : entry) : bool :=
  negb (String.eqb (Transaction.category (snd e)) "transfer").

Definition is_income (e : entry) : bool := Qltb 0 (fst e) && not_transfer e.
Definition is_expense (e : entry) : bool := Qltb (fst e) 0 && not_transfer e.

Definition income_sum (entries : list entry) : Q :=
  total (map fst (filter is_income entries)).

Definition expense_sum (entries : list entry) : Q :=
  total (map (fun e => Qabs (fst e)) (filter is_expense entries)).

Definition in_category (cat : string) (e : entry) : bool :=
  String.eqb (Transaction.category (snd e)) cat.

Definition expense_sum_in (cat : string) (entries : list entry) : Q :=
  expense_sum (filter (in_category cat) entries).

(** The report gives the aggregates of the entries: the income, the
    expenses in absolute value, and the expenses of each category, which
    add up to the total expenses. *)
Definition aggregates (rep : report) (entries : list entry) : Prop :=
  (total_income rep == income_sum entries)%Q
  /\ (total_expenses rep == expense_sum entries)%Q
  /\ (forall cat,
         (dict_get String.eqb (expenses rep) cat 0
          == expense_sum_in cat entries)%Q)
  /\ NoDup (map fst (expenses rep))
  /\ (total (map snd (expenses rep)) == total_expenses rep)%Q
  /\ (net rep == income_sum entries - expense_sum entries)%Q.

(** The personal amount of a transaction in USD at the rate [q]. *)
Definition usd_at (q : Q) (currency_map : list (Z * string))
           (tx : Transaction.t) : Q :=
  if String.eqb
       (dict_get Z.eqb currency_map (Transaction.account_id tx) "USD") "INR"
  then (Transaction.personal_amount tx / q)%Q
  else Transaction.personal_amount tx.

(** The cache holds the number [q] and stays fresh for every call to
    come. *)
Definition rate_holds (w : World) (q : Q) : Prop :=
  as_number (rate (_rate_cache w)) = Some q
  /\ forall k, (calls w <= k)%nat ->
               is_fresh (_rate_cache w) (now_at_check (outside w k)) = true.

(** **** Other notions the statements use *)

(** The terms of a deposit that no edit touches. *)
Definition fixed_terms (fd : FixedDeposit.t) : Z * Q * Q * date * date :=
  (FixedDeposit.id fd, FixedDeposit.principal fd,
   FixedDeposit.interest_rate fd, FixedDeposit.start_date fd,
   FixedDeposit.maturity_date fd).

End Spec.

(** ** Sample data *)

Module Samples.
Import currency forms app.

Definition jan (d : Z) : date := mkdate 2024 1 d.

Definition checking : Account.t :=
  Account.mk 1 7 "Checking" "checking" "USD" 1000 0.
Definition brokerage : Account.t :=
  Account.mk 2 7 "Brokerage" "investment" "USD" 500 1.
Definition india : Account.t :=
  Account.mk 3 7 "India Savings" "savings" "INR" 83000 2.

Definition paycheck : Transaction.t :=
  Transaction.mk 1 500 None "Salary" "salary" (jan 5).
Definition groceries : Transaction.t :=
  Transaction.mk 1 (-200) None "Market" "groceries" (jan 9).
Definition dinner : Transaction.t :=
  Transaction.mk 1 (-100) (Some (-50)%Q) "Dinner" "dining" (jan 12).
Definition rupee_rent : Transaction.t :=
  Transaction.mk 3 (-8300) None "Rent" "rent" (jan 2).
Definition zero_share : Transaction.t :=
  Transaction.mk 1 (-100) (Some 0%Q) "Covered by a friend" "dining" (jan 20).

Definition deposit : FixedDeposit.t :=
  FixedDeposit.mk 1 3 100000 7 (mkdate 2023 1 1) (mkdate 2024 1 1)
                  (Some "SBI") None false.

Definition ledger : Store :=
  {| accounts := [checking; brokerage; india];
     categories := [Category.mk None "salary"; Category.mk None "groceries";
                    Category.mk None "dining"; Category.mk None "rent";
                    Category.mk None "transfer"];
     transactions := [paycheck; groceries; dinner; rupee_rent];
     fixed_deposits := [deposit] |}.

(** A process whose cache, stamped at time 0, holds 84.5; it is two
    hours later and the rate source answers 200 with an empty object. *)
Definition stale_world : World :=
  {| _rate_cache := {| rate := JNum (169 # 2); last_updated := Some 0 |};
     outside := fun _ =>
       {| now_at_check := timedelta_hours 2;
          http := Response 200 (Some (JDict []));
          now_at_store := timedelta_hours 2 |};
     calls := 0;
     requests_sent := 0 |}.

(** A process that has never fetched and whose requests fail. *)
Definition offline_world : World :=
  {| _rate_cache := initial_rate_cache;
     outside := fun _ =>
       {| now_at_check := 0; http := ConnectionFails; now_at_store := 0 |};
     calls := 0;
     requests_sent := 0 |}.

(** A process that has never fetched and whose rate source quotes a rate
    of zero. *)
Definition zero_rate_world : World :=
  {| _rate_cache := initial_rate_cache;
     outside := fun _ =>
       {| now_at_check := 0;
          http := Response 200
                    (Some (JDict [("rates", JDict [("INR", JNum 0)])]));
          now_at_store := 0 |};
     calls := 0;
     requests_sent := 0 |}.

(** A process whose cache holds 83 and stays fresh. *)
Definition steady_world : World :=
  {| _rate_cache := {| rate := JNum 83; last_updated := Some 0 |};
     outside := fun _ =>
       {| now_at_check := 60000000; http := ConnectionFails;
          now_at_store := 60000000 |};
     calls := 0;
     requests_sent := 0 |}.

End Samples.

(** ** More of the runtime *)

Module runtime.

(** The fields of a [datetime.date] object are always those of a day of
    the calendar. *)
Definition valid_date (d : date) : bool :=
  (1 <=? year d) && (year d <=? 9999)
  && (1 <=? month d) && (month d <=? 12)
  && (1 <=? day d) && (day d <=? _days_in_month (year d) (month d)).

(** [a < b] and [a <= b] on dates: the comparison of the tuples
    [(year, month, day)]. *)
Definition date_compare (a b : date) : comparison :=
  match year a ?= year b with
  | Eq => match month a ?= month b with
          | Eq => day a ?= day b
          | c => c
          end
  | c => c
  end.

Definition date_lt (a b : date) : bool :=
  match date_compare a b with Lt => true | _ => false end.

Definition date_le (a b : date) : bool :=
  match date_compare a b with Gt => false | _ => true end.

(** The key sqlite gives a row inserted without one: one more than the
    largest key of the table. *)
Definition next_key (keys : list Z) : Z := 1 + fold_right Z.max 0 keys.

(** [sum(xs)] of the built-ins. *)
Definition py_sum (xs : list Q) : Q := fold_left Qplus xs 0%Q.

End runtime.

(** ** models.py, the remaining properties of the models *)

Module models.
Import runtime.

(** [Account.total_fixed_deposits]: the sum of all active fixed deposit
    principals (INR accounts only). *)
Definition total_fixed_deposits (fds : list FixedDeposit.t) (self : Account.t)
  : Q :=
  if negb (String.eqb (Account.currency self) "INR") then 0%Q
  else
    sql.coalesce
      (sql.sum (map FixedDeposit.principal
                  (filter (fun fd => (FixedDeposit.account_id fd
                                      =? Account.id self)
                                     && negb (FixedDeposit.is_matured fd))
                          fds)))
      0%Q.

(** [Account.total_value]: account balance + fixed deposit principals. *)
Definition total_value (db : Store) (self : Account.t) : Q :=
  (Account.current_balance (transactions db) self
   + total_fixed_deposits (fixed_deposits db) self)%Q.

(** [FixedDeposit.is_past_maturity] *)
Definition is_past_maturity (today : date) (self : FixedDeposit.t) : bool :=
  date_lt (FixedDeposit.maturity_date self) today.

Definition DEFAULT_CATEGORIES : list string :=
  ["income"; "salary"; "groceries"; "utilities"; "rent"; "mortgage";
   "transportation"; "entertainment"; "dining"; "shopping";
   "healthcare"; "insurance"; "education"; "travel"; "transfer"; "other"].

(** [Category.query.filter_by(user_id=None, name=cat_name).first()] *)
Definition default_category (categories : list Category.t) (cat_name : string)
  : option Category.t :=
  sql.first (filter (fun c => Category.is_default c
                              && String.eqb (Category.name c) cat_name)
                    categories).

(** [Category.init_default_categories], over a list of names. *)
Fixpoint init_categories (names : list string) (categories : list Category.t)
  : list Category.t :=
  match names with
  | [] => categories
  | cat_name :: rest =>
      match default_category categories cat_name with
      | None =>
          init_categories rest
            (sql.add {| Category.user_id := None; Category.name := cat_name |}
                     categories)
      | Some _ => init_categories rest categories
      end
  end.

Definition init_default_categories (db : Store) : Store :=
  {| accounts := accounts db;
     categories := init_categories DEFAULT_CATEGORIES (categories db);
     transactions := transactions db;
     fixed_deposits := fixed_deposits db |}.

End models.

(** ** forms.py, the forms of accounts and fixed deposits *)

Module account_forms.
Import runtime forms.

(** [AccountForm] and [EditAccountForm] declare the same fields. *)
Module AccountForm.
Record t : Type := mk {
  name : string;
  account_type : string;
  currency : string;
  initial_balance : Q
}.

Definition validate (form : t) : bool :=
  DataRequired_str (name form) && Length_max 100 (name form)
  && mem_str (account_type form)
             ["checking"; "savings"; "credit_card"; "loan"; "investment"]
  && mem_str (currency form) ["USD"; "INR"].
End AccountForm.

Module FixedDepositForm.
Record t : Type := mk {
  account_id : Z;
  principal : Q;
  interest_rate : Q;
  start_date : date;
  maturity_date : date;
  bank_name : string;
  fd_number : string;
  debit_from_account : bool
}.

(** The inline validator of the maturity date: after the start date, and
    at least 7 days after it. *)
Definition validate_maturity_date (form : t) : bool :=
  negb (date_le (maturity_date form) (start_date form))
  && negb (days_between (maturity_date form) (start_date form) <? 7).

Definition validate (account_choices : list Z) (form : t) : bool :=
  negb (account_id form =? 0) && mem_Z (account_id form) account_choices
  && Qnonzero (principal form) && NumberRange_min 1000 (principal form)
  && Qnonzero (interest_rate form)
  && NumberRange_min (1 # 10) (interest_rate form)
  && Qle_bool (interest_rate form) 15
  && validate_maturity_date form
  && Length_max 100 (bank_name form)
  && Length_max 50 (fd_number form).
End FixedDepositForm.

End account_forms.

(** ** app.py, the views of accounts and fixed deposits *)

Module views.
Import runtime models forms account_forms currency app.

(** *** /accounts/add *)


(** *** /accounts/<account_id>/delete *)



(** *** /accounts/<account_id>/edit *)



(** *** /fixed-deposits/add *)

(** [Account.query.filter_by(user_id=user, currency='INR').all()] *)
Definition inr_accounts_of_user (db : Store) (user : Z) : list Account.t :=
  filter (fun a => (Account.user_id a =? user)
                   && String.eqb (Account.currency a) "INR")
         (accounts db).

Definition add_fixed_deposit (db : Store) (current_user : Z)
           (req : request FixedDepositForm.t) : response * Store :=
  let inr_accounts := inr_accounts_of_user db current_user in
  let account_choices := map Account.id inr_accounts in
  match inr_accounts with
  | [] => (Redirect "add_account" "warning", db)
  | _ :: _ =>
      match validate_on_submit (FixedDepositForm.validate account_choices) req
      with
      | Some form =>
          match sql.first
                  (filter (fun a => (Account.id a
                                     =? FixedDepositForm.account_id form)
                                    && (Account.user_id a =? current_user)
                                    && String.eqb (Account.currency a) "INR")
                          (accounts db)) with
          | None => (Redirect "add_fixed_deposit" "danger", db)
          | Some account =>
              let fd :=
                {| FixedDeposit.id :=
                     next_key (map FixedDeposit.id (fixed_deposits db));
                   FixedDeposit.account_id := FixedDepositForm.account_id form;
                   FixedDeposit.principal := FixedDepositForm.principal form;
                   FixedDeposit.interest_rate :=
                     FixedDepositForm.interest_rate form;
                   FixedDeposit.start_date := FixedDepositForm.start_date form;
                   FixedDeposit.maturity_date :=
                     FixedDepositForm.maturity_date form;
                   FixedDeposit.bank_name :=
                     str_or_None (FixedDepositForm.bank_name form);
                   FixedDeposit.fd_number :=
                     str_or_None (FixedDepositForm.fd_number form);
                   FixedDeposit.is_matured := false |} in
              (* Create debit transaction if requested *)
              let session :=
                if FixedDepositForm.debit_from_account form then
                  let bank_info :=
                    match FixedDepositForm.bank_name form with
                    | EmptyString => ""
                    | bank => " (" ++ bank ++ ")"
                    end in
                  let fd_ref :=
                    match FixedDepositForm.fd_number form with
                    | EmptyString => ""
                    | ref => " - " ++ ref
                    end in
                  sql.add
                    {| Transaction.account_id :=
                         FixedDepositForm.account_id form;
                       Transaction.amount :=
                         (- FixedDepositForm.principal form)%Q;
                       Transaction.my_share := None;
                       Transaction.description :=
                         "Fixed Deposit" ++ bank_info ++ fd_ref;
                       Transaction.category := "transfer";
                       Transaction.transaction_date :=
                         FixedDepositForm.start_date form |}
                    []
                else [] in
              (Redirect "fixed_deposits" "success",
               {| accounts := accounts db;
                  categories := categories db;
                  transactions := (transactions db ++ session)%list;
                  fixed_deposits := sql.add fd (fixed_deposits db) |})
          end
      | None => (Render "add_fixed_deposit.html", db)
      end
  end.

(** *** /fixed-deposits/<fd_id>/mark-matured and .../delete

    [fd_of_user] is the lookup both views start with: the deposit, a 404,
    a refusal when its account belongs to another user, or the
    [AttributeError] of [fd.account.user_id] when the account is gone. *)
Inductive fd_lookup : Type :=
| FdMissing
| FdForeign
| FdOrphan
| FdFound (fd : FixedDeposit.t).

Definition fd_of_user (db : Store) (current_user fd_id : Z) : fd_lookup :=
  match sql.first (filter (fun fd => FixedDeposit.id fd =? fd_id)
                          (fixed_deposits db)) with
  | None => FdMissing
  | Some fd =>
      match sql.first (filter (fun a => Account.id a
                                        =? FixedDeposit.account_id fd)
                              (accounts db)) with
      | None => FdOrphan
      | Some account =>
          if negb (Account.user_id account =? current_user) then FdForeign
          else FdFound fd
      end
  end.

(** The UPDATE of [fd.is_matured = True]. *)
Definition set_matured (fd_id : Z) (db : Store) : Store :=
  {| accounts := accounts db;
     categories := categories db;
     transactions := transactions db;
     fixed_deposits :=
       map (fun fd =>
              if FixedDeposit.id fd =? fd_id then
                {| FixedDeposit.id := FixedDeposit.id fd;
                   FixedDeposit.account_id := FixedDeposit.account_id fd;
                   FixedDeposit.principal := FixedDeposit.principal fd;
                   FixedDeposit.interest_rate := FixedDeposit.interest_rate fd;
                   FixedDeposit.start_date := FixedDeposit.start_date fd;
                   FixedDeposit.maturity_date := FixedDeposit.maturity_date fd;
                   FixedDeposit.bank_name := FixedDeposit.bank_name fd;
                   FixedDeposit.fd_number := FixedDeposit.fd_number fd;
                   FixedDeposit.is_matured := true |}
              else fd)
           (fixed_deposits db) |}.

(** The store after the view's commit (the flashed text, which formats
    the maturity value, is left out). *)
Definition mark_fd_matured (db : Store) (current_user fd_id : Z)
  : result (response * Store) :=
  match fd_of_user db current_user fd_id with
  | FdMissing => Ok (NotFound, db)
  | FdOrphan => Raise AttributeError
  | FdForeign => Ok (Redirect "fixed_deposits" "danger", db)
  | FdFound fd =>
      Ok (Redirect "fixed_deposits" "success",
          set_matured (FixedDeposit.id fd) db)
  end.

Definition delete_fixed_deposit (db : Store) (current_user fd_id : Z)
  : result (response * Store) :=
  match fd_of_user db current_user fd_id with
  | FdMissing => Ok (NotFound, db)
  | FdOrphan => Raise AttributeError
  | FdForeign => Ok (Redirect "fixed_deposits" "danger", db)
  | FdFound fd =>
      Ok (Redirect "fixed_deposits" "success",
          {| accounts := accounts db;
             categories := categories db;
             transactions := transactions db;
             fixed_deposits :=
               filter (fun row => negb (FixedDeposit.id row
                                        =? FixedDeposit.id fd))
                      (fixed_deposits db) |})
  end.

End views.

(** ** app.py, the summaries *)

Module summaries.
Import runtime models currency app.
Local Open Scope py_scope.

(** *** /currency-summary *)



(** *** /dashboard, its two figures *)

(** The loop over this month's expense rows: rows whose personal amount
    is not negative are skipped. *)
Definition dashboard_expenses (db : Store) (current_user : Z) (today : date)
  : M Q :=
  let accounts := accounts_of_user db current_user in
  let account_ids := map Account.id accounts in
  let account_currency_map := account_currency_map db current_user in
  let monthly_transactions :=
    filter (fun tx => forms.mem_Z (Transaction.account_id tx) account_ids
                      && Qltb (Transaction.amount tx) 0
                      && negb (String.eqb (Transaction.category tx) "transfer")
                      && in_month (year today) (month today) tx)
           (transactions db) in
  monthly_expenses <-
    for_each
      (fun monthly_expenses tx =>
         let amount := Transaction.personal_amount tx in
         if negb (Qltb amount 0) then ret monthly_expenses
         else
           amount <-
             (if String.eqb (dict_get Z.eqb account_currency_map
                                      (Transaction.account_id tx) "USD") "INR"
              then convert_currency amount "INR" "USD"
              else ret amount) ;;
           ret (monthly_expenses + amount)%Q)
      monthly_transactions 0%Q ;;
  ret (Qabs monthly_expenses).

(** The total balance in USD, INR accounts converted. *)
Definition dashboard_total_balance (db : Store) (current_user : Z) : M Q :=
  for_each
    (fun total_balance_usd account =>
       if String.eqb (Account.currency account) "INR" then
         v <- convert_currency (total_value db account) "INR" "USD" ;;
         ret (total_balance_usd + v)%Q
       else ret (total_balance_usd + total_value db account)%Q)
    (accounts_of_user db current_user) 0%Q.

(** The two figures the view hands to the template, [total_balance] and
    [monthly_expenses], computed in the order of the view. *)
Definition dashboard (db : Store) (current_user : Z) (today : date)
  : M (Q * Q) :=
  total_balance_usd <- dashboard_total_balance db current_user ;;
  monthly_expenses <- dashboard_expenses db current_user today ;;
  ret (total_balance_usd, monthly_expenses).

End summaries.

(** ** app.py, the actual figures of the budget page *)

Module budget_view.
Import runtime currency app.
Local Open Scope py_scope.

(** What [budget] computes before it turns to the goals of the budget:
    the actual figures of the current month. *)
Record actuals : Type := mkActuals {
  actual_income : Q;
  actual_expenses : list (string * Q);     (* actual_expenses_by_category *)
  total_actual_expenses : Q;
  savings_contributions : Q;
  investment_contributions : Q;
  account_contributions : list (Z * Q)
}.

(** What one iteration does with the converted personal amount. *)
Definition track (acc : list (string * Q) * Q) (personal : Q)
           (tx : Transaction.t) : list (string * Q) * Q :=
  let '(actual_expenses_by_category, actual_income) := acc in
  let not_transfer := negb (String.eqb (Transaction.category tx) "transfer") in
  if Qltb 0 personal && not_transfer then
    (actual_expenses_by_category, (actual_income + personal)%Q)
  else if Qltb personal 0 && not_transfer then
    let cat := Transaction.category tx in
    let actual_expenses_by_category :=
      if dict_contains String.eqb actual_expenses_by_category cat
      then actual_expenses_by_category
      else dict_set String.eqb actual_expenses_by_category cat 0%Q in
    let actual_expenses_by_category :=
      dict_set String.eqb actual_expenses_by_category cat
        (dict_get String.eqb actual_expenses_by_category cat 0
         + Qabs personal)%Q in
    (actual_expenses_by_category, actual_income)
  else acc.

(** The contributions of the month to the accounts of one type: nothing
    is queried when the user has no such account. *)
Definition guarded_contributions (db : Store) (current_user : Z)
           (today : date) (account_type : string) : M Q :=
  match filter (fun a => String.eqb (Account.account_type a) account_type)
               (accounts_of_user db current_user) with
  | [] => ret 0%Q
  | _ :: _ =>
      contributions db current_user (year today) (month today) account_type
  end.

(** The inbound transfers of the month into one account, in USD. *)
Definition account_contribution (db : Store) (today : date)
           (account : Account.t) : M Q :=
  let transfers :=
    filter (fun tx => (Transaction.account_id tx =? Account.id account)
                      && Qltb 0 (Transaction.amount tx)
                      && String.eqb (Transaction.category tx) "transfer"
                      && in_month (year today) (month today) tx)
           (transactions db) in
  for_each
    (fun total tx =>
       let amount := Transaction.amount tx in
       amount <-
         (if String.eqb (Account.currency account) "INR"
          then convert_currency amount "INR" "USD"
          else ret amount) ;;
       ret (total + amount)%Q)
    transfers 0%Q.

Definition budget_actuals (db : Store) (current_user : Z) (today : date)
  : M actuals :=
  let accounts := accounts_of_user db current_user in
  let account_currency_map := account_currency_map db current_user in
  (* Calculate actual income and expenses by category *)
  ' (actual_expenses_by_category, actual_income) <-
    for_each
      (fun acc tx =>
         personal <- personal_in_usd account_currency_map tx ;;
         ret (track acc personal tx))
      (monthly_transactions db current_user (year today) (month today))
      ([], 0%Q) ;;
  let total_actual_expenses :=
    py_sum (map snd actual_expenses_by_category) in
  (* Calculate savings/investment contributions this month *)
  let savings_accounts :=
    filter (fun a => String.eqb (Account.account_type a) "savings")
           accounts in
  let investment_accounts :=
    filter (fun a => String.eqb (Account.account_type a) "investment")
           accounts in
  savings_contributions <-
    guarded_contributions db current_user today "savings" ;;
  investment_contributions <-
    guarded_contributions db current_user today "investment" ;;
  (* Calculate per-account contributions this month *)
  account_contributions <-
    for_each
      (fun account_contributions account =>
         total <- account_contribution db today account ;;
         ret (dict_set Z.eqb account_contributions (Account.id account)
                       total))
      (savings_accounts ++ investment_accounts) [] ;;
  ret {| actual_income := actual_income;
         actual_expenses := actual_expenses_by_category;
         total_actual_expenses := total_actual_expenses;
         savings_contributions := savings_contributions;
         investment_contributions := investment_contributions;
         account_contributions := account_contributions |}.

End budget_view.

(** ** app.py, the list of fixed deposits *)

Module deposits_view.
Import runtime models forms views.

(** [ORDER BY maturity_date]: the rows in ascending order of the date;
    rows with the same date are left in the order of the table. *)
Fixpoint insert_by_maturity (fd : FixedDeposit.t) (rows : list FixedDeposit.t)
  : list FixedDeposit.t :=
  match rows with
  | [] => [fd]
  | r :: rest =>
      if date_le (FixedDeposit.maturity_date fd) (FixedDeposit.maturity_date r)
      then fd :: rows
      else r :: insert_by_maturity fd rest
  end.

Fixpoint order_by_maturity (rows : list FixedDeposit.t)
  : list FixedDeposit.t :=
  match rows with
  | [] => []
  | fd :: rest => insert_by_maturity fd (order_by_maturity rest)
  end.

(** [ORDER BY maturity_date DESC] *)
Fixpoint insert_by_maturity_desc (fd : FixedDeposit.t)
         (rows : list FixedDeposit.t) : list FixedDeposit.t :=
  match rows with
  | [] => [fd]
  | r :: rest =>
      if date_le (FixedDeposit.maturity_date r) (FixedDeposit.maturity_date fd)
      then fd :: rows
      else r :: insert_by_maturity_desc fd rest
  end.

Fixpoint order_by_maturity_desc (rows : list FixedDeposit.t)
  : list FixedDeposit.t :=
  match rows with
  | [] => []
  | fd :: rest => insert_by_maturity_desc fd (order_by_maturity_desc rest)
  end.

(** The two queries of the page, run when the user has an INR account:
    the active deposits by maturity date, and the 10 matured deposits
    that matured last. *)
Definition active_fds (db : Store) (current_user : Z) : list FixedDeposit.t :=
  let inr_accounts := inr_accounts_of_user db current_user in
  let account_ids := map Account.id inr_accounts in
  match account_ids with
  | [] => []
  | _ :: _ =>
      order_by_maturity
        (filter (fun fd => mem_Z (FixedDeposit.account_id fd) account_ids
                           && negb (FixedDeposit.is_matured fd))
                (fixed_deposits db))
  end.

Definition matured_fds (db : Store) (current_user : Z) : list FixedDeposit.t :=
  let inr_accounts := inr_accounts_of_user db current_user in
  let account_ids := map Account.id inr_accounts in
  match account_ids with
  | [] => []
  | _ :: _ =>
      firstn 10
        (order_by_maturity_desc
           (filter (fun fd => mem_Z (FixedDeposit.account_id fd) account_ids
                              && FixedDeposit.is_matured fd)
                   (fixed_deposits db)))
  end.

End deposits_view.

(** ** app.py, the order of the accounts *)

Module reorder.
Import app.

(** The body of the request: one that is not announced as JSON; a JSON
    value that is empty or an object without [order]; or an object whose
    [order] is a list of integers, as the page's script sends it. *)
Inductive body : Type :=
| NotJson
| NoOrder
| Order (order : list Z).

(** The UPDATE the session flushes for [account.display_order = index]. *)
Definition set_display_order (account_id index : Z) (db : Store) : Store :=
  {| accounts :=
       map (fun a =>
              if Account.id a =? account_id then
                {| Account.id := Account.id a;
                   Account.user_id := Account.user_id a;
                   Account.name := Account.name a;
                   Account.account_type := Account.account_type a;
                   Account.currency := Account.currency a;
                   Account.initial_balance := Account.initial_balance a;
                   Account.display_order := index |}
              else a)
           (accounts db);
     categories := categories db;
     transactions := transactions db;
     fixed_deposits := fixed_deposits db |}.

(** [for index, account_id in enumerate(order): ...], from [index] on:
    the store with the pending changes, or the exception of a lookup. *)
Fixpoint reorder_from (current_user index : Z) (order : list Z) (db : Store)
  : result Store :=
  match order with
  | [] => Ok db
  | account_id :: rest =>
      match sql.integer account_id with
      | Ok account_id =>
          let db :=
            match account_of_user db account_id current_user with
            | Some account => set_display_order (Account.id account) index db
            | None => db
            end in
          reorder_from current_user (index + 1) rest db
      | Raise e => Raise e
      end
  end.

(** The view answers with a status code; nothing is committed when the
    loop raises. *)
Definition reorder_accounts (db : Store) (current_user : Z) (data : body)
  : Z * Store :=
  match data with
  | NotJson => (415, db)
  | NoOrder => (400, db)
  | Order order =>
      match reorder_from current_user 0 order db with
      | Ok db' => (200, db')
      | Raise _ => (500, db)
      end
  end.

End reorder.

(** ** backup.py *)

Module backup.

(** Maximum number of backups to keep (older ones are pruned). *)
Definition MAX_BACKUPS : nat := 7.

Definition _BACKUP_PREFIX : string := "finance_tracker_".

(** [BACKUP_DIR] as the module sees it: whether it exists, the names of
    its entries, and which of them are directories. *)
Record directory : Type := mkDir {
  dir_exists : bool;
  names : list string;
  is_dir : string -> bool
}.

(** [s.endswith(suffix)] *)
Fixpoint endswith (s suffix : string) : bool :=
  if String.eqb s suffix then true
  else match s with
       | EmptyString => false
       | String _ rest => endswith rest suffix
       end.

(** A name matches the pattern ['finance_tracker_*.db'] when the prefix
    and the suffix fit in it one after the other. *)
Definition is_backup (name : string) : bool :=
  String.prefix _BACKUP_PREFIX name
  && endswith name ".db"
  && (String.length _BACKUP_PREFIX + 3 <=? String.length name)%nat.

(** [sorted(paths)]: the paths of one directory, in ascending order of
    their names. *)
Fixpoint insert_sorted (name : string) (sorted_names : list string)
  : list string :=
  match sorted_names with
  | [] => [name]
  | n :: rest =>
      if String.leb name n then name :: sorted_names
      else n :: insert_sorted name rest
  end.

Fixpoint sorted (paths : list string) : list string :=
  match paths with
  | [] => []
  | n :: rest => insert_sorted n (sorted rest)
  end.

(** All backup files sorted oldest-first. *)
Definition list_backups (dir : directory) : list string :=
  if negb (dir_exists dir) then []
  else sorted (filter is_backup (names dir)).

(** [backups[:-MAX_BACKUPS]] *)
Definition all_but_last (n : nat) (backups : list string) : list string :=
  firstn (List.length backups - n) backups.

(** [old.unlink()]: the entry goes, unless it is a directory. *)
Inductive outcome : Type :=
| Done
| IsADirectoryError (name : string).

Definition unlink (old : string) (dir : directory) : outcome * directory :=
  if is_dir dir old then (IsADirectoryError old, dir)
  else (Done,
        {| dir_exists := dir_exists dir;
           names := filter (fun n => negb (String.eqb n old)) (names dir);
           is_dir := is_dir dir |}).

(** [for old in doomed: old.unlink()] *)
Fixpoint unlink_each (doomed : list string) (dir : directory)
  : outcome * directory :=
  match doomed with
  | [] => (Done, dir)
  | old :: rest =>
      match unlink old dir with
      | (Done, dir') => unlink_each rest dir'
      | failure => failure
      end
  end.

(** Delete the oldest backups beyond [MAX_BACKUPS]. *)
Definition _prune_old_backups (dir : directory) : outcome * directory :=
  let backups := list_backups dir in
  unlink_each (all_but_last MAX_BACKUPS backups) dir.

End backup.

(** ** Notions of the further properties *)

Module Notions.
Import currency.

(** The rates [n] successive calls of [get_exchange_rate] return. *)
Fixpoint rates_of_calls (n : nat) : M (list json) :=
  match n with
  | O => ret []
  | S k =>
      bind get_exchange_rate (fun r =>
      bind (rates_of_calls k) (fun rs => ret (r :: rs)))
  end.

(** A character of a normalised category name: no space, no capital. *)
Definition plain_char (c : ascii) : bool :=
  negb (Ascii.eqb c " "%char)
  && negb ((65 <=? nat_of_ascii c)%nat && (nat_of_ascii c <=? 90)%nat).

Fixpoint all_chars (p : ascii -> bool) (s : string) : bool :=
  match s with
  | EmptyString => true
  | String c rest => p c && all_chars p rest
  end.

(** The value of an account in USD at the rate [q]: its balance with
    its active deposits, divided by the rate when the account is in INR. *)
Definition usd_value (q : Q) (db : Store) (a : Account.t) : Q :=
  if String.eqb (Account.currency a) "INR"
  then (models.total_value db a / q)%Q
  else models.total_value db a.

(** A transaction whose personal amount is negative only when its amount
    is, as the transactions the form stores are. *)
Definition share_follows_amount (tx : Transaction.t) : bool :=
  negb (Qltb (Transaction.personal_amount tx) 0)
  || Qltb (Transaction.amount tx) 0.

(** A backup directory with nine backups and two other files. *)
Definition crowded : backup.directory :=
  {| backup.dir_exists := true;
     backup.names :=
       ["finance_tracker_2024-01-03_00-00-00.db"; "notes.txt";
        "finance_tracker_2024-01-01_00-00-00.db";
        "finance_tracker_2024-01-09_00-00-00.db";
        "finance_tracker_2024-01-02_00-00-00.db";
        "finance_tracker_2024-01-05_00-00-00.db";
        "finance_tracker_2024-01-04_00-00-00.db"; "finance_tracker.db";
        "finance_tracker_2024-01-07_00-00-00.db";
        "finance_tracker_2024-01-06_00-00-00.db";
        "finance_tracker_2024-01-08_00-00-00.db"];
     backup.is_dir := fun _ => false |}.

(** The same directory, where the second oldest backup is a directory. *)
Definition blocked : backup.directory :=
  {| backup.dir_exists := true;
     backup.names := backup.names crowded;
     backup.is_dir :=
       String.eqb "finance_tracker_2024-01-02_00-00-00.db" |}.

End Notions.

(** ** Binary64 numbers

    The values of a [db.Float] column and of a Python [float]: IEEE 754
    binary64 numbers, with the operations of the standard specification
    ([SpecFloat]), rounding to nearest, ties to even. *)

Module binary64.

Definition float : Type := spec_float.

Definition prec : Z := 53.
Definition emax : Z := 1024.

Definition add : float -> float -> float := SFadd prec emax.
Definition sub : float -> float -> float := SFsub prec emax.
Definition mul : float -> float -> float := SFmul prec emax.

(** [x / y] for a divisor that is not zero. *)
Definition div : float -> float -> float := SFdiv prec emax.

(** [abs(x)], [x < y], [x == y]. *)
Definition abs : float -> float := SFabs.
Definition ltb : float -> float -> bool := SFltb.
Definition eqb : float -> float -> bool := SFeqb.

(** [0.0]; it is also what the integer [0] is in an operation with a
    float. *)
Definition zero : float := S754_zero false.

Definition is_zero (x : float) : bool :=
  match x with S754_zero _ => true | _ => false end.

Definition is_nan (x : float) : bool :=
  match x with S754_nan => true | _ => false end.

Definition is_infinite (x : float) : bool :=
  match x with S754_infinity _ => true | _ => false end.


(** The float nearest to the integer [n]. *)
Definition of_int (n : Z) : float := binary_normalize prec emax n 0 false.

(** The float nearest to the fraction [n / d]: the value of a decimal
    literal, such as [decimal 153676 100] for [1536.76]. *)
Definition decimal (n : Z) (d : positive) : float :=
  match n with
  | Z0 => zero
  | Zpos p => div (S754_finite false p 0) (S754_finite false d 0)
  | Zneg p => div (S754_finite true p 0) (S754_finite false d 0)
  end.

(** [sum(xs)] of the built-ins, and [SUM] of the database over rows that
    exist: the values are added one after the other, from 0. *)
Definition sum (xs : list float) : float := fold_left add xs zero.

End binary64.

(** ** The balances, the converter and the monthly report on binary64
    amounts

    The parts of [models.py], [currency.py] and [app.py] whose results
    depend on the rounding of the arithmetic, with amounts as the floats
    they are. *)

Module ledger.
Import binary64 currency.
Local Open Scope py_scope.

(** *** models.py *)

Module Transaction.

Record t : Type := mk {
  account_id : Z;
  amount : float;              (* full transaction amount *)
  my_share : option float;     (* NULL = same as amount *)
  description : string;
  category : string;
  transaction_date : date
}.

(** Returns the user's personal share ([my_share] if set, otherwise the
    full amount). *)
Definition personal_amount (self : t) : float :=
  match my_share self with
  | Some share => share
  | None => amount self
  end.

End Transaction.

(** A float written to or returned by the database: the database has
    no NaN and keeps [NULL] in its place. *)
Definition sql_real (v : float) : option float :=
  if is_nan v then None else Some v.

(** [db.func.sum(column)]: [NULL] over no rows; over the rows that exist,
    their values added one after the other. *)
Definition sql_sum (values : list float) : option float :=
  match values with
  | [] => None
  | _ :: _ => sql_real (sum values)
  end.

(** [db.func.coalesce(value, 0)], the integer 0 read as a float by the
    addition or subtraction that follows. *)
Definition coalesce_0 (value : option float) : float :=
  match value with
  | Some v => v
  | None => zero
  end.

Module Account.

Record t : Type := mk {
  id : Z;
  user_id : Z;
  name : string;
  account_type : string;
  currency : string;
  initial_balance : option float   (* nullable; never a NaN *)
}.

(** [Account.current_balance], the query run against the transactions
    table [transactions]; [None + total_transactions] raises. *)
Definition current_balance (transactions : list Transaction.t) (self : t)
  : result float :=
  let total_transactions :=
    coalesce_0
      (sql_sum (map Transaction.amount
                    (filter (fun tx => Transaction.account_id tx =? id self)
                            transactions))) in
  match initial_balance self with
  | Some initial_balance => Ok (add initial_balance total_transactions)
  | None => Raise TypeError
  end.

End Account.

(** The two tables these views read and write. *)
Record Store : Type := mkStore {
  accounts : list Account.t;
  transactions : list Transaction.t
}.

(** *** currency.py *)

(** The decoded rate as an operand of [*] and [/] with a float.  A whole
    number is the integer (83 and 83.0 are the same operand): it is
    converted to the nearest float, or is too large for one.  A number
    with a fraction is the float its literal denotes.  A boolean is 0 or
    1; anything else is no operand. *)
Definition number (rate : json) : result float :=
  match rate with
  | JNum q =>
      let q := Qred q in
      match Qden q with
      | xH =>
          let r := of_int (Qnum q) in
          if is_infinite r then Raise OverflowError else Ok r
      | d => Ok (decimal (Qnum q) d)
      end
  | JBool b => Ok (if b then of_int 1 else zero)
  | _ => Raise TypeError
  end.

(** [amount * rate] and [amount / rate] for a float [amount]. *)
Definition times (amount : float) (rate : json) : result float :=
  match number rate with
  | Ok r => Ok (mul amount r)
  | Raise e => Raise e
  end.

Definition over (amount : float) (rate : json) : result float :=
  match number rate with
  | Ok r => if is_zero r then Raise ZeroDivisionError else Ok (div amount r)
  | Raise e => Raise e
  end.

Definition convert_currency (amount : float) (from_currency to_currency : string)
  : M float :=
  if String.eqb from_currency to_currency then ret amount
  else
    rate <- get_exchange_rate ;;
    if String.eqb from_currency "USD" && String.eqb to_currency "INR" then
      lift (times amount rate)
    else if String.eqb from_currency "INR" && String.eqb to_currency "USD" then
      lift (over amount rate)
    else ret amount.

(** *** forms.py *)

Module UpdateBalanceForm.
Record t : Type := mk {
  new_balance : float;
  input_currency : string
}.

Definition validate (form : t) : bool :=
  forms.mem_str (input_currency form) ["USD"; "INR"].
End UpdateBalanceForm.

(** *** app.py, /accounts/<account_id>/update-balance *)

(** [Account.query.filter_by(id=account_id, user_id=user).first()] *)
Definition account_of_user (db : Store) (account_id user : Z)
  : option Account.t :=
  sql.first (filter (fun a => (Account.id a =? account_id)
                              && (Account.user_id a =? user))
                    (accounts db)).

(** [Account.query.filter_by(user_id=user).all()] *)
Definition accounts_of_user (db : Store) (user : Z) : list Account.t :=
  filter (fun a => Account.user_id a =? user) (accounts db).

(** The UPDATE the session flushes for [account.initial_balance = v]. *)
Definition set_initial_balance (account_id : Z) (v : option float) (db : Store)
  : Store :=
  {| accounts :=
       map (fun a =>
              if Account.id a =? account_id then
                {| Account.id := Account.id a;
                   Account.user_id := Account.user_id a;
                   Account.name := Account.name a;
                   Account.account_type := Account.account_type a;
                   Account.currency := Account.currency a;
                   Account.initial_balance := v |}
              else a)
           (accounts db);
     transactions := transactions db |}.

Definition update_balance (db : Store) (current_user account_id : Z)
           (req : app.request UpdateBalanceForm.t)
  : M (app.response * Store) :=
  account_id <- lift (sql.integer account_id) ;;
  match account_of_user db account_id current_user with
  | None => ret (app.NotFound, db)
  | Some account =>
      (* Only allow updating balance for investment accounts *)
      if negb (String.eqb (Account.account_type account) "investment") then
        ret (app.Redirect "account_detail" "warning", db)
      else
        match app.validate_on_submit UpdateBalanceForm.validate req with
        | Some form =>
            let new_balance := UpdateBalanceForm.new_balance form in
            let input_currency := UpdateBalanceForm.input_currency form in
            (* Convert to account's currency if different *)
            new_balance <-
              (if negb (String.eqb input_currency (Account.currency account))
               then convert_currency new_balance input_currency
                                     (Account.currency account)
               else ret new_balance) ;;
            (* Calculate sum of all transactions *)
            let transactions_sum :=
              coalesce_0
                (sql_sum (map Transaction.amount
                              (filter (fun tx => Transaction.account_id tx
                                                 =? account_id)
                                      (transactions db)))) in
            ret (app.Redirect "account_detail" "success",
                 set_initial_balance (Account.id account)
                   (sql_real (sub new_balance transactions_sum)) db)
        | None =>
            (* Pre-fill with current balance and account's currency *)
            match req with
            | app.GET =>
                _ <- lift (Account.current_balance (transactions db) account) ;;
                ret (app.Render "update_balance.html", db)
            | _ => ret (app.Render "update_balance.html", db)
            end
        end
  end.

(** *** app.py, /reports/monthly *)

(** What the view hands to the template. *)
Record report : Type := mkReport {
  expenses : list (string * float);      (* expenses_by_category *)
  total_income : float;
  total_expenses : float;
  net : float;
  month_name : string;
  savings_contributions : float;
  investment_contributions : float
}.

Definition in_month (year month : Z) (tx : Transaction.t) : bool :=
  (Py.month (Transaction.transaction_date tx) =? month)
  && (Py.year (Transaction.transaction_date tx) =? year).

(** The transactions of the user's accounts dated in the month. *)
Definition monthly_transactions (db : Store) (current_user year month : Z)
  : list Transaction.t :=
  let account_ids := map Account.id (accounts_of_user db current_user) in
  filter (fun tx => forms.mem_Z (Transaction.account_id tx) account_ids
                    && in_month year month tx)
         (transactions db).

(** [{a.id: a.currency for a in accounts}] *)
Definition account_currency_map (db : Store) (current_user : Z)
  : list (Z * string) :=
  map (fun a => (Account.id a, Account.currency a))
      (accounts_of_user db current_user).

(** The personal amount of a transaction, INR amounts converted to USD. *)
Definition personal_in_usd (currency_map : list (Z * string))
           (tx : Transaction.t) : M float :=
  let personal := Transaction.personal_amount tx in
  let account_currency :=
    dict_get Z.eqb currency_map (Transaction.account_id tx) "USD" in
  if String.eqb account_currency "INR" then
    convert_currency personal "INR" "USD"
  else ret personal.

(** The accumulators of the loop over the month's transactions. *)
Definition totals : Type := (list (string * float) * float * float)%type.

(** What one iteration does with the converted personal amount. *)
Definition tally (acc : totals) (personal : float) (tx : Transaction.t)
  : totals :=
  let '(expenses_by_category, total_income, total_expenses) := acc in
  let not_transfer := negb (String.eqb (Transaction.category tx) "transfer") in
  if ltb zero personal && not_transfer then
    (expenses_by_category, add total_income personal, total_expenses)
  else if ltb personal zero && not_transfer then
    let total_expenses := add total_expenses personal in
    let cat := Transaction.category tx in
    let expenses_by_category :=
      if dict_contains String.eqb expenses_by_category cat
      then expenses_by_category
      else dict_set String.eqb expenses_by_category cat zero in
    let expenses_by_category :=
      dict_set String.eqb expenses_by_category cat
        (add (dict_get String.eqb expenses_by_category cat zero)
             (abs personal)) in
    (expenses_by_category, total_income, total_expenses)
  else acc.

(** Inbound transfers of the month into the user's accounts of one type
    ([savings] or [investment]), in USD; nothing is queried when the user
    has no such account. *)
Definition contributions (db : Store) (current_user year month : Z)
           (account_type : string) : M float :=
  let currency_map := account_currency_map db current_user in
  let ids :=
    map Account.id
        (filter (fun a => String.eqb (Account.account_type a) account_type)
                (accounts_of_user db current_user)) in
  match ids with
  | [] => ret zero
  | _ :: _ =>
      let transfers :=
        filter (fun tx => forms.mem_Z (Transaction.account_id tx) ids
                          && ltb zero (Transaction.amount tx)
                          && String.eqb (Transaction.category tx) "transfer"
                          && in_month year month tx)
               (transactions db) in
      for_each
        (fun total tx =>
           let amount := Transaction.amount tx in
           amount <-
             (if String.eqb
                   (dict_get Z.eqb currency_map (Transaction.account_id tx)
                             "USD")
                   "INR"
              then convert_currency amount "INR" "USD"
              else ret amount) ;;
           ret (add total amount))
        transfers zero
  end.

Definition monthly_report (db : Store) (current_user year month : Z)
  : M report :=
  let currency_map := account_currency_map db current_user in
  month <- lift (sql.integer month) ;;
  year <- lift (sql.integer year) ;;
  ' (expenses_by_category, total_income, total_expenses) <-
    for_each
      (fun acc tx =>
         personal <- personal_in_usd currency_map tx ;;
         ret (tally acc personal tx))
      (monthly_transactions db current_user year month)
      ([], zero, zero) ;;
  savings_contributions <-
    contributions db current_user year month "savings" ;;
  investment_contributions <-
    contributions db current_user year month "investment" ;;
  first_day <- lift (new_date year month 1) ;;
  ret {| expenses := expenses_by_category;
         total_income := total_income;
         total_expenses := abs total_expenses;
         net := add total_income total_expenses;
         month_name := month_name_of first_day;
         savings_contributions := savings_contributions;
         investment_contributions := investment_contributions |}.

(** *** The vocabulary of the statements *)

(** The transactions of an account. *)
Definition transactions_of (txs : list Transaction.t) (a : Account.t)
  : list Transaction.t :=
  filter (fun tx => Transaction.account_id tx =? Account.id a) txs.

(** The cache stays fresh for every call to come. *)
Definition stays_fresh (w : World) : Prop :=
  forall k, (calls w <= k)%nat ->
            is_fresh (_rate_cache w) (now_at_check (outside w k)) = true.

(** The cache holds a rate that reads as the float [r] and stays fresh. *)
Definition rate_holds (w : World) (r : float) : Prop :=
  number (rate (_rate_cache w)) = Ok r /\ stays_fresh w.


(** The personal amounts in USD of a list of transactions, obtained from
    the converter one after the other. *)
Fixpoint converted_amounts (currency_map : list (Z * string))
         (txs : list Transaction.t) : M (list float) :=
  match txs with
  | [] => ret []
  | tx :: rest =>
      bind (personal_in_usd currency_map tx) (fun p =>
      bind (converted_amounts currency_map rest) (fun ps =>
      ret (p :: ps)))
  end.

(** An entry of the month: a transaction with its personal amount in
    USD.  It is income when the amount is positive and an expense when
    it is negative, transfers apart. *)
Definition entry : Type := (float * Transaction.t)%type.

Definition not_transfer (e : entry) : bool :=
  negb (String.eqb (Transaction.category (snd e)) "transfer").

Definition is_income (e : entry) : bool := ltb zero (fst e) && not_transfer e.
Definition is_expense (e : entry) : bool := ltb (fst e) zero && not_transfer e.

(** The sum of the positive amounts, and the sum of the absolute values
    of the negative ones, in the order of the rows. *)
Definition income_sum (entries : list entry) : float :=
  sum (map fst (filter is_income entries)).

Definition expense_sum (entries : list entry) : float :=
  sum (map (fun e => abs (fst e)) (filter is_expense entries)).

Definition in_category (cat : string) (e : entry) : bool :=
  String.eqb (Transaction.category (snd e)) cat.

Definition expense_sum_in (cat : string) (entries : list entry) : float :=
  expense_sum (filter (in_category cat) entries).

(** The sum of the negative amounts themselves. *)
Definition outgo_sum (entries : list entry) : float :=
  sum (map fst (filter is_expense entries)).

(** The figures of a report are the aggregates of a list of entries. *)
Definition aggregates (rep : report) (entries : list entry) : Prop :=
  total_income rep = income_sum entries
  /\ total_expenses rep = expense_sum entries
  /\ net rep = add (income_sum entries) (outgo_sum entries)
  /\ (forall cat,
         dict_get String.eqb (expenses rep) cat zero
         = expense_sum_in cat entries)
  /\ NoDup (map fst (expenses rep))
  /\ (forall cat,
         In cat (map fst (expenses rep))
         <-> exists e, In e entries /\ is_expense e = true
                       /\ Transaction.category (snd e) = cat).

(** The personal amount of a transaction in USD at the rate [r]. *)
Definition usd_at (r : float) (currency_map : list (Z * string))
           (tx : Transaction.t) : float :=
  if String.eqb
       (dict_get Z.eqb currency_map (Transaction.account_id tx) "USD") "INR"
  then div (Transaction.personal_amount tx) r
  else Transaction.personal_amount tx.

(** *** Sample data *)

Definition jan (d : Z) : date := mkdate 2024 1 d.

(** An investment account with one withdrawal of 31409.37. *)
Definition brokerage : Account.t :=
  Account.mk 2 7 "Brokerage" "investment" "USD" (Some (decimal 50000 1)).

Definition withdrawal : Transaction.t :=
  Transaction.mk 2 (decimal (-3140937) 100) None "Withdrawal" "other" (jan 3).

Definition checking : Account.t :=
  Account.mk 1 7 "Checking" "checking" "USD" (Some (decimal 153676 100)).

Definition india : Account.t :=
  Account.mk 3 7 "India Savings" "savings" "INR" (Some (decimal 83000 1)).

Definition paycheck : Transaction.t :=
  Transaction.mk 1 (decimal 10254 100) None "Salary" "salary" (jan 5).
Definition refund : Transaction.t :=
  Transaction.mk 1 (decimal 23413 100) None "Refund" "income" (jan 7).
Definition groceries : Transaction.t :=
  Transaction.mk 1 (decimal (-17052) 100) None "Market" "groceries" (jan 9).
Definition dinner : Transaction.t :=
  Transaction.mk 1 (decimal (-100) 1) (Some (decimal (-4185) 100))
                 "Dinner" "dining" (jan 12).
Definition rupee_rent : Transaction.t :=
  Transaction.mk 3 (decimal (-8300) 1) None "Rent" "rent" (jan 2).
Definition last_year : Transaction.t :=
  Transaction.mk 1 (decimal (-999) 1) None "Old" "other" (mkdate 2023 1 9).

(** An income and an expense that are both infinite. *)
Definition windfall : Transaction.t :=
  Transaction.mk 1 (S754_infinity false) None "Windfall" "income" (jan 5).
Definition ruin : Transaction.t :=
  Transaction.mk 1 (S754_infinity true) None "Ruin" "other" (jan 6).

(** A process whose cache holds a rate and stays fresh. *)
Definition steady_at (rate : json) : World :=
  {| _rate_cache := {| rate := rate; last_updated := Some 0 |};
     outside := fun _ =>
       {| now_at_check := 60000000; http := ConnectionFails;
          now_at_store := 60000000 |};
     calls := 0;
     requests_sent := 0 |}.

Definition book : Store :=
  {| accounts := [checking; brokerage; india];
     transactions := [paycheck; refund; groceries; dinner; rupee_rent;
                      withdrawal; last_year] |}.

End ledger.

(** ** Properties *)

Import currency forms app Spec.

(** *** Arithmetic and list facts used throughout *)

Lemma Qltb_lt (x y : Q) : Qltb x y = true <-> (x < y)%Q.
Proof.
  unfold Qltb. rewrite Qlt_alt.
  destruct (x ?= y)%Q; split; intro H; congruence.
Qed.

Lemma Qnonzero_neq (x : Q) : Qnonzero x = true <-> ~ (x == 0)%Q.
Proof.
  unfold Qnonzero. rewrite negb_true_iff.
  split; intro H.
  - intro E. apply Qeq_bool_iff in E. congruence.
  - destruct (Qeq_bool x 0) eqn:E; [|reflexivity].
    apply Qeq_bool_iff in E. contradiction.
Qed.

(** *** C1: the running balance *)

(** *** C3: the personal amount *)

Lemma Qabs_zero_inv (x : Q) : (Qabs x == 0)%Q -> (x == 0)%Q.
Proof.
  apply Qabs_case; intros _ H.
  - exact H.
  - rewrite <- (Qopp_involutive x), H. reflexivity.
Qed.

Lemma Qnonzero_signed_abs (x : Q) (negate : bool) :
  Qnonzero x = true ->
  Qnonzero (if negate then - Qabs x else Qabs x) = true.
Proof.
  rewrite !Qnonzero_neq. intros Hx H. apply Hx, Qabs_zero_inv.
  destruct negate; [|exact H].
  rewrite <- (Qopp_involutive (Qabs x)), H. reflexivity.
Qed.

(** A transaction whose stored share is zero: its personal amount is the
    zero share, not the full amount. *)
Lemma personal_amount_zero_share_counterexample :
  Transaction.my_share Samples.zero_share = Some 0%Q
  /\ ~ (Transaction.personal_amount Samples.zero_share
        == personal_amount_zero_as_absent Samples.zero_share)%Q.
Proof.
  split; [reflexivity|].
  intro H. vm_compute in H. discriminate H.
Qed.

(** C3 (amended).  [personal_amount] is the share whenever one is stored,
    a stored zero included, and the amount otherwise.  Zero counts as
    absent where the share is entered: [add_transaction] stores no share
    when the form's share is empty or zero, so for the transaction it
    stores the personal amount is the share if one is stored and non-zero
    and the amount otherwise. *)
Theorem personal_amount_share_if_stored
        (db : Store) (user : Z) (req : request TransactionForm.t) :
  (forall tx,
      Transaction.personal_amount tx
      = match Transaction.my_share tx with
        | Some share => share
        | None => Transaction.amount tx
        end)
  /\ (forall resp db',
         add_transaction db user req = (resp, db') ->
         transactions db' = transactions db
         \/ exists form tx,
             req = POST form
             /\ transactions db' = (transactions db ++ [tx])%list
             /\ (Transaction.my_share tx = None <->
                 TransactionForm.my_share form = None
                 \/ exists share, TransactionForm.my_share form = Some share
                                  /\ (share == 0)%Q)
             /\ (forall share, Transaction.my_share tx = Some share ->
                               ~ (share == 0)%Q)
             /\ Transaction.personal_amount tx
                = personal_amount_zero_as_absent tx).
Proof.
  split; [reflexivity|].
  intros resp db'. unfold add_transaction.
  destruct (accounts_of_user db user) as [|a0 rest] eqn:Huser;
    [intros [= <- <-]; now left|].
  destruct req as [| |form]; simpl validate_on_submit;
    try (intros [= <- <-]; now left).
  destruct (TransactionForm.validate _ _ form);
    [|intros [= <- <-]; now left].
  destruct (account_of_user db _ user); [|intros [= <- <-]; now left].
  destruct (resolve_category db user form) as [[category_name db1]|] eqn:Hcat;
    [|intros [= <- <-]; now left].
  assert (Htx : transactions db1 = transactions db).
  { unfold resolve_category in Hcat.
    destruct (String.eqb (TransactionForm.category form) "__new__").
    - destruct (String.eqb _ ""); [discriminate|].
      destruct (sql.first _); injection Hcat as _ <-; reflexivity.
    - injection Hcat as _ <-; reflexivity. }
  intros [= <- <-]. right.
  eexists form, _. split; [reflexivity|].
  split; [simpl; rewrite Htx; reflexivity|].
  unfold Transaction.personal_amount, personal_amount_zero_as_absent.
  simpl Transaction.my_share. simpl Transaction.amount.
  destruct (TransactionForm.my_share form) as [share|] eqn:Hshare.
  - destruct (Qnonzero share) eqn:Hnz.
    + pose proof (Qnonzero_signed_abs share
                    (String.eqb (TransactionForm.transaction_type form)
                                "expense") Hnz) as Hsigned.
      repeat split.
      * discriminate.
      * intros [H|[s [[= <-] Hs]]]; [discriminate|].
        apply Qnonzero_neq in Hnz. contradiction.
      * intros s [= <-]. now apply Qnonzero_neq.
      * now rewrite Hsigned.
    + repeat split.
      * intros _. right. exists share. split; [reflexivity|].
        destruct (Qeq_bool share 0) eqn:E.
        -- now apply Qeq_bool_iff.
        -- unfold Qnonzero in Hnz. rewrite E in Hnz. discriminate.
      * discriminate.
  - repeat split.
    + intros _. now left.
    + discriminate.
Qed.

Lemma personal_amount_share_if_stored_witness :
  exists tx,
    transactions
      (snd (add_transaction Samples.ledger 7
              (POST (TransactionForm.mk 1 "expense" 80 (Some 0%Q) "Lunch"
                                        "dining" "" (Samples.jan 21)))))
    = (transactions Samples.ledger ++ [tx])%list
    /\ Transaction.personal_amount tx = (- Qabs 80)%Q.
Proof.
  destruct (proj2 (personal_amount_share_if_stored Samples.ledger 7
                     (POST (TransactionForm.mk 1 "expense" 80 (Some 0%Q)
                              "Lunch" "dining" "" (Samples.jan 21))))
                  _ _ eq_refl)
    as [H|(form & tx & _ & Htx & _ & _ & Hp)].
  - vm_compute in H. discriminate H.
  - exists tx. split.
    + exact Htx.
    + vm_compute in Htx. injection Htx as <-. reflexivity.
Defined.

(** *** C2: the maturity value *)

(** *** C9: days to maturity *)

(** C9.  For every fixed deposit and every value of today's date,
    [days_to_maturity] is at least zero, and it is zero whenever the
    deposit is flagged matured. *)
Theorem days_to_maturity_nonnegative (today : date) (fd : FixedDeposit.t) :
  0 <= FixedDeposit.days_to_maturity today fd
  /\ (FixedDeposit.is_matured fd = true ->
      FixedDeposit.days_to_maturity today fd = 0).
Proof.
  unfold FixedDeposit.days_to_maturity.
  destruct (FixedDeposit.is_matured fd); split; try lia; discriminate.
Qed.

Lemma days_to_maturity_nonnegative_witness :
  FixedDeposit.days_to_maturity (mkdate 2023 6 1)
    (FixedDeposit.mk 2 3 50000 6 (mkdate 2023 1 1) (mkdate 2024 1 1)
                     None None true) = 0.
Proof.
  apply (proj2 (days_to_maturity_nonnegative (mkdate 2023 6 1)
                  (FixedDeposit.mk 2 3 50000 6 (mkdate 2023 1 1)
                                   (mkdate 2024 1 1) None None true))).
  reflexivity.
Defined.

(** *** C10: what editing a fixed deposit leaves alone *)

Lemma set_fixed_deposit_terms fd_id account_id bank_name fd_number is_matured db :
  map fixed_terms
      (fixed_deposits (set_fixed_deposit fd_id account_id bank_name fd_number
                                         is_matured db))
  = map fixed_terms (fixed_deposits db).
Proof.
  simpl. rewrite map_map. apply map_ext. intro fd.
  destruct (FixedDeposit.id fd =? fd_id); reflexivity.
Qed.

(** C10.  Whatever the request, editing a fixed deposit leaves the
    principal, interest rate, start date and maturity date of every
    deposit as they were, and leaves the other tables alone: the view
    writes only [account_id], [bank_name], [fd_number] and [is_matured]
    of the deposit it edits. *)
Theorem edit_fixed_deposit_keeps_terms
        (db : Store) (user fd_id : Z) (req : request EditFixedDepositForm.t)
        (resp : response) (db' : Store) :
  edit_fixed_deposit db user fd_id req = Ok (resp, db') ->
  map fixed_terms (fixed_deposits db') = map fixed_terms (fixed_deposits db)
  /\ accounts db' = accounts db
  /\ categories db' = categories db
  /\ transactions db' = transactions db.
Proof.
  unfold edit_fixed_deposit.
  destruct (sql.first (filter _ (fixed_deposits db))) as [fd|];
    [|intros [= <- <-]; now repeat split].
  destruct (sql.first (filter _ (accounts db))) as [account|];
    [|discriminate].
  destruct (negb _); [intros [= <- <-]; now repeat split|].
  destruct (validate_on_submit _ req) as [form|];
    intros [= <- <-]; [|now repeat split].
  split; [apply set_fixed_deposit_terms|now repeat split].
Qed.

Lemma edit_fixed_deposit_keeps_terms_witness :
  exists db',
    edit_fixed_deposit Samples.ledger 7 1
      (POST (EditFixedDepositForm.mk 3 "HDFC" "FD-42" "1"))
    = Ok (Redirect "fixed_deposits" "success", db')
    /\ map FixedDeposit.is_matured (fixed_deposits db') = [true]
    /\ map fixed_terms (fixed_deposits db')
       = map fixed_terms (fixed_deposits Samples.ledger).
Proof.
  eexists. split; [reflexivity|]. split; [reflexivity|].
  apply (edit_fixed_deposit_keeps_terms Samples.ledger 7 1
           (POST (EditFixedDepositForm.mk 3 "HDFC" "FD-42" "1"))
           (Redirect "fixed_deposits" "success")).
  reflexivity.
Defined.

(** *** C5: transfers *)

(** C5.  A transfer that goes through creates exactly two transactions in
    one commit, the outgoing one on the source account and the incoming
    one on the destination account: the outgoing amount is the negation of
    the incoming amount, both have category ['transfer'] and both carry
    the date of the form.  A transfer that does not go through creates
    nothing. *)
Theorem transfer_creates_matched_pair
        (db : Store) (user : Z) (req : request TransferForm.t)
        (resp : response) (db' : Store) :
  transfer db user req = (resp, db') ->
  (resp <> Redirect "dashboard" "success" /\ db' = db)
  \/ (resp = Redirect "dashboard" "success"
      /\ exists form outgoing incoming,
          req = POST form
          /\ db' = commit_transactions [outgoing; incoming] db
          /\ transactions db' = (transactions db ++ [outgoing; incoming])%list
          /\ Transaction.account_id outgoing = TransferForm.from_account_id form
          /\ Transaction.account_id incoming = TransferForm.to_account_id form
          /\ Transaction.amount outgoing = (- Transaction.amount incoming)%Q
          /\ Transaction.amount incoming = Qabs (TransferForm.amount form)
          /\ Transaction.category outgoing = "transfer"
          /\ Transaction.category incoming = "transfer"
          /\ Transaction.transaction_date outgoing
             = TransferForm.transfer_date form
          /\ Transaction.transaction_date incoming
             = TransferForm.transfer_date form).
Proof.
  unfold transfer.
  destruct (_ <? 2)%nat; [intros [= <- <-]; left; split; [discriminate|reflexivity]|].
  destruct req as [| |form]; simpl validate_on_submit;
    try (intros [= <- <-]; left; split; [discriminate|reflexivity]).
  destruct (TransferForm.validate _ form);
    [|intros [= <- <-]; left; split; [discriminate|reflexivity]].
  destruct (_ =? _);
    [intros [= <- <-]; left; split; [discriminate|reflexivity]|].
  destruct (account_of_user db (TransferForm.from_account_id form) user)
    as [from_account|];
    [|intros [= <- <-]; left; split; [discriminate|reflexivity]].
  destruct (account_of_user db (TransferForm.to_account_id form) user)
    as [to_account|];
    [|intros [= <- <-]; left; split; [discriminate|reflexivity]].
  intros [= <- <-]. right. split; [reflexivity|].
  eexists form, _, _. repeat split.
Qed.

Lemma transfer_creates_matched_pair_witness :
  exists outgoing incoming,
    transactions
      (snd (transfer Samples.ledger 7
              (POST (TransferForm.mk 1 2 250 "" (Samples.jan 15)))))
    = (transactions Samples.ledger ++ [outgoing; incoming])%list
    /\ Transaction.amount outgoing = (- Transaction.amount incoming)%Q.
Proof.
  destruct (transfer_creates_matched_pair Samples.ledger 7
              (POST (TransferForm.mk 1 2 250 "" (Samples.jan 15))) _ _ eq_refl)
    as [[_ H]|(_ & form & outgoing & incoming & _ & _ & Htx & _ & _ & Hneg & _)].
  - vm_compute in H. discriminate H.
  - exists outgoing, incoming. split; assumption.
Defined.

(** *** C8: the rate cache *)

Lemma is_fresh_spec (cache : RateCache) (now : datetime) :
  is_fresh cache now = true
  <-> exists stamp, last_updated cache = Some stamp
                    /\ now - stamp < timedelta_hours 1.
Proof.
  unfold is_fresh. destruct (last_updated cache) as [stamp|].
  - rewrite Z.ltb_lt. split.
    + intro H. now exists stamp.
    + now intros (s & [= <-] & H).
  - split; [discriminate|]. now intros (s & H & _).
Qed.

Lemma fetched_rate_spec (r : http_result) :
  fetched_rate r
  = match r with
    | ConnectionFails => Raise RequestException
    | Response status_code body =>
        if status_code =? 200 then
          if unreadable_payload body then
            match body with
            | None => Raise ValueError
            | Some _ => Raise AttributeError
            end
          else Ok (Some (payload_rate body))
        else Ok None
    end.
Proof.
  destruct r as [|status_code [data|]]; simpl; try reflexivity.
  destruct (status_code =? 200); [|reflexivity].
  destruct data as [| | | | |items]; try reflexivity.
  simpl. destruct (dict_get String.eqb items "rates" (JDict [])); reflexivity.
Qed.

(** With a two-hour-old cache holding 84.5 and a 200 response whose
    payload has no rates, the call returns 83 and overwrites the cache. *)
Lemma get_exchange_rate_malformed_payload_counterexample :
  fetch_failure (http (outside Samples.stale_world 0)) = true
  /\ rate (_rate_cache Samples.stale_world) = JNum (169 # 2)
  /\ fst (get_exchange_rate Samples.stale_world) = Ok (JNum 83)
  /\ rate (_rate_cache (snd (get_exchange_rate Samples.stale_world)))
     = JNum 83
  /\ fst (get_exchange_rate Samples.stale_world)
     <> Ok (rate (_rate_cache Samples.stale_world)).
Proof.
  repeat split. vm_compute. discriminate.
Qed.

(** C8 (amended).  [get_exchange_rate] always returns a value and never
    raises.  When the cache is less than one hour old it returns the
    cached rate without sending a request.  Otherwise it sends one; on a
    network error, a non-200 response, a body that is not JSON, or JSON
    whose top level or [rates] member is not an object, it keeps the cache
    and returns the cached rate, which is the default 83 when nothing was
    ever fetched.  A 200 response with a readable payload is not a
    failure even when it has no [INR] rate: the call returns the [INR]
    member, or the default 83 in its absence, and stores it in the cache
    with a new stamp. *)
Theorem get_exchange_rate_cached_or_fetched (w : World) :
  let cache := _rate_cache w in
  let seen := outside w (calls w) in
  (exists v w', get_exchange_rate w = (Ok v, w'))
  /\ (forall stamp,
         last_updated cache = Some stamp ->
         now_at_check seen - stamp < timedelta_hours 1 ->
         get_exchange_rate w = (Ok (rate cache), after_call w cache 0))
  /\ (is_fresh cache (now_at_check seen) = false ->
      fetch_stops (http seen) = true ->
      get_exchange_rate w = (Ok (rate cache), after_call w cache 1))
  /\ (is_fresh cache (now_at_check seen) = false ->
      forall body,
        http seen = Response 200 body ->
        unreadable_payload body = false ->
        get_exchange_rate w
        = (Ok (payload_rate body),
           after_call w {| rate := payload_rate body;
                           last_updated := Some (now_at_store seen) |} 1))
  /\ (cache = initial_rate_cache ->
      fetch_stops (http seen) = true ->
      get_exchange_rate w = (Ok (JNum 83), after_call w initial_rate_cache 1)).
Proof.
  intros cache seen.
  assert (Hfresh : is_fresh cache (now_at_check seen) = true ->
                   get_exchange_rate w = (Ok (rate cache), after_call w cache 0)).
  { intro H. unfold get_exchange_rate. fold cache seen. now rewrite H. }
  assert (Hstops : is_fresh cache (now_at_check seen) = false ->
                   fetch_stops (http seen) = true ->
                   get_exchange_rate w
                   = (Ok (rate cache), after_call w cache 1)).
  { intros H Hstop. unfold get_exchange_rate. fold cache seen.
    rewrite H, fetched_rate_spec.
    destruct (http seen) as [|status_code body]; [reflexivity|].
    simpl in Hstop. destruct (status_code =? 200); [|reflexivity].
    simpl in Hstop. rewrite Hstop. now destruct body. }
  assert (Hreads : is_fresh cache (now_at_check seen) = false ->
                   forall body,
                     http seen = Response 200 body ->
                     unreadable_payload body = false ->
                     get_exchange_rate w
                     = (Ok (payload_rate body),
                        after_call w {| rate := payload_rate body;
                                        last_updated :=
                                          Some (now_at_store seen) |} 1)).
  { intros H body Hhttp Hbody. unfold get_exchange_rate. fold cache seen.
    rewrite H, fetched_rate_spec, Hhttp. simpl. now rewrite Hbody. }
  split; [|split; [|split; [exact Hstops|split; [exact Hreads|]]]].
  - destruct (is_fresh cache (now_at_check seen)) eqn:H.
    + do 2 eexists. now apply Hfresh.
    + destruct (fetch_stops (http seen)) eqn:Hstop.
      * do 2 eexists. now apply Hstops.
      * destruct (http seen) as [|status_code body] eqn:Hhttp; [discriminate|].
        simpl in Hstop. apply orb_false_iff in Hstop.
        destruct Hstop as [Hstatus Hbody].
        apply negb_false_iff, Z.eqb_eq in Hstatus. subst status_code.
        do 2 eexists. now apply Hreads.
  - intros stamp Hstamp Hage. apply Hfresh, is_fresh_spec. eauto.
  - intros Hinit Hstop. rewrite Hstops; [now rewrite Hinit|now rewrite Hinit|exact Hstop].
Qed.

Lemma get_exchange_rate_cached_or_fetched_witness :
  get_exchange_rate Samples.offline_world
  = (Ok (JNum 83), after_call Samples.offline_world initial_rate_cache 1).
Proof.
  apply (proj2 (proj2 (proj2 (proj2
           (get_exchange_rate_cached_or_fetched Samples.offline_world)))));
    reflexivity.
Defined.

(** *** C7: conversion there and back *)

Local Open Scope py_scope.

Lemma convert_currency_inr_usd (x : Q) (w : World) :
  convert_currency x "INR" "USD" w
  = match get_exchange_rate w with
    | (Ok r, w') => (div x r, w')
    | (Raise e, w') => (Raise e, w')
    end.
Proof. reflexivity. Qed.


Lemma div_nonzero (x q : Q) (r : json) :
  as_number r = Some q -> ~ (q == 0)%Q -> div x r = Ok (x / q)%Q.
Proof.
  intros Hr Hq. unfold div. rewrite Hr.
  destruct (Qeq_bool q 0) eqn:E; [|reflexivity].
  apply Qeq_bool_iff in E. contradiction.
Qed.

(** *** C6: the balance correction *)

Lemma account_of_user_spec (db : Store) (account_id user : Z) (a : Account.t) :
  account_of_user db account_id user = Some a ->
  In a (accounts db) /\ Account.id a = account_id /\ Account.user_id a = user.
Proof.
  unfold account_of_user.
  destruct (filter _ (accounts db)) as [|a0 rest] eqn:Hf; [discriminate|].
  intros [= <-].
  assert (Hin : In a0 (filter (fun a => (Account.id a =? account_id)
                                        && (Account.user_id a =? user))
                              (accounts db)))
    by (rewrite Hf; now left).
  apply filter_In in Hin. destruct Hin as [Hin Hb].
  apply andb_true_iff in Hb. destruct Hb as [H1 H2].
  apply Z.eqb_eq in H1, H2. auto.
Qed.

(** *** C4: the monthly report *)

(** **** Dicts with distinct keys *)

Lemma dict_get_absent {V : Type} (d : list (string * V)) (k : string) (v : V) :
  ~ In k (map fst d) -> dict_get String.eqb d k v = v.
Proof.
  revert v. induction d as [|[k0 v0] d IH]; intros v Hk; simpl in *.
  - reflexivity.
  - destruct (String.eqb k0 k) eqn:E.
    + apply String.eqb_eq in E. tauto.
    + apply IH. tauto.
Qed.

Lemma dict_contains_In {V : Type} (d : list (string * V)) (k : string) :
  dict_contains String.eqb d k = true <-> In k (map fst d).
Proof.
  unfold dict_contains. rewrite existsb_exists, in_map_iff. split.
  - intros ([k0 v0] & Hin & E). apply String.eqb_eq in E.
    now exists (k0, v0).
  - intros ([k0 v0] & E & Hin). exists (k0, v0). split; [exact Hin|].
    now apply String.eqb_eq.
Qed.

Lemma dict_set_keys {V : Type} (d : list (string * V)) (k : string) (v : V) :
  map fst (dict_set String.eqb d k v)
  = if dict_contains String.eqb d k then map fst d else (map fst d ++ [k])%list.
Proof.
  induction d as [|[k0 v0] d IH]; simpl.
  - reflexivity.
  - destruct (String.eqb k0 k) eqn:E; simpl.
    + reflexivity.
    + rewrite IH. unfold dict_contains.
      destruct (existsb _ d); reflexivity.
Qed.

Lemma dict_set_NoDup {V : Type} (d : list (string * V)) (k : string) (v : V) :
  NoDup (map fst d) -> NoDup (map fst (dict_set String.eqb d k v)).
Proof.
  intro Hd. rewrite dict_set_keys.
  destruct (dict_contains String.eqb d k) eqn:E; [exact Hd|].
  assert (Hk : ~ In k (map fst d)).
  { intro H. apply dict_contains_In in H. congruence. }
  apply NoDup_rev in Hd. rewrite <- (rev_involutive (_ ++ _)%list).
  apply NoDup_rev. rewrite rev_app_distr. simpl.
  constructor; [|exact Hd]. now rewrite <- in_rev.
Qed.

Lemma dict_get_set_same {V : Type} (d : list (string * V)) (k : string)
      (v default : V) :
  NoDup (map fst d) -> dict_get String.eqb (dict_set String.eqb d k v) k default = v.
Proof.
  revert default. induction d as [|[k0 v0] d IH]; intros default Hd; simpl.
  - now rewrite String.eqb_refl.
  - inversion Hd as [|? ? Hk0 Hd']; subst.
    destruct (String.eqb k0 k) eqn:E; simpl; rewrite E.
    + apply String.eqb_eq in E. subst k0. now apply dict_get_absent.
    + now apply IH.
Qed.

Lemma dict_get_set_other {V : Type} (d : list (string * V)) (k k' : string)
      (v default : V) :
  k <> k' ->
  dict_get String.eqb (dict_set String.eqb d k v) k' default
  = dict_get String.eqb d k' default.
Proof.
  intro Hk. revert default.
  induction d as [|[k0 v0] d IH]; intro default; simpl.
  - destruct (String.eqb k k') eqn:E; [|reflexivity].
    apply String.eqb_eq in E. contradiction.
  - destruct (String.eqb k0 k) eqn:E; simpl.
    + apply String.eqb_eq in E. subst k0.
      destruct (String.eqb k k') eqn:E'; [|reflexivity].
      apply String.eqb_eq in E'. contradiction.
    + destruct (String.eqb k0 k'); apply IH.
Qed.

Lemma dict_set_total (d : list (string * Q)) (k : string) (v : Q) :
  NoDup (map fst d) ->
  (total (map snd (dict_set String.eqb d k v)) + dict_get String.eqb d k 0
   == total (map snd d) + v)%Q.
Proof.
  induction d as [|[k0 v0] d IH]; intro Hd; simpl.
  - ring.
  - inversion Hd as [|? ? Hk0 Hd']; subst.
    destruct (String.eqb k0 k) eqn:E; simpl.
    + apply String.eqb_eq in E. subst k0.
      rewrite dict_get_absent by exact Hk0. ring.
    + specialize (IH Hd'). rewrite <- Qplus_assoc, IH. ring.
Qed.

(** **** The sums of the specification, one entry at a time *)

Lemma income_sum_cons (e : entry) (es : list entry) :
  (income_sum (e :: es) == (if is_income e then fst e else 0) + income_sum es)%Q.
Proof.
  unfold income_sum. simpl. destruct (is_income e); simpl; ring.
Qed.

Lemma expense_sum_cons (e : entry) (es : list entry) :
  (expense_sum (e :: es)
   == (if is_expense e then Qabs (fst e) else 0) + expense_sum es)%Q.
Proof.
  unfold expense_sum. simpl. destruct (is_expense e); simpl; ring.
Qed.

Lemma expense_sum_in_cons (cat : string) (e : entry) (es : list entry) :
  (expense_sum_in cat (e :: es)
   == (if in_category cat e && is_expense e then Qabs (fst e) else 0)
      + expense_sum_in cat es)%Q.
Proof.
  unfold expense_sum_in. simpl.
  destruct (in_category cat e); simpl.
  - apply expense_sum_cons.
  - ring.
Qed.

Lemma income_excludes_expense (e : entry) :
  is_income e = true -> is_expense e = false.
Proof.
  unfold is_income, is_expense. intro H.
  apply andb_true_iff in H. destruct H as [Hpos _].
  apply Qltb_lt in Hpos.
  destruct (Qltb (fst e) 0) eqn:E; [|reflexivity].
  apply Qltb_lt in E. exfalso. apply (Qlt_irrefl 0).
  now apply Qlt_trans with (fst e).
Qed.

(** **** The loop of the report *)

Lemma bind_run {A B : Type} (c : M A) (k : A -> M B) (w : World) :
  bind c k w
  = match c w with
    | (Ok a, w') => k a w'
    | (Raise e, w') => (Raise e, w')
    end.
Proof. reflexivity. Qed.

(** The loop obtains the converted amounts one after the other and
    tallies them: conversions and tallying separate. *)
Lemma report_loop_factors (currency_map : list (Z * string))
      (txs : list Transaction.t) (acc : totals) (w : World) :
  for_each (fun acc tx => bind (personal_in_usd currency_map tx)
                               (fun personal => ret (tally acc personal tx)))
           txs acc w
  = match converted_amounts currency_map txs w with
    | (Ok ps, w') =>
        (Ok (fold_left (fun acc (e : entry) => tally acc (fst e) (snd e))
                       (combine ps txs) acc), w')
    | (Raise e, w') => (Raise e, w')
    end.
Proof.
  revert acc w. induction txs as [|tx rest IH]; intros acc w; simpl.
  - reflexivity.
  - rewrite !bind_run.
    destruct (personal_in_usd currency_map tx w) as [[p|e] w1]; [|reflexivity].
    unfold ret at 1. cbv beta iota. rewrite IH, bind_run.
    destruct (converted_amounts currency_map rest w1) as [[ps|e] w2];
      reflexivity.
Qed.

(** Tallying a list of entries adds their income to the income, takes
    their expenses off the (negative) expense total, and adds the expenses
    of each category to that category's slot. *)
Lemma tally_entries (entries : list entry) :
  forall (d : list (string * Q)) (i x : Q),
    NoDup (map fst d) ->
    exists d' i' x',
      fold_left (fun acc (e : entry) => tally acc (fst e) (snd e))
                entries (d, i, x) = (d', i', x')
      /\ (i' == i + income_sum entries)%Q
      /\ (x' == x - expense_sum entries)%Q
      /\ (forall cat,
             (dict_get String.eqb d' cat 0
              == dict_get String.eqb d cat 0 + expense_sum_in cat entries)%Q)
      /\ NoDup (map fst d')
      /\ (total (map snd d') == total (map snd d) + expense_sum entries)%Q.
Proof.
  induction entries as [|[p tx] es IH]; intros d i x Hd.
  - exists d, i, x. simpl. split; [reflexivity|].
    unfold income_sum, expense_sum, expense_sum_in, expense_sum. simpl.
    repeat split; try ring; [intro cat; ring|exact Hd].
  - simpl fold_left.
    change (Qltb 0 p && negb (String.eqb (Transaction.category tx) "transfer"))
      with (is_income (p, tx)).
    change (Qltb p 0 && negb (String.eqb (Transaction.category tx) "transfer"))
      with (is_expense (p, tx)).
    destruct (is_income (p, tx)) eqn:Hinc;
      [|destruct (is_expense (p, tx)) eqn:Hexp].
    + (* income *)
      pose proof (income_excludes_expense _ Hinc) as Hexp.
      destruct (IH d (i + p)%Q x Hd) as (d' & i' & x' & Hrun & Hi & Hx & Hc & Hn & Ht).
      exists d', i', x'. split; [exact Hrun|].
      split; [|split; [|split; [|split]]].
      * rewrite Hi, income_sum_cons, Hinc. simpl. ring.
      * rewrite Hx, expense_sum_cons, Hexp. ring.
      * intro cat. rewrite Hc, expense_sum_in_cons, Hexp, andb_false_r. ring.
      * exact Hn.
      * rewrite Ht, expense_sum_cons, Hexp. ring.
    + (* expense *)
      set (cat0 := Transaction.category tx).
      set (d1 := if dict_contains String.eqb d cat0 then d
                 else dict_set String.eqb d cat0 0%Q).
      assert (Hd1 : NoDup (map fst d1)).
      { unfold d1. destruct (dict_contains String.eqb d cat0);
          [exact Hd|now apply dict_set_NoDup]. }
      assert (Hget1 : forall cat, dict_get String.eqb d1 cat 0%Q
                                  = dict_get String.eqb d cat 0%Q).
      { intro cat. unfold d1.
        destruct (dict_contains String.eqb d cat0) eqn:Hin; [reflexivity|].
        destruct (String.eqb cat0 cat) eqn:E.
        - apply String.eqb_eq in E. subst cat.
          rewrite dict_get_set_same by exact Hd.
          symmetry. apply dict_get_absent.
          intro H. apply dict_contains_In in H. congruence.
        - apply dict_get_set_other. intro H. subst cat.
          rewrite String.eqb_refl in E. discriminate. }
      assert (Htot1 : (total (map snd d1) == total (map snd d))%Q).
      { unfold d1. destruct (dict_contains String.eqb d cat0) eqn:Hin;
          [reflexivity|].
        pose proof (dict_set_total d cat0 0 Hd) as H.
        rewrite dict_get_absent in H.
        - rewrite Qplus_0_r in H. rewrite H. ring.
        - intro H'. apply dict_contains_In in H'. congruence. }
      set (d2 := dict_set String.eqb d1 cat0
                          (dict_get String.eqb d1 cat0 0 + Qabs p)%Q).
      assert (Hneg : (Qabs p == - p)%Q).
      { apply Qabs_neg. unfold is_expense in Hexp.
        apply andb_true_iff in Hexp. destruct Hexp as [Hlt _].
        apply Qltb_lt in Hlt. simpl in Hlt. now apply Qlt_le_weak. }
      destruct (IH d2 i (x + p)%Q (dict_set_NoDup _ _ _ Hd1))
        as (d' & i' & x' & Hrun & Hi & Hx & Hc & Hn & Ht).
      exists d', i', x'. split; [exact Hrun|].
      split; [|split; [|split; [|split]]].
      * rewrite Hi, income_sum_cons, Hinc. ring.
      * rewrite Hx, expense_sum_cons, Hexp. simpl fst. rewrite Hneg. ring.
      * intro cat. rewrite Hc, expense_sum_in_cons, Hexp, andb_true_r.
        unfold in_category. simpl snd. simpl fst. fold cat0. unfold d2.
        destruct (String.eqb cat0 cat) eqn:E.
        -- apply String.eqb_eq in E. subst cat.
           rewrite dict_get_set_same by exact Hd1. rewrite Hget1. ring.
        -- rewrite dict_get_set_other, Hget1.
           ++ ring.
           ++ intro H. subst cat. rewrite String.eqb_refl in E. discriminate.
      * exact Hn.
      * assert (Htot2 : (total (map snd d2) == total (map snd d1) + Qabs p)%Q).
        { pose proof (dict_set_total d1 cat0
                        (dict_get String.eqb d1 cat0 0 + Qabs p)%Q Hd1) as H.
          fold d2 in H.
          apply (Qplus_inj_r _ _ (dict_get String.eqb d1 cat0 0%Q)).
          rewrite H. ring. }
        rewrite Ht, Htot2, Htot1, expense_sum_cons, Hexp. simpl fst. ring.
    + (* neither *)
      destruct (IH d i x Hd) as (d' & i' & x' & Hrun & Hi & Hx & Hc & Hn & Ht).
      exists d', i', x'. split; [exact Hrun|].
      split; [|split; [|split; [|split]]].
      * rewrite Hi, income_sum_cons, Hinc. ring.
      * rewrite Hx, expense_sum_cons, Hexp. ring.
      * intro cat. rewrite Hc, expense_sum_in_cons, Hexp, andb_false_r. ring.
      * exact Hn.
      * rewrite Ht, expense_sum_cons, Hexp. ring.
Qed.

Lemma expense_sum_nonneg (entries : list entry) : (0 <= expense_sum entries)%Q.
Proof.
  unfold expense_sum.
  induction (filter is_expense entries) as [|e es IH]; simpl.
  - apply Qle_refl.
  - rewrite <- (Qplus_0_r 0). apply Qplus_le_compat; [apply Qabs_nonneg|exact IH].
Qed.

(** When the report is produced, its figures are the aggregates of the
    converted amounts the loop obtained. *)
Lemma monthly_report_of_converted
      (db : Store) (user year month : Z) (w w' : World) (rep : report) :
  monthly_report db user year month w = (Ok rep, w') ->
  exists ps w1,
    converted_amounts (account_currency_map db user)
                      (monthly_transactions db user year month) w
    = (Ok ps, w1)
    /\ aggregates rep (combine ps (monthly_transactions db user year month)).
Proof.
  unfold monthly_report. rewrite bind_run, report_loop_factors.
  destruct (converted_amounts _ _ w) as [[ps|e] w1]; [|discriminate].
  destruct (tally_entries
              (combine ps (monthly_transactions db user year month))
              [] 0%Q 0%Q (NoDup_nil _))
    as (d & i & x & Hrun & Hi & Hx & Hc & Hn & Ht).
  rewrite Hrun, bind_run.
  destruct (contributions db user year month "savings" w1) as [[s|e] w2];
    [|discriminate].
  rewrite bind_run.
  destruct (contributions db user year month "investment" w2) as [[v|e] w3];
    [|discriminate].
  rewrite bind_run. unfold lift.
  destruct (new_date year month 1) as [first_day|e]; [|discriminate].
  unfold ret. intros [= <- _]. exists ps, w1. split; [reflexivity|].
  assert (Habs : (Qabs x == expense_sum
                              (combine ps (monthly_transactions db user year
                                                                month)))%Q).
  { rewrite Hx. setoid_replace (0 - expense_sum
                                      (combine ps (monthly_transactions
                                                     db user year month)))%Q
      with (- expense_sum
                (combine ps (monthly_transactions db user year month)))%Q
      by ring.
    rewrite Qabs_opp. apply Qabs_pos, expense_sum_nonneg. }
  unfold aggregates. simpl.
  split; [rewrite Hi; ring|]. split; [exact Habs|].
  split; [intro cat; rewrite Hc; simpl; ring|]. split; [exact Hn|].
  split; [rewrite Ht, Habs; simpl; ring|].
  rewrite Hi, Hx. ring.
Qed.

(** **** A month without transactions *)



(** **** While the cached rate holds *)

Lemma get_exchange_rate_steady (w : World) (q : Q) :
  rate_holds w q ->
  exists w', get_exchange_rate w = (Ok (rate (_rate_cache w)), w')
             /\ rate_holds w' q.
Proof.
  intros [Hq Hfresh]. unfold get_exchange_rate.
  rewrite (Hfresh (calls w) (le_n _)).
  eexists. split; [reflexivity|]. split; simpl.
  - exact Hq.
  - intros k Hk. apply Hfresh. lia.
Qed.

Lemma inr_to_usd_steady (x : Q) (w : World) (q : Q) :
  rate_holds w q -> ~ (q == 0)%Q ->
  exists w', convert_currency x "INR" "USD" w = (Ok (x / q)%Q, w')
             /\ rate_holds w' q.
Proof.
  intros Hw Hq. destruct (get_exchange_rate_steady w q Hw) as (w' & Hrun & Hw').
  exists w'. split; [|exact Hw'].
  rewrite convert_currency_inr_usd, Hrun.
  now rewrite (div_nonzero x q _ (proj1 Hw)).
Qed.

Lemma personal_in_usd_steady (currency_map : list (Z * string))
      (tx : Transaction.t) (w : World) (q : Q) :
  rate_holds w q -> ~ (q == 0)%Q ->
  exists w', personal_in_usd currency_map tx w
             = (Ok (usd_at q currency_map tx), w')
             /\ rate_holds w' q.
Proof.
  intros Hw Hq. unfold personal_in_usd, usd_at.
  destruct (String.eqb _ "INR").
  - now apply inr_to_usd_steady.
  - exists w. split; [reflexivity|exact Hw].
Qed.

Lemma converted_amounts_steady (currency_map : list (Z * string))
      (txs : list Transaction.t) (w : World) (q : Q) :
  rate_holds w q -> ~ (q == 0)%Q ->
  exists w', converted_amounts currency_map txs w
             = (Ok (map (usd_at q currency_map) txs), w')
             /\ rate_holds w' q.
Proof.
  intros Hw Hq. revert w Hw.
  induction txs as [|tx rest IH]; intros w Hw; simpl.
  - exists w. split; [reflexivity|exact Hw].
  - destruct (personal_in_usd_steady currency_map tx w q Hw Hq)
      as (w1 & Hrun1 & Hw1).
    destruct (IH w1 Hw1) as (w2 & Hrun2 & Hw2).
    exists w2. split; [|exact Hw2].
    now rewrite bind_run, Hrun1, bind_run, Hrun2.
Qed.


Lemma combine_map_self {A B : Type} (f : A -> B) (l : list A) :
  combine (map f l) l = map (fun x => (f x, x)) l.
Proof.
  induction l as [|x l IH]; simpl; [reflexivity|]. now rewrite IH.
Qed.

(** ** Further properties of the code *)

Import runtime models account_forms views.

(** *** Dates: comparison and subtraction agree *)

Lemma days_before_year_step (y : Z) :
  _days_before_year (y + 1)
  = _days_before_year y + 365 + (if _is_leap y then 1 else 0).
Proof.
  unfold _days_before_year, _is_leap.
  replace (y + 1 - 1) with y by lia.
  destruct (y mod 4 =? 0) eqn:H4; destruct (y mod 100 =? 0) eqn:H100;
    destruct (y mod 400 =? 0) eqn:H400; simpl;
    rewrite ?Z.eqb_eq, ?Z.eqb_neq in *;
    Z.div_mod_to_equations; lia.
Qed.

Lemma days_before_year_mono (y1 y2 : Z) :
  y1 <= y2 -> _days_before_year y1 <= _days_before_year y2.
Proof.
  unfold _days_before_year. intro H. Z.div_mod_to_equations. lia.
Qed.

Lemma valid_date_fields (d : date) :
  valid_date d = true ->
  1 <= year d <= 9999 /\ 1 <= month d <= 12
  /\ 1 <= day d <= _days_in_month (year d) (month d).
Proof.
  unfold valid_date. rewrite !andb_true_iff, !Z.leb_le. tauto.
Qed.

Lemma month_cases (m : Z) :
  1 <= m <= 12 ->
  m = 1 \/ m = 2 \/ m = 3 \/ m = 4 \/ m = 5 \/ m = 6
  \/ m = 7 \/ m = 8 \/ m = 9 \/ m = 10 \/ m = 11 \/ m = 12.
Proof. lia. Qed.

(** The last day of a month comes before the first day of every later
    month of the year. *)
Lemma month_ends_before_later_month (y m1 m2 : Z) :
  1 <= m1 -> m1 < m2 -> m2 <= 12 ->
  _days_before_month y m1 + _days_in_month y m1 <= _days_before_month y m2.
Proof.
  intros H1 H12 H2.
  destruct (month_cases m1 ltac:(lia)) as
      [->|[->|[->|[->|[->|[->|[->|[->|[->|[->|[->| ->]]]]]]]]]]];
    destruct (month_cases m2 ltac:(lia)) as
      [->|[->|[->|[->|[->|[->|[->|[->|[->|[->|[->| ->]]]]]]]]]]];
    try lia;
    unfold _days_before_month, _days_in_month; simpl;
    destruct (_is_leap y); simpl; lia.
Qed.

(** The last day of a year is day 365, or 366 in a leap year. *)
Lemma day_of_year_bound (y m d : Z) :
  1 <= m <= 12 -> 1 <= d <= _days_in_month y m ->
  1 <= _days_before_month y m + d <= 365 + (if _is_leap y then 1 else 0).
Proof.
  intros Hm. unfold _days_before_month, _days_in_month.
  destruct (month_cases m Hm) as
      [->|[->|[->|[->|[->|[->|[->|[->|[->|[->|[->| ->]]]]]]]]]]];
    cbn -[Z.add]; destruct (_is_leap y); cbn -[Z.add]; lia.
Qed.

Lemma toordinal_lt (a b : date) :
  valid_date a = true -> valid_date b = true ->
  date_lt a b = true -> toordinal a < toordinal b.
Proof.
  intros Ha Hb.
  apply valid_date_fields in Ha. destruct Ha as (_ & Hma & Hda).
  apply valid_date_fields in Hb. destruct Hb as (_ & Hmb & Hdb).
  unfold date_lt, date_compare, toordinal, _ymd2ord.
  destruct (year a ?= year b) eqn:Hy; try discriminate.
  - apply Z.compare_eq in Hy.
    destruct (month a ?= month b) eqn:Hm; try discriminate.
    + apply Z.compare_eq in Hm.
      destruct (day a ?= day b) eqn:Hd; try discriminate.
      rewrite Z.compare_lt_iff in Hd. intros _. rewrite Hy, Hm. lia.
    + rewrite Z.compare_lt_iff in Hm. intros _. rewrite Hy in *.
      pose proof (month_ends_before_later_month (year b) (month a) (month b)
                    ltac:(lia) Hm ltac:(lia)).
      lia.
  - rewrite Z.compare_lt_iff in Hy. intros _.
    pose proof (day_of_year_bound (year a) (month a) (day a) Hma Hda).
    pose proof (day_of_year_bound (year b) (month b) (day b) Hmb Hdb).
    pose proof (days_before_year_step (year a)).
    pose proof (days_before_year_mono (year a + 1) (year b) ltac:(lia)).
    lia.
Qed.

Lemma date_compare_antisym (a b : date) :
  date_compare b a = CompOpp (date_compare a b).
Proof.
  unfold date_compare.
  rewrite (Z.compare_antisym (year a) (year b)).
  rewrite (Z.compare_antisym (month a) (month b)).
  rewrite (Z.compare_antisym (day a) (day b)).
  destruct (year a ?= year b); simpl; try reflexivity.
  destruct (month a ?= month b); simpl; reflexivity.
Qed.

Lemma date_compare_eq (a b : date) :
  date_compare a b = Eq -> toordinal a = toordinal b.
Proof.
  unfold date_compare, toordinal.
  destruct (year a ?= year b) eqn:Hy; try discriminate.
  destruct (month a ?= month b) eqn:Hm; try discriminate.
  intro Hd.
  apply Z.compare_eq in Hy, Hm, Hd. now rewrite Hy, Hm, Hd.
Qed.

(** On days of the calendar, the order of dates is the order of their
    ordinals: [a < b] exactly when [(b - a).days] is positive. *)
Lemma date_lt_days_between (a b : date) :
  valid_date a = true -> valid_date b = true ->
  (date_lt a b = true <-> 0 < days_between b a).
Proof.
  intros Ha Hb. unfold days_between. split.
  - intro H. pose proof (toordinal_lt a b Ha Hb H). lia.
  - intro H. unfold date_lt.
    destruct (date_compare a b) eqn:Hc; [|reflexivity|].
    + apply date_compare_eq in Hc. lia.
    + assert (Hba : date_lt b a = true).
      { unfold date_lt. rewrite date_compare_antisym, Hc. reflexivity. }
      pose proof (toordinal_lt b a Hb Ha Hba). lia.
Qed.

Lemma date_le_days_between (a b : date) :
  valid_date a = true -> valid_date b = true ->
  (date_le a b = true <-> 0 <= days_between b a).
Proof.
  intros Ha Hb.
  pose proof (date_lt_days_between b a Hb Ha) as Hlt.
  unfold date_le, date_lt in *. rewrite date_compare_antisym in Hlt.
  unfold days_between in *.
  destruct (date_compare a b) eqn:Hc; simpl in Hlt.
  - apply date_compare_eq in Hc. split; [lia|reflexivity].
  - split; [|reflexivity]. intros _.
    destruct (Z_lt_le_dec (toordinal b - toordinal a) 0) as [Hneg|Hpos];
      [|exact Hpos].
    assert (0 < toordinal a - toordinal b) by lia.
    apply Hlt in H. discriminate H.
  - split; [discriminate|]. intro H.
    assert (Hgt : 0 < toordinal a - toordinal b) by (now apply Hlt).
    lia.
Qed.

(** *** Fixed deposits: validation, maturity and the value of the account *)

(** X1.  On days of the calendar, the maturity-date validator of the
    fixed-deposit form accepts exactly the tenures of at least 7 days:
    its first test (maturity after start) never decides alone. *)
Theorem validate_maturity_date_one_week (form : FixedDepositForm.t) :
  valid_date (FixedDepositForm.start_date form) = true ->
  valid_date (FixedDepositForm.maturity_date form) = true ->
  (FixedDepositForm.validate_maturity_date form = true
   <-> 7 <= days_between (FixedDepositForm.maturity_date form)
                         (FixedDepositForm.start_date form)).
Proof.
  intros Hs Hm. unfold FixedDepositForm.validate_maturity_date.
  rewrite andb_true_iff, !negb_true_iff, Z.ltb_ge.
  pose proof (date_le_days_between _ _ Hm Hs) as Hle.
  unfold days_between in *. split.
  - intros [_ H]. exact H.
  - intro H. split; [|exact H].
    destruct (date_le (FixedDepositForm.maturity_date form)
                      (FixedDepositForm.start_date form)); [|reflexivity].
    assert (0 <= toordinal (FixedDepositForm.start_date form)
                 - toordinal (FixedDepositForm.maturity_date form))
      by (now apply Hle).
    lia.
Qed.

Lemma validate_maturity_date_one_week_witness :
  FixedDepositForm.validate_maturity_date
    (FixedDepositForm.mk 3 5000 7 (mkdate 2024 2 26) (mkdate 2024 3 4)
                         "" "" true) = true.
Proof.
  apply (validate_maturity_date_one_week
           (FixedDepositForm.mk 3 5000 7 (mkdate 2024 2 26) (mkdate 2024 3 4)
                                "" "" true));
    [reflexivity|reflexivity|].
  vm_compute. discriminate.
Defined.

(** X2.  [is_past_maturity] and [days_to_maturity] agree on days of the
    calendar: a deposit past its maturity date has no days left, days are
    left exactly when the deposit is not flagged matured and today is
    before the maturity date, and then their number is the number of days
    from today to the maturity date. *)
Theorem days_to_maturity_and_is_past_maturity
        (today : date) (fd : FixedDeposit.t) :
  valid_date today = true ->
  valid_date (FixedDeposit.maturity_date fd) = true ->
  (is_past_maturity today fd = true ->
   FixedDeposit.days_to_maturity today fd = 0)
  /\ (0 < FixedDeposit.days_to_maturity today fd
      <-> FixedDeposit.is_matured fd = false
          /\ date_lt today (FixedDeposit.maturity_date fd) = true)
  /\ (FixedDeposit.is_matured fd = false ->
      is_past_maturity today fd = false ->
      FixedDeposit.days_to_maturity today fd
      = days_between (FixedDeposit.maturity_date fd) today).
Proof.
  intros Ht Hm.
  pose proof (date_lt_days_between _ _ Hm Ht) as Hpast.
  pose proof (date_lt_days_between _ _ Ht Hm) as Hleft.
  unfold is_past_maturity, FixedDeposit.days_to_maturity.
  unfold days_between in *.
  destruct (FixedDeposit.is_matured fd).
  - split; [reflexivity|]. split; [|discriminate].
    split; [lia|]. intros [H _]. discriminate H.
  - split; [|split].
    + intro H. apply Hpast in H. lia.
    + split.
      * intro H. split; [reflexivity|]. apply Hleft. lia.
      * intros [_ H]. apply Hleft in H. lia.
    + intros _ H.
      destruct (Z_lt_le_dec
                  (toordinal (FixedDeposit.maturity_date fd) - toordinal today)
                  0) as [Hneg|Hpos]; [|lia].
      assert (date_lt (FixedDeposit.maturity_date fd) today = true)
        by (apply Hpast; lia).
      congruence.
Qed.

Lemma days_to_maturity_and_is_past_maturity_witness :
  FixedDeposit.days_to_maturity (mkdate 2024 3 1) Samples.deposit = 0.
Proof.
  apply (proj1 (days_to_maturity_and_is_past_maturity
                  (mkdate 2024 3 1) Samples.deposit eq_refl eq_refl)).
  reflexivity.
Defined.

Lemma next_key_above (keys : list Z) (k : Z) :
  In k keys -> k < next_key keys.
Proof.
  unfold next_key. induction keys as [|k0 keys IH]; cbn [fold_right In];
    [tauto|].
  intros [->|H]; [lia|]. specialize (IH H). lia.
Qed.

Lemma next_key_fresh (keys : list Z) : ~ In (next_key keys) keys.
Proof.
  intro H. apply next_key_above in H. lia.
Qed.

(** X3.  A fixed deposit is stored only from a form that validates: the
    deposit [add_fixed_deposit] adds has a key no deposit had, sits on an
    INR account of the user, is not matured, and has a principal of at
    least 1000, a rate between 0.1 and 15 and a tenure of at least 7
    days.  Any other outcome of the view leaves the store as it was. *)
Theorem add_fixed_deposit_stores_valid_deposit
        (db : Store) (user : Z) (req : request FixedDepositForm.t)
        (resp : response) (db' : Store) :
  add_fixed_deposit db user req = (resp, db') ->
  db' = db
  \/ exists form fd account,
      req = POST form
      /\ resp = Redirect "fixed_deposits" "success"
      /\ fixed_deposits db' = (fixed_deposits db ++ [fd])%list
      /\ accounts db' = accounts db
      /\ ~ In (FixedDeposit.id fd) (map FixedDeposit.id (fixed_deposits db))
      /\ In account (accounts db)
      /\ Account.id account = FixedDeposit.account_id fd
      /\ Account.user_id account = user
      /\ Account.currency account = "INR"
      /\ FixedDeposit.is_matured fd = false
      /\ (1000 <= FixedDeposit.principal fd)%Q
      /\ (1 # 10 <= FixedDeposit.interest_rate fd)%Q
      /\ (FixedDeposit.interest_rate fd <= 15)%Q
      /\ 7 <= days_between (FixedDeposit.maturity_date fd)
                           (FixedDeposit.start_date fd).
Proof.
  unfold add_fixed_deposit.
  destruct (inr_accounts_of_user db user) as [|a0 rest];
    [intros [= <- <-]; now left|].
  destruct req as [| |form]; simpl validate_on_submit;
    try (intros [= <- <-]; now left).
  destruct (FixedDepositForm.validate _ form) eqn:Hvalid;
    [|intros [= <- <-]; now left].
  destruct (sql.first (filter _ (accounts db))) as [account|] eqn:Hacc;
    [|intros [= <- <-]; now left].
  intros [= <- <-]. right.
  unfold FixedDepositForm.validate in Hvalid.
  rewrite !andb_true_iff in Hvalid.
  destruct Hvalid as [[[[[[[[[_ _] _] Hmin] _] Hlo] Hhi] Hdate] _] _].
  unfold FixedDepositForm.validate_maturity_date in Hdate.
  rewrite andb_true_iff, !negb_true_iff, Z.ltb_ge in Hdate.
  unfold NumberRange_min in *. apply Qle_bool_iff in Hmin, Hlo, Hhi.
  assert (Hin : In account (accounts db)
                /\ Account.id account = FixedDepositForm.account_id form
                /\ Account.user_id account = user
                /\ Account.currency account = "INR").
  { destruct (filter _ (accounts db)) as [|a1 l] eqn:Hf; [discriminate|].
    injection Hacc as ->.
    assert (Hmem : In account (account :: l)) by now left.
    rewrite <- Hf in Hmem. apply filter_In in Hmem.
    destruct Hmem as [Hmem Hb].
    rewrite !andb_true_iff, !Z.eqb_eq, String.eqb_eq in Hb. tauto. }
  eexists form, _, account. simpl.
  repeat (split; [reflexivity|]).
  split; [apply next_key_fresh|].
  repeat (split; [tauto|]). tauto.
Qed.

Lemma add_fixed_deposit_stores_valid_deposit_witness :
  exists fd,
    fixed_deposits
      (snd (add_fixed_deposit Samples.ledger 7
              (POST (FixedDepositForm.mk 3 5000 7 (mkdate 2024 2 26)
                                         (mkdate 2024 3 4) "HDFC" "" true))))
    = (fixed_deposits Samples.ledger ++ [fd])%list
    /\ FixedDeposit.id fd = 2.
Proof.
  destruct (add_fixed_deposit_stores_valid_deposit Samples.ledger 7
              (POST (FixedDepositForm.mk 3 5000 7 (mkdate 2024 2 26)
                                         (mkdate 2024 3 4) "HDFC" "" true))
              _ _ eq_refl)
    as [H|(form & fd & account & _ & _ & Hfds & _)].
  - vm_compute in H. discriminate H.
  - exists fd. split; [exact Hfds|].
    vm_compute in Hfds. injection Hfds as <-. reflexivity.
Defined.

(** The rows of an account in a table that has grown are its rows
    before followed by its new rows. *)
Lemma transactions_of_app (txs new : list Transaction.t) (a : Account.t) :
  transactions_of (txs ++ new) a
  = (transactions_of txs a ++ transactions_of new a)%list.
Proof. unfold transactions_of. apply filter_app. Qed.

(** The balance is a function of the account and of its rows. *)
Lemma current_balance_same_rows (txs txs' : list Transaction.t) (a : Account.t) :
  transactions_of txs' a = transactions_of txs a ->
  Account.current_balance txs' a = Account.current_balance txs a.
Proof.
  unfold Account.current_balance, transactions_of. intros ->. reflexivity.
Qed.

(** X4.  Opening a fixed deposit touches no account and no category.
    With the debit box ticked it records one transaction: a debit of the
    principal on the funding account, in the category [transfer], dated
    at the start of the deposit and without a share; without the box it
    records none.  The transactions of every other account, and so its
    current balance, are what they were. *)
Theorem add_fixed_deposit_debits_funding_account
        (db : Store) (user : Z) (form : FixedDepositForm.t) (db' : Store) :
  add_fixed_deposit db user (POST form)
  = (Redirect "fixed_deposits" "success", db') ->
  accounts db' = accounts db
  /\ categories db' = categories db
  /\ (FixedDepositForm.debit_from_account form = false ->
      transactions db' = transactions db)
  /\ (FixedDepositForm.debit_from_account form = true ->
      exists tx,
        transactions db' = (transactions db ++ [tx])%list
        /\ Transaction.account_id tx = FixedDepositForm.account_id form
        /\ Transaction.amount tx = (- FixedDepositForm.principal form)%Q
        /\ Transaction.my_share tx = None
        /\ Transaction.category tx = "transfer"
        /\ Transaction.transaction_date tx = FixedDepositForm.start_date form)
  /\ (forall a,
         Account.id a <> FixedDepositForm.account_id form ->
         transactions_of (transactions db') a
         = transactions_of (transactions db) a
         /\ Account.current_balance (transactions db') a
            = Account.current_balance (transactions db) a).
Proof.
  unfold add_fixed_deposit.
  destruct (inr_accounts_of_user db user) as [|a0 rest]; [discriminate|].
  simpl validate_on_submit.
  destruct (FixedDepositForm.validate _ form); [|discriminate].
  destruct (sql.first (filter _ (accounts db))) as [account|]; [|discriminate].
  intros [= <-]. cbn [accounts categories transactions].
  split; [reflexivity|]. split; [reflexivity|].
  split; [intros ->; apply app_nil_r|].
  split.
  { intros ->. eexists. split; [reflexivity|]. repeat split. }
  intros a Ha.
  assert (Hrows : transactions_of
                    (transactions db
                     ++ (if FixedDepositForm.debit_from_account form
                         then sql.add
                                {| Transaction.account_id :=
                                     FixedDepositForm.account_id form;
                                   Transaction.amount :=
                                     (- FixedDepositForm.principal form)%Q;
                                   Transaction.my_share := None;
                                   Transaction.description :=
                                     "Fixed Deposit"
                                     ++ match FixedDepositForm.bank_name form
                                        with
                                        | "" => ""
                                        | String _ _ as bank =>
                                            " (" ++ bank ++ ")"
                                        end
                                     ++ match FixedDepositForm.fd_number form
                                        with
                                        | "" => ""
                                        | String _ _ as ref => " - " ++ ref
                                        end;
                                   Transaction.category := "transfer";
                                   Transaction.transaction_date :=
                                     FixedDepositForm.start_date form |}
                                []
                         else []))%list a
                  = transactions_of (transactions db) a).
  { rewrite transactions_of_app.
    destruct (FixedDepositForm.debit_from_account form);
      unfold transactions_of; cbn [sql.add app filter Transaction.account_id].
    - assert (E : (FixedDepositForm.account_id form =? Account.id a) = false)
        by (apply Z.eqb_neq; congruence).
      rewrite E. apply app_nil_r.
    - apply app_nil_r. }
  split; [exact Hrows|]. now apply current_balance_same_rows.
Qed.

Lemma add_fixed_deposit_debits_funding_account_witness :
  exists tx,
    transactions
      (snd (add_fixed_deposit Samples.ledger 7
              (POST (FixedDepositForm.mk 3 5000 7 (mkdate 2024 2 26)
                                         (mkdate 2024 3 4) "HDFC" "" true))))
    = (transactions Samples.ledger ++ [tx])%list
    /\ Transaction.amount tx = (- 5000)%Q.
Proof.
  destruct (add_fixed_deposit_debits_funding_account Samples.ledger 7
              (FixedDepositForm.mk 3 5000 7 (mkdate 2024 2 26)
                                   (mkdate 2024 3 4) "HDFC" "" true)
              _ eq_refl) as (_ & _ & _ & H & _).
  destruct (H eq_refl) as (tx & Htx & _ & Hamt & _).
  exists tx. split; [exact Htx|exact Hamt].
Defined.

Lemma first_filter_In {A : Type} (f : A -> bool) (l : list A) (x : A) :
  sql.first (filter f l) = Some x -> In x l /\ f x = true.
Proof.
  destruct (filter f l) as [|y rest] eqn:Hf; [discriminate|].
  intros [= ->]. apply filter_In. rewrite Hf. now left.
Qed.

Lemma first_filter_map {A : Type} (f : A -> bool) (g : A -> A) (l : list A) :
  (forall x, f (g x) = f x) ->
  sql.first (filter f (map g l)) = option_map g (sql.first (filter f l)).
Proof.
  intro Hfg. induction l as [|x l IH]; simpl; [reflexivity|].
  rewrite Hfg. destruct (f x); [reflexivity|exact IH].
Qed.

Lemma fd_of_user_found (db : Store) (user fd_id : Z) (fd : FixedDeposit.t) :
  fd_of_user db user fd_id = FdFound fd ->
  In fd (fixed_deposits db) /\ FixedDeposit.id fd = fd_id
  /\ exists account,
      In account (accounts db)
      /\ Account.id account = FixedDeposit.account_id fd
      /\ Account.user_id account = user.
Proof.
  unfold fd_of_user.
  destruct (sql.first (filter _ (fixed_deposits db))) as [fd0|] eqn:Hfd;
    [|discriminate].
  destruct (sql.first (filter _ (accounts db))) as [account|] eqn:Hacc;
    [|discriminate].
  destruct (negb _) eqn:Hown; [discriminate|].
  intros [= <-].
  apply first_filter_In in Hfd. destruct Hfd as [Hin Hid].
  apply first_filter_In in Hacc. destruct Hacc as [Hain Haid].
  apply negb_false_iff in Hown.
  apply Z.eqb_eq in Hid, Haid, Hown.
  split; [exact Hin|]. split; [exact Hid|]. now exists account.
Qed.

(** The row [set_matured] writes for a deposit. *)
Lemma set_matured_rows (fd_id : Z) (db : Store) :
  fixed_deposits (set_matured fd_id db)
  = map (fun fd =>
           if FixedDeposit.id fd =? fd_id then
             FixedDeposit.mk (FixedDeposit.id fd) (FixedDeposit.account_id fd)
                             (FixedDeposit.principal fd)
                             (FixedDeposit.interest_rate fd)
                             (FixedDeposit.start_date fd)
                             (FixedDeposit.maturity_date fd)
                             (FixedDeposit.bank_name fd)
                             (FixedDeposit.fd_number fd) true
           else fd)
        (fixed_deposits db).
Proof. reflexivity. Qed.

Lemma set_matured_twice (fd_id : Z) (db : Store) :
  set_matured fd_id (set_matured fd_id db) = set_matured fd_id db.
Proof.
  unfold set_matured. simpl. f_equal. rewrite map_map. apply map_ext.
  intro fd. destruct (FixedDeposit.id fd =? fd_id) eqn:E; simpl; rewrite E;
    reflexivity.
Qed.

Lemma fd_of_user_set_matured (db : Store) (user fd_id : Z) (fd : FixedDeposit.t) :
  fd_of_user db user fd_id = FdFound fd ->
  exists fd', fd_of_user (set_matured fd_id db) user fd_id = FdFound fd'
              /\ FixedDeposit.id fd' = FixedDeposit.id fd.
Proof.
  unfold fd_of_user. rewrite set_matured_rows.
  rewrite first_filter_map
    by (intro x; destruct (FixedDeposit.id x =? fd_id) eqn:E; simpl;
        rewrite ?E; reflexivity).
  destruct (sql.first (filter _ (fixed_deposits db))) as [fd0|]; [|discriminate].
  simpl option_map. cbv beta.
  destruct (FixedDeposit.id fd0 =? fd_id) eqn:E;
    cbn [FixedDeposit.account_id accounts set_matured];
    (destruct (sql.first (filter _ (accounts db))) as [account|];
     [|discriminate]);
    (destruct (negb _); [discriminate|]);
    intros [= <-]; eexists; (split; [reflexivity|reflexivity]).
Qed.

(** X5.  Marking a fixed deposit matured writes the flag and nothing
    else: the accounts, the transactions (so every current balance) and
    the terms of every deposit stay as they were; when it goes through,
    every deposit with that key is flagged and has no days to maturity
    whatever the date, and marking it again changes nothing more.  When
    it is refused the store is unchanged. *)
Theorem mark_fd_matured_sets_flag_only
        (db : Store) (user fd_id : Z) (resp : response) (db' : Store) :
  mark_fd_matured db user fd_id = Ok (resp, db') ->
  accounts db' = accounts db
  /\ transactions db' = transactions db
  /\ categories db' = categories db
  /\ map fixed_terms (fixed_deposits db') = map fixed_terms (fixed_deposits db)
  /\ (resp <> Redirect "fixed_deposits" "success" -> db' = db)
  /\ (resp = Redirect "fixed_deposits" "success" ->
      (forall fd today,
          In fd (fixed_deposits db') -> FixedDeposit.id fd = fd_id ->
          FixedDeposit.is_matured fd = true
          /\ FixedDeposit.days_to_maturity today fd = 0)
      /\ (forall fd,
             FixedDeposit.id fd <> fd_id ->
             (In fd (fixed_deposits db') <-> In fd (fixed_deposits db)))
      /\ mark_fd_matured db' user fd_id = Ok (resp, db')).
Proof.
  unfold mark_fd_matured.
  destruct (fd_of_user db user fd_id) as [| | |fd] eqn:Hfd;
    try discriminate;
    try (intros [= <- <-];
         do 4 (split; [reflexivity|]);
         split; [intros _; reflexivity|intro H; discriminate H]).
  pose proof (fd_of_user_found _ _ _ _ Hfd) as (_ & Hid & _).
  intros [= <- <-]. rewrite Hid.
  do 3 (split; [reflexivity|]).
  split.
  { rewrite set_matured_rows, map_map. apply map_ext. intro x.
    destruct (FixedDeposit.id x =? fd_id); reflexivity. }
  split; [intro H; now contradiction H|].
  intros _. split; [|split].
  - intros fd' today Hin Hid'.
    rewrite set_matured_rows in Hin. apply in_map_iff in Hin.
    destruct Hin as (x & Hx & _).
    assert (Hflag : FixedDeposit.is_matured fd' = true).
    { destruct (FixedDeposit.id x =? fd_id) eqn:E; subst fd'; [reflexivity|].
      apply Z.eqb_neq in E. contradiction. }
    split; [exact Hflag|].
    unfold FixedDeposit.days_to_maturity. now rewrite Hflag.
  - intros fd' Hid'. rewrite set_matured_rows, in_map_iff. split.
    + intros (x & Hx & Hin).
      destruct (FixedDeposit.id x =? fd_id) eqn:E.
      * subst fd'. simpl in Hid'. apply Z.eqb_eq in E. contradiction.
      * now subst fd'.
    + intro Hin. exists fd'. split; [|exact Hin].
      apply Z.eqb_neq in Hid'. now rewrite Hid'.
  - destruct (fd_of_user_set_matured _ _ _ _ Hfd) as (fd' & Hfd' & Hid').
    rewrite Hfd', Hid', Hid, set_matured_twice. reflexivity.
Qed.

Lemma mark_fd_matured_sets_flag_only_witness :
  exists db',
    mark_fd_matured Samples.ledger 7 1
    = Ok (Redirect "fixed_deposits" "success", db')
    /\ map FixedDeposit.is_matured (fixed_deposits db') = [true]
    /\ transactions db' = transactions Samples.ledger.
Proof.
  eexists. split; [reflexivity|]. split; [reflexivity|].
  apply (mark_fd_matured_sets_flag_only Samples.ledger 7 1
           (Redirect "fixed_deposits" "success")).
  reflexivity.
Defined.

Lemma total_cons (x : Q) (xs : list Q) : total (x :: xs) = (x + total xs)%Q.
Proof. reflexivity. Qed.

(** X7.  Deleting a fixed deposit removes the deposits with that key and
    nothing else: the other deposits, the accounts and the transactions
    stay, so the debit that funded the deposit is not given back and no
    current balance moves.  When the deposit is missing or belongs to
    another user, the store is unchanged. *)
Theorem delete_fixed_deposit_removes_only_it
        (db : Store) (user fd_id : Z) (resp : response) (db' : Store) :
  delete_fixed_deposit db user fd_id = Ok (resp, db') ->
  accounts db' = accounts db
  /\ transactions db' = transactions db
  /\ categories db' = categories db
  /\ (forall a, Account.current_balance (transactions db') a
                = Account.current_balance (transactions db) a)
  /\ (resp <> Redirect "fixed_deposits" "success" -> db' = db)
  /\ (resp = Redirect "fixed_deposits" "success" ->
      (exists fd, In fd (fixed_deposits db) /\ FixedDeposit.id fd = fd_id)
      /\ forall fd,
          In fd (fixed_deposits db')
          <-> In fd (fixed_deposits db) /\ FixedDeposit.id fd <> fd_id).
Proof.
  unfold delete_fixed_deposit.
  destruct (fd_of_user db user fd_id) as [| | |fd] eqn:Hfd;
    try discriminate;
    try (intros [= <- <-];
         do 4 (split; [reflexivity|]);
         split; [intros _; reflexivity|intro H; discriminate H]).
  pose proof (fd_of_user_found _ _ _ _ Hfd) as (Hin & Hid & _).
  intros [= <- <-]. rewrite Hid.
  do 4 (split; [reflexivity|]).
  split; [intro H; now contradiction H|].
  intros _. split; [now exists fd|].
  intro x. cbn [fixed_deposits]. rewrite filter_In, negb_true_iff, Z.eqb_neq.
  reflexivity.
Qed.

Lemma delete_fixed_deposit_removes_only_it_witness :
  exists db',
    delete_fixed_deposit Samples.ledger 7 1
    = Ok (Redirect "fixed_deposits" "success", db')
    /\ fixed_deposits db' = []
    /\ transactions db' = transactions Samples.ledger.
Proof.
  eexists. split; [reflexivity|]. split; [reflexivity|].
  apply (delete_fixed_deposit_removes_only_it Samples.ledger 7 1
           (Redirect "fixed_deposits" "success")).
  reflexivity.
Defined.

(** *** Accounts: deleting, editing and adding *)








(** *** Default categories *)

Lemma default_category_In (cats : list Category.t) (name : string) :
  default_category cats name <> None
  <-> exists c, In c cats /\ Category.user_id c = None
                /\ Category.name c = name.
Proof.
  unfold default_category. split.
  - destruct (sql.first _) as [c|] eqn:Hc; [|congruence].
    intros _. apply first_filter_In in Hc. destruct Hc as [Hin Hb].
    apply andb_true_iff in Hb. destruct Hb as [Hd Hn].
    apply String.eqb_eq in Hn. exists c. split; [exact Hin|].
    split; [|exact Hn].
    unfold Category.is_default in Hd.
    destruct (Category.user_id c); [discriminate|reflexivity].
  - intros (c & Hin & Hu & Hn).
    destruct (filter _ cats) as [|c0 rest] eqn:Hf; [|discriminate].
    assert (Hc : In c (filter (fun c => Category.is_default c
                                        && String.eqb (Category.name c) name)
                              cats)).
    { apply filter_In. split; [exact Hin|].
      unfold Category.is_default. rewrite Hu, Hn, String.eqb_refl.
      reflexivity. }
    rewrite Hf in Hc. destruct Hc.
Qed.

Lemma init_categories_extends (names : list string) :
  forall cats,
  exists added,
    init_categories names cats = (cats ++ added)%list
    /\ forall c, In c added ->
                 Category.user_id c = None /\ In (Category.name c) names
                 /\ default_category cats (Category.name c) = None.
Proof.
  induction names as [|n names IH]; intro cats; simpl.
  - exists []. split; [now rewrite app_nil_r|]. intros c [].
  - destruct (default_category cats n) eqn:Hn.
    + destruct (IH cats) as (added & Hrun & Hadded).
      exists added. split; [exact Hrun|].
      intros c Hc. destruct (Hadded c Hc) as (H1 & H2 & H3). auto.
    + destruct (IH (sql.add {| Category.user_id := None;
                               Category.name := n |} cats))
        as (added & Hrun & Hadded).
      exists ({| Category.user_id := None; Category.name := n |} :: added).
      split.
      * rewrite Hrun. unfold sql.add. now rewrite <- app_assoc.
      * intros c [<-|Hc]; [simpl; auto|].
        destruct (Hadded c Hc) as (H1 & H2 & H3).
        split; [exact H1|]. split; [now right|].
        destruct (default_category cats (Category.name c)) eqn:E;
          [|reflexivity].
        assert (Hex : default_category
                        (sql.add {| Category.user_id := None;
                                    Category.name := n |} cats)
                        (Category.name c) <> None).
        { apply default_category_In.
          assert (Hsome : default_category cats (Category.name c) <> None)
            by congruence.
          apply default_category_In in Hsome.
          destruct Hsome as (c0 & Hin & Hrest).
          exists c0. split; [|exact Hrest].
          unfold sql.add. apply in_or_app. now left. }
        congruence.
Qed.

Lemma init_categories_covers (names : list string) :
  forall cats name,
    In name names \/ default_category cats name <> None ->
    default_category (init_categories names cats) name <> None.
Proof.
  induction names as [|n names IH]; intros cats name H; simpl.
  - destruct H as [[]|H]. exact H.
  - destruct (default_category cats n) eqn:Hn.
    + apply IH. destruct H as [[<-|H]|H]; [right; congruence|now left|now right].
    + apply IH. destruct H as [[<-|H]|H]; [right|now left|right].
      * apply default_category_In.
        exists {| Category.user_id := None; Category.name := n |}.
        split; [|split; reflexivity].
        unfold sql.add. apply in_or_app. right. now left.
      * apply default_category_In in H. destruct H as (c & Hin & Hrest).
        apply default_category_In. exists c. split; [|exact Hrest].
        unfold sql.add. apply in_or_app. now left.
Qed.

Lemma init_categories_nothing_to_add (names : list string) (cats : list Category.t) :
  (forall name, In name names -> default_category cats name <> None) ->
  init_categories names cats = cats.
Proof.
  induction names as [|n names IH]; intro H; simpl; [reflexivity|].
  destruct (default_category cats n) eqn:Hn.
  - apply IH. intros name Hin. apply H. now right.
  - exfalso. apply (H n); [now left|exact Hn].
Qed.

(** X11.  Initialising the default categories only appends: the
    categories that were there stay in place, each added one is a default
    category (no owner) whose name is one of the 16 default names and had
    no default category before, afterwards every default name has its
    default category, and running the initialisation again changes
    nothing. *)
Theorem init_default_categories_idempotent (db : Store) :
  let db' := init_default_categories db in
  accounts db' = accounts db
  /\ transactions db' = transactions db
  /\ fixed_deposits db' = fixed_deposits db
  /\ (exists added,
         categories db' = (categories db ++ added)%list
         /\ forall c, In c added ->
                      Category.user_id c = None
                      /\ In (Category.name c) DEFAULT_CATEGORIES
                      /\ default_category (categories db) (Category.name c)
                         = None)
  /\ (forall name, In name DEFAULT_CATEGORIES ->
                   default_category (categories db') name <> None)
  /\ init_default_categories db' = db'.
Proof.
  intro db'. unfold db', init_default_categories.
  cbn [accounts categories transactions fixed_deposits].
  do 3 (split; [reflexivity|]).
  split; [apply init_categories_extends|].
  assert (Hcov : forall name, In name DEFAULT_CATEGORIES ->
                   default_category
                     (init_categories DEFAULT_CATEGORIES (categories db)) name
                   <> None).
  { intros name Hin. apply init_categories_covers. now left. }
  split; [exact Hcov|].
  now rewrite (init_categories_nothing_to_add _ _ Hcov).
Qed.

Lemma init_default_categories_idempotent_witness :
  default_category (categories (init_default_categories Samples.ledger))
                   "travel" <> None
  /\ List.length (categories (init_default_categories Samples.ledger)) = 16%nat.
Proof.
  split; [|reflexivity].
  apply (init_default_categories_idempotent Samples.ledger).
  simpl. tauto.
Defined.

(** *** Transactions, transfers and the balances *)

Lemma resolve_category_keeps_ledger
      (db : Store) (user : Z) (form : TransactionForm.t)
      (category_name : string) (db1 : Store) :
  resolve_category db user form = Some (category_name, db1) ->
  transactions db1 = transactions db /\ accounts db1 = accounts db
  /\ fixed_deposits db1 = fixed_deposits db.
Proof.
  unfold resolve_category.
  destruct (String.eqb (TransactionForm.category form) "__new__").
  - destruct (String.eqb _ ""); [discriminate|].
    destruct (sql.first _); intros [= _ <-]; repeat split.
  - intros [= _ <-]. repeat split.
Qed.

(** The amount the view stores: the entered amount, negative for an
    expense. *)
Lemma add_transaction_run
      (db : Store) (user : Z) (form : TransactionForm.t) (db' : Store) :
  add_transaction db user (POST form)
  = (Redirect "account_detail" "success", db') ->
  (1 # 100 <= TransactionForm.amount form)%Q
  /\ accounts db' = accounts db
  /\ fixed_deposits db' = fixed_deposits db
  /\ exists tx,
      transactions db' = (transactions db ++ [tx])%list
      /\ Transaction.account_id tx = TransactionForm.account_id form
      /\ Transaction.amount tx
         = (if String.eqb (TransactionForm.transaction_type form) "expense"
            then - Qabs (TransactionForm.amount form)
            else Qabs (TransactionForm.amount form))%Q
      /\ Transaction.my_share tx
         = match TransactionForm.my_share form with
           | Some share =>
               if Qnonzero share then
                 Some (if String.eqb (TransactionForm.transaction_type form)
                                     "expense"
                       then - Qabs share else Qabs share)%Q
               else None
           | None => None
           end.
Proof.
  unfold add_transaction.
  destruct (accounts_of_user db user) as [|a0 rest]; [discriminate|].
  simpl validate_on_submit.
  destruct (TransactionForm.validate _ _ form) eqn:Hvalid; [|discriminate].
  destruct (account_of_user db _ user); [|discriminate].
  destruct (resolve_category db user form) as [[category_name db1]|] eqn:Hcat;
    [|discriminate].
  destruct (resolve_category_keeps_ledger _ _ _ _ _ Hcat) as (Htx & Hacc & Hfd).
  intros [= <-].
  unfold TransactionForm.validate in Hvalid. rewrite !andb_true_iff in Hvalid.
  destruct Hvalid as [[[[[[_ Hmin] _] _] _] _] _].
  unfold NumberRange_min in Hmin. apply Qle_bool_iff in Hmin.
  split; [exact Hmin|]. cbn [accounts fixed_deposits transactions commit_transactions].
  split; [exact Hacc|]. split; [exact Hfd|].
  eexists. unfold sql.add. rewrite Htx.
  split; [reflexivity|]. repeat split.
Qed.

(** X12.  Adding a transaction touches the transactions of one account:
    no account, category or deposit changes, the table grows by one row,
    which belongs to the selected account, so the transactions of that
    account are those it had followed by the new one, and the
    transactions of every other account, and so its current balance, are
    what they were. *)
Theorem add_transaction_touches_one_account
        (db : Store) (user : Z) (form : TransactionForm.t) (db' : Store) :
  add_transaction db user (POST form)
  = (Redirect "account_detail" "success", db') ->
  accounts db' = accounts db
  /\ fixed_deposits db' = fixed_deposits db
  /\ exists tx,
      transactions db' = (transactions db ++ [tx])%list
      /\ Transaction.account_id tx = TransactionForm.account_id form
      /\ (forall a,
             Account.id a = TransactionForm.account_id form ->
             transactions_of (transactions db') a
             = (transactions_of (transactions db) a ++ [tx])%list)
      /\ (forall a,
             Account.id a <> TransactionForm.account_id form ->
             transactions_of (transactions db') a
             = transactions_of (transactions db) a
             /\ Account.current_balance (transactions db') a
                = Account.current_balance (transactions db) a).
Proof.
  intro Hrun.
  destruct (add_transaction_run _ _ _ _ Hrun)
    as (_ & Hacc & Hfd & tx & Htxs & Hid & _).
  split; [exact Hacc|]. split; [exact Hfd|].
  exists tx. split; [exact Htxs|]. split; [exact Hid|].
  assert (Hrows : forall a,
             transactions_of (transactions db') a
             = (transactions_of (transactions db) a
                ++ (if Account.id a =? TransactionForm.account_id form
                    then [tx] else []))%list).
  { intro a. rewrite Htxs, transactions_of_app. unfold transactions_of at 2.
    cbn [filter]. rewrite Hid, Z.eqb_sym.
    destruct (Account.id a =? TransactionForm.account_id form); reflexivity. }
  split.
  - intros a Ha. rewrite Hrows. apply Z.eqb_eq in Ha. now rewrite Ha.
  - intros a Ha.
    assert (Hsame : transactions_of (transactions db') a
                    = transactions_of (transactions db) a).
    { rewrite Hrows. apply Z.eqb_neq in Ha. rewrite Ha. apply app_nil_r. }
    split; [exact Hsame|]. now apply current_balance_same_rows.
Qed.

Lemma add_transaction_touches_one_account_witness :
  Account.current_balance
    (transactions
       (snd (add_transaction Samples.ledger 7
               (POST (TransactionForm.mk 1 "expense" 80 None "Lunch"
                                         "dining" "" (Samples.jan 21))))))
    Samples.brokerage
  = Account.current_balance (transactions Samples.ledger) Samples.brokerage.
Proof.
  destruct (add_transaction_touches_one_account Samples.ledger 7
              (TransactionForm.mk 1 "expense" 80 None "Lunch" "dining" ""
                                  (Samples.jan 21))
              _ eq_refl) as (_ & _ & tx & _ & _ & _ & Hother).
  apply (Hother Samples.brokerage). discriminate.
Defined.

(** X13.  What [add_transaction] stores is signed by the transaction
    type alone: the stored amount is negative for an expense and positive
    for an income, never zero, and a stored share has the sign of the
    amount, whatever sign the share was entered with. *)
Theorem add_transaction_signs
        (db : Store) (user : Z) (form : TransactionForm.t) (db' : Store) :
  add_transaction db user (POST form)
  = (Redirect "account_detail" "success", db') ->
  exists tx,
    transactions db' = (transactions db ++ [tx])%list
    /\ (TransactionForm.transaction_type form = "expense" ->
        (Transaction.amount tx < 0)%Q
        /\ forall share, Transaction.my_share tx = Some share -> (share < 0)%Q)
    /\ (TransactionForm.transaction_type form <> "expense" ->
        (0 < Transaction.amount tx)%Q
        /\ forall share, Transaction.my_share tx = Some share -> (0 < share)%Q).
Proof.
  intro Hrun.
  destruct (add_transaction_run _ _ _ _ Hrun)
    as (Hmin & _ & _ & tx & Htxs & _ & Hamt & Hshare).
  assert (Hpos : (0 < Qabs (TransactionForm.amount form))%Q).
  { rewrite Qabs_pos.
    - apply Qlt_le_trans with (1 # 100); [reflexivity|exact Hmin].
    - apply Qle_trans with (1 # 100); [discriminate|exact Hmin]. }
  assert (Habs : forall s, Qnonzero s = true -> (0 < Qabs s)%Q).
  { intros s Hs. apply Qnonzero_neq in Hs.
    destruct (Qlt_le_dec 0 (Qabs s)) as [H|H]; [exact H|].
    exfalso. apply Hs, Qabs_zero_inv.
    apply Qle_antisym; [exact H|apply Qabs_nonneg]. }
  assert (Hneg : forall q, (0 < q)%Q -> (- q < 0)%Q).
  { intros q Hq. rewrite <- (Qplus_0_r (- q)).
    setoid_replace 0%Q with (- q + q)%Q at 2 by ring.
    apply Qplus_lt_r. exact Hq. }
  exists tx. split; [exact Htxs|]. split.
  - intro Hexp. rewrite Hexp in Hamt, Hshare. simpl in Hamt, Hshare.
    rewrite Hamt. split; [now apply Hneg|].
    intros share Hs. rewrite Hshare in Hs.
    destruct (TransactionForm.my_share form) as [s|]; [|discriminate].
    destruct (Qnonzero s) eqn:Hnz; [|discriminate].
    injection Hs as <-. apply Hneg, Habs, Hnz.
  - intro Hinc. apply String.eqb_neq in Hinc. rewrite Hinc in Hamt, Hshare.
    rewrite Hamt. split; [exact Hpos|].
    intros share Hs. rewrite Hshare in Hs.
    destruct (TransactionForm.my_share form) as [s|]; [|discriminate].
    destruct (Qnonzero s) eqn:Hnz; [|discriminate].
    injection Hs as <-. apply Habs, Hnz.
Qed.

Lemma add_transaction_signs_witness :
  exists tx,
    transactions
      (snd (add_transaction Samples.ledger 7
              (POST (TransactionForm.mk 1 "expense" 80 (Some 30%Q) "Lunch"
                                        "dining" "" (Samples.jan 21)))))
    = (transactions Samples.ledger ++ [tx])%list
    /\ (Transaction.amount tx < 0)%Q.
Proof.
  destruct (add_transaction_signs Samples.ledger 7
              (TransactionForm.mk 1 "expense" 80 (Some 30%Q) "Lunch"
                                  "dining" "" (Samples.jan 21)) _ eq_refl)
    as (tx & Htxs & Hexp & _).
  exists tx. split; [exact Htxs|]. exact (proj1 (Hexp eq_refl)).
Defined.

Lemma transfer_run
      (db : Store) (user : Z) (form : TransferForm.t) (db' : Store) :
  transfer db user (POST form) = (Redirect "dashboard" "success", db') ->
  TransferForm.from_account_id form <> TransferForm.to_account_id form
  /\ accounts db' = accounts db
  /\ exists outgoing incoming,
      transactions db' = (transactions db ++ [outgoing; incoming])%list
      /\ Transaction.account_id outgoing = TransferForm.from_account_id form
      /\ Transaction.account_id incoming = TransferForm.to_account_id form
      /\ Transaction.amount outgoing = (- Qabs (TransferForm.amount form))%Q
      /\ Transaction.amount incoming = Qabs (TransferForm.amount form)
      /\ Transaction.category outgoing = "transfer"
      /\ Transaction.category incoming = "transfer".
Proof.
  unfold transfer.
  destruct (_ <? 2)%nat; [discriminate|].
  simpl validate_on_submit.
  destruct (TransferForm.validate _ form); [|discriminate].
  destruct (_ =? _) eqn:Hsame; [discriminate|].
  destruct (account_of_user db (TransferForm.from_account_id form) user);
    [|discriminate].
  destruct (account_of_user db (TransferForm.to_account_id form) user);
    [|discriminate].
  intros [= <-]. apply Z.eqb_neq in Hsame.
  split; [exact Hsame|]. split; [reflexivity|].
  eexists _, _. repeat split.
Qed.

(** X14.  A transfer touches the transactions of its two accounts only:
    the source account gets the outgoing row and the destination account
    the incoming one, whose amount is the amount of the outgoing one
    negated (no conversion is made, whatever the currencies of the two
    accounts); no account changes, and the transactions of every other
    account, and so its current balance, are what they were. *)
Theorem transfer_touches_two_accounts
        (db : Store) (user : Z) (form : TransferForm.t) (db' : Store) :
  transfer db user (POST form) = (Redirect "dashboard" "success", db') ->
  TransferForm.from_account_id form <> TransferForm.to_account_id form
  /\ accounts db' = accounts db
  /\ exists outgoing incoming,
      transactions db' = (transactions db ++ [outgoing; incoming])%list
      /\ Transaction.amount outgoing = (- Transaction.amount incoming)%Q
      /\ (forall a,
             Account.id a = TransferForm.from_account_id form ->
             transactions_of (transactions db') a
             = (transactions_of (transactions db) a ++ [outgoing])%list)
      /\ (forall a,
             Account.id a = TransferForm.to_account_id form ->
             transactions_of (transactions db') a
             = (transactions_of (transactions db) a ++ [incoming])%list)
      /\ (forall a,
             Account.id a <> TransferForm.from_account_id form ->
             Account.id a <> TransferForm.to_account_id form ->
             transactions_of (transactions db') a
             = transactions_of (transactions db) a
             /\ Account.current_balance (transactions db') a
                = Account.current_balance (transactions db) a).
Proof.
  intros Hrun.
  destruct (transfer_run _ _ _ _ Hrun)
    as (Hne & Hacc & outgoing & incoming & Htxs & Hfrom & Hto & Hout & Hin & _).
  split; [exact Hne|]. split; [exact Hacc|].
  exists outgoing, incoming. split; [exact Htxs|].
  split; [now rewrite Hout, Hin|].
  assert (Hrows : forall a,
             transactions_of (transactions db') a
             = (transactions_of (transactions db) a
                ++ (if Account.id a =? TransferForm.from_account_id form
                    then [outgoing] else [])
                ++ (if Account.id a =? TransferForm.to_account_id form
                    then [incoming] else []))%list).
  { intro a. rewrite Htxs, transactions_of_app. unfold transactions_of at 2.
    cbn [filter]. rewrite Hfrom, Hto, !(Z.eqb_sym _ (Account.id a)).
    destruct (Account.id a =? TransferForm.from_account_id form);
      destruct (Account.id a =? TransferForm.to_account_id form);
      reflexivity. }
  split; [|split].
  - intros a Ha. rewrite Hrows, Ha, Z.eqb_refl.
    assert (E : (TransferForm.from_account_id form
                 =? TransferForm.to_account_id form) = false)
      by now apply Z.eqb_neq.
    rewrite E. reflexivity.
  - intros a Ha. rewrite Hrows, Ha, Z.eqb_refl.
    assert (E : (TransferForm.to_account_id form
                 =? TransferForm.from_account_id form) = false)
      by (apply Z.eqb_neq; congruence).
    rewrite E. reflexivity.
  - intros a H1 H2.
    assert (Hsame : transactions_of (transactions db') a
                    = transactions_of (transactions db) a).
    { rewrite Hrows. apply Z.eqb_neq in H1, H2. rewrite H1, H2.
      apply app_nil_r. }
    split; [exact Hsame|]. now apply current_balance_same_rows.
Qed.

Lemma transfer_touches_two_accounts_witness :
  Account.current_balance
    (transactions (snd (transfer Samples.ledger 7
                          (POST (TransferForm.mk 1 2 250 ""
                                                 (Samples.jan 15))))))
    Samples.india
  = Account.current_balance (transactions Samples.ledger) Samples.india.
Proof.
  destruct (transfer_touches_two_accounts Samples.ledger 7
              (TransferForm.mk 1 2 250 "" (Samples.jan 15)) _ eq_refl)
    as (_ & _ & outgoing & incoming & _ & _ & _ & _ & Hother).
  apply (Hother Samples.india); discriminate.
Defined.

(** *** The rate cache over several calls *)

Lemma get_exchange_rate_when_fresh (w : World) :
  is_fresh (_rate_cache w) (now_at_check (outside w (calls w))) = true ->
  get_exchange_rate w
  = (Ok (rate (_rate_cache w)), after_call w (_rate_cache w) 0).
Proof.
  intro H. unfold get_exchange_rate. now rewrite H.
Qed.

Lemma get_exchange_rate_when_stops (w : World) :
  is_fresh (_rate_cache w) (now_at_check (outside w (calls w))) = false ->
  fetch_stops (http (outside w (calls w))) = true ->
  get_exchange_rate w
  = (Ok (rate (_rate_cache w)), after_call w (_rate_cache w) 1).
Proof.
  intros H Hstop. unfold get_exchange_rate.
  rewrite H, fetched_rate_spec.
  destruct (http (outside w (calls w))) as [|status_code body]; [reflexivity|].
  simpl in Hstop. destruct (status_code =? 200); [|reflexivity].
  simpl in Hstop. rewrite Hstop. now destruct body.
Qed.

Lemma get_exchange_rate_when_reads (w : World) (body : option json) :
  is_fresh (_rate_cache w) (now_at_check (outside w (calls w))) = false ->
  http (outside w (calls w)) = Response 200 body ->
  unreadable_payload body = false ->
  get_exchange_rate w
  = (Ok (payload_rate body),
     after_call w {| rate := payload_rate body;
                     last_updated :=
                       Some (now_at_store (outside w (calls w))) |} 1).
Proof.
  intros H Hhttp Hbody. unfold get_exchange_rate.
  rewrite H, fetched_rate_spec, Hhttp. simpl. now rewrite Hbody.
Qed.

(** X15.  A fetch that fails is not remembered: as long as no fetch has
    ever succeeded and the rate source keeps failing (network error,
    non-200 answer or unreadable payload), every call sends a request of
    its own and returns the rate of the cache, so [n] calls send [n]
    requests and leave the cache as it was. *)
Theorem get_exchange_rate_retries_after_failure (n : nat) (w : World) :
  last_updated (_rate_cache w) = None ->
  (forall k, (calls w <= k)%nat -> fetch_stops (http (outside w k)) = true) ->
  Notions.rates_of_calls n w
  = (Ok (repeat (rate (_rate_cache w)) n),
     {| _rate_cache := _rate_cache w;
        outside := outside w;
        calls := n + calls w;
        requests_sent := n + requests_sent w |}).
Proof.
  revert w. induction n as [|n IH]; intros w Hnone Hstops.
  - destruct w; reflexivity.
  - cbn [Notions.rates_of_calls]. rewrite bind_run.
    rewrite get_exchange_rate_when_stops.
    + rewrite bind_run, IH.
      * unfold ret, after_call. cbn [_rate_cache outside calls requests_sent repeat].
        rewrite !Nat.add_succ_r. reflexivity.
      * exact Hnone.
      * intros k Hk. apply Hstops. cbn [after_call calls] in Hk. lia.
    + unfold is_fresh. now rewrite Hnone.
    + apply Hstops. lia.
Qed.

Lemma get_exchange_rate_retries_after_failure_witness :
  Notions.rates_of_calls 3 Samples.offline_world
  = (Ok [JNum 83; JNum 83; JNum 83],
     {| _rate_cache := initial_rate_cache;
        outside := outside Samples.offline_world;
        calls := 3;
        requests_sent := 3 |}).
Proof.
  apply (get_exchange_rate_retries_after_failure 3 Samples.offline_world).
  - reflexivity.
  - intros k _. reflexivity.
Defined.

(** X16.  A rate that was fetched is reused for one hour counted from the
    moment it was stored: after a call that fetched a readable payload,
    the next call returns the same rate without a request when less than
    an hour has passed since the cache was stamped, and sends a second
    request when an hour or more has passed. *)
Theorem get_exchange_rate_reuses_fetched_rate
        (w : World) (body : option json) :
  let first := outside w (calls w) in
  let second := outside w (S (calls w)) in
  is_fresh (_rate_cache w) (now_at_check first) = false ->
  http first = Response 200 body ->
  unreadable_payload body = false ->
  exists w1,
    get_exchange_rate w = (Ok (payload_rate body), w1)
    /\ requests_sent w1 = S (requests_sent w)
    /\ (now_at_check second - now_at_store first < timedelta_hours 1 ->
        get_exchange_rate w1
        = (Ok (payload_rate body), after_call w1 (_rate_cache w1) 0))
    /\ (timedelta_hours 1 <= now_at_check second - now_at_store first ->
        requests_sent (snd (get_exchange_rate w1)) = S (S (requests_sent w))).
Proof.
  intros first second Hstale Hhttp Hbody.
  eexists. split; [now apply get_exchange_rate_when_reads|].
  split; [reflexivity|]. split.
  - intro Hage. rewrite get_exchange_rate_when_fresh; [reflexivity|].
    apply is_fresh_spec. eexists. split; [reflexivity|exact Hage].
  - intro Hage. unfold get_exchange_rate at 1.
    cbn [after_call _rate_cache outside calls requests_sent].
    unfold is_fresh. cbn [last_updated].
    fold first second.
    assert (E : (now_at_check second - now_at_store first
                 <? timedelta_hours 1) = false) by (apply Z.ltb_ge; exact Hage).
    rewrite E.
    destruct (fetched_rate (http second)) as [[new_rate|]|e]; reflexivity.
Qed.

Lemma get_exchange_rate_reuses_fetched_rate_witness :
  exists w1,
    get_exchange_rate Samples.zero_rate_world = (Ok (JNum 0), w1)
    /\ get_exchange_rate w1 = (Ok (JNum 0), after_call w1 (_rate_cache w1) 0).
Proof.
  destruct (get_exchange_rate_reuses_fetched_rate
              Samples.zero_rate_world
              (Some (JDict [("rates", JDict [("INR", JNum 0)])]))
              eq_refl eq_refl eq_refl)
    as (w1 & Hfirst & _ & Hfresh & _).
  exists w1. split; [exact Hfirst|]. apply Hfresh. reflexivity.
Defined.

(** *** The monthly report and transfers *)

Lemma transfers_are_neither (entries : list entry) :
  Forall (fun e => Transaction.category (snd e) = "transfer") entries ->
  filter is_income entries = [] /\ filter is_expense entries = [].
Proof.
  induction 1 as [|e es He _ [IHi IHe]]; [split; reflexivity|].
  cbn [filter]. unfold is_income, is_expense, not_transfer.
  rewrite He. cbn [String.eqb Ascii.eqb Bool.eqb negb].
  rewrite !andb_false_r. split; assumption.
Qed.

Lemma sums_ignore_transfers (entries extra : list entry) :
  Forall (fun e => Transaction.category (snd e) = "transfer") extra ->
  income_sum (entries ++ extra) = income_sum entries
  /\ expense_sum (entries ++ extra) = expense_sum entries
  /\ forall cat,
      expense_sum_in cat (entries ++ extra) = expense_sum_in cat entries.
Proof.
  intro Hall.
  destruct (transfers_are_neither extra Hall) as [Hi He].
  unfold income_sum, expense_sum_in, expense_sum.
  split; [|split].
  - now rewrite filter_app, Hi, app_nil_r.
  - now rewrite filter_app, He, app_nil_r.
  - intro cat. rewrite !filter_app.
    assert (H : filter is_expense (filter (in_category cat) extra) = []).
    { apply transfers_are_neither. apply Forall_forall. intros e Hin.
      apply filter_In in Hin. destruct Hin as [Hin _].
      rewrite Forall_forall in Hall. now apply Hall. }
    now rewrite H, app_nil_r.
Qed.

(** While the cached rate holds, the figures of a report that is
    produced are the aggregates of the month's amounts at that rate. *)
Lemma monthly_report_at_rate
      (db : Store) (user year month : Z) (w w' : World) (q : Q)
      (rep : report) :
  rate_holds w q -> ~ (q == 0)%Q ->
  monthly_report db user year month w = (Ok rep, w') ->
  aggregates rep
    (map (fun tx => (usd_at q (account_currency_map db user) tx, tx))
         (monthly_transactions db user year month)).
Proof.
  intros Hw Hq Hrun.
  destruct (monthly_report_of_converted _ _ _ _ _ _ _ Hrun)
    as (ps & w1 & Hconv & Hagg).
  destruct (converted_amounts_steady (account_currency_map db user)
              (monthly_transactions db user year month) w q Hw Hq)
    as (w1' & Hconv' & _).
  rewrite Hconv in Hconv'. injection Hconv' as -> _.
  now rewrite combine_map_self in Hagg.
Qed.

(** X18.  Moving money is neither income nor spending.  Committing any
    transactions of the category [transfer] (the two legs of a transfer,
    the debit that funds a fixed deposit) leaves the income, the expenses,
    the net and the expenses of every category of a monthly report as
    they were, whatever the amounts, accounts and dates of the new
    transactions: while the cache holds a rate other than zero, two
    reports of the same month that are produced, one before and one
    after the commit, show the same four figures. *)
Theorem monthly_report_ignores_transfers
        (db : Store) (pending : list Transaction.t)
        (user year month : Z) (w : World) (q : Q) :
  rate_holds w q -> ~ (q == 0)%Q ->
  Forall (fun tx => Transaction.category tx = "transfer") pending ->
  forall before after w1 w2,
    monthly_report db user year month w = (Ok before, w1) ->
    monthly_report (commit_transactions pending db) user year month w
    = (Ok after, w2) ->
    (total_income after == total_income before)%Q
    /\ (total_expenses after == total_expenses before)%Q
    /\ (net after == net before)%Q
    /\ forall cat,
        (dict_get String.eqb (expenses after) cat 0
         == dict_get String.eqb (expenses before) cat 0)%Q.
Proof.
  intros Hw Hq Hall before after w1 w2 Hrun1 Hrun2.
  pose proof (monthly_report_at_rate _ _ _ _ _ _ _ _ Hw Hq Hrun1) as Hagg1.
  pose proof (monthly_report_at_rate _ _ _ _ _ _ _ _ Hw Hq Hrun2) as Hagg2.
  change (account_currency_map (commit_transactions pending db) user)
    with (account_currency_map db user) in Hagg2.
  set (g := fun tx => (usd_at q (account_currency_map db user) tx, tx))
    in Hagg1, Hagg2.
  set (p := fun tx =>
              mem_Z (Transaction.account_id tx)
                    (map Account.id (accounts_of_user db user))
              && in_month year month tx).
  assert (Hmonthly :
            monthly_transactions (commit_transactions pending db)
                                 user year month
            = (monthly_transactions db user year month
               ++ filter p pending)%list).
  { unfold monthly_transactions. cbn [commit_transactions transactions].
    apply filter_app. }
  rewrite Hmonthly, map_app in Hagg2.
  assert (Hextra : Forall (fun e : entry =>
                             Transaction.category (snd e) = "transfer")
                          (map g (filter p pending))).
  { apply Forall_forall. intros e Hin.
    apply in_map_iff in Hin. destruct Hin as (tx & <- & Hin).
    apply filter_In in Hin. destruct Hin as [Hin _].
    rewrite Forall_forall in Hall. now apply Hall. }
  destruct (sums_ignore_transfers
              (map g (monthly_transactions db user year month))
              _ Hextra) as (Ei & Ee & Ec).
  destruct Hagg1 as (Hi1 & He1 & Hc1 & _ & _ & Hn1).
  destruct Hagg2 as (Hi2 & He2 & Hc2 & _ & _ & Hn2).
  unfold entry in *. rewrite Ei in Hi2, Hn2. rewrite Ee in He2, Hn2.
  split; [now rewrite Hi1, Hi2|]. split; [now rewrite He1, He2|].
  split; [now rewrite Hn1, Hn2|].
  intro cat. now rewrite Hc1, Hc2, Ec.
Qed.

Lemma steady_world_holds : rate_holds Samples.steady_world 83.
Proof. split; [reflexivity|]. intros k _. reflexivity. Qed.

Lemma monthly_report_ignores_transfers_witness :
  exists before after w1 w2,
    monthly_report Samples.ledger 7 2024 1 Samples.steady_world
    = (Ok before, w1)
    /\ monthly_report
         (commit_transactions
            [Transaction.mk 1 (-400) None "To savings" "transfer"
                            (Samples.jan 15);
             Transaction.mk 3 400 None "From checking" "transfer"
                            (Samples.jan 15)]
            Samples.ledger)
         7 2024 1 Samples.steady_world
       = (Ok after, w2)
    /\ (total_expenses after == total_expenses before)%Q.
Proof.
  assert (Hq : ~ (83 == 0)%Q).
  { intro H. vm_compute in H. discriminate H. }
  do 4 eexists. split; [reflexivity|]. split; [reflexivity|].
  eapply (monthly_report_ignores_transfers
            Samples.ledger
            [Transaction.mk 1 (-400) None "To savings" "transfer"
                            (Samples.jan 15);
             Transaction.mk 3 400 None "From checking" "transfer"
                            (Samples.jan 15)]
            7 2024 1 Samples.steady_world 83%Q steady_world_holds Hq);
    [repeat constructor|reflexivity|reflexivity].
Defined.

(** *** The summaries *)




(** *** The views agree *)

(** A loop that adds one number per element adds their sum. *)
Lemma for_each_adds {A : Type} (body : Q -> A -> M Q) (g : A -> Q)
      (P : World -> Prop) :
  (forall acc a w, P w ->
     exists v w', body acc a w = (Ok v, w') /\ P w' /\ (v == acc + g a)%Q) ->
  forall l acc w, P w ->
    exists v w', for_each body l acc w = (Ok v, w') /\ P w'
                 /\ (v == acc + total (map g l))%Q.
Proof.
  intro Hbody. induction l as [|a l IH]; intros acc w Hw.
  - exists acc, w. split; [reflexivity|]. split; [exact Hw|].
    cbn [map total fold_right]. ring.
  - destruct (Hbody acc a w Hw) as (v1 & w1 & Hrun1 & Hw1 & Hv1).
    destruct (IH v1 w1 Hw1) as (v & w' & Hrun & Hw' & Hv).
    exists v, w'. cbn [for_each]. rewrite bind_run, Hrun1.
    split; [exact Hrun|]. split; [exact Hw'|].
    cbn [map]. rewrite total_cons, Hv, Hv1. ring.
Qed.

Lemma dashboard_total_balance_steady
      (db : Store) (user : Z) (w : World) (q : Q) :
  rate_holds w q -> ~ (q == 0)%Q ->
  exists v w',
    summaries.dashboard_total_balance db user w = (Ok v, w')
    /\ rate_holds w' q
    /\ (v == total (map (Notions.usd_value q db)
                        (accounts_of_user db user)))%Q.
Proof.
  intros Hw Hq. unfold summaries.dashboard_total_balance.
  match goal with
  | |- context [for_each ?body _ _ _] =>
      destruct (for_each_adds body (Notions.usd_value q db)
                              (fun w => rate_holds w q))
        with (l := accounts_of_user db user) (acc := 0%Q) (w := w)
        as (v & w' & Hrun & Hw' & Hv)
  end.
  - intros acc a w0 Hw0. unfold Notions.usd_value.
    destruct (String.eqb _ "INR").
    + destruct (inr_to_usd_steady (total_value db a) w0 q Hw0 Hq)
        as (w1 & Hrun1 & Hw1).
      rewrite bind_run, Hrun1. eexists _, _.
      split; [reflexivity|]. split; [exact Hw1|reflexivity].
    + eexists _, _. split; [reflexivity|]. split; [exact Hw0|reflexivity].
  - exact Hw.
  - exists v, w'. split; [exact Hrun|]. split; [exact Hw'|].
    rewrite Hv. ring.
Qed.

Lemma total_map_filter {A : Type} (p : A -> bool) (f : A -> Q) (l : list A) :
  (total (map (fun x => if p x then f x else 0) l)
   == total (map f (filter p l)))%Q.
Proof.
  induction l as [|x l IH]; [reflexivity|].
  cbn [map filter]. rewrite total_cons, IH.
  destruct (p x); cbn [map]; rewrite ?total_cons; ring.
Qed.

Lemma dashboard_expenses_steady
      (db : Store) (user : Z) (today : date) (w : World) (q : Q) :
  rate_holds w q -> ~ (q == 0)%Q ->
  exists v w',
    summaries.dashboard_expenses db user today w = (Ok v, w')
    /\ rate_holds w' q
    /\ (v == Qabs (total
                     (map (usd_at q (account_currency_map db user))
                          (filter
                             (fun tx => Qltb (Transaction.personal_amount tx) 0)
                             (filter
                                (fun tx =>
                                   mem_Z (Transaction.account_id tx)
                                         (map Account.id
                                              (accounts_of_user db user))
                                   && Qltb (Transaction.amount tx) 0
                                   && negb (String.eqb
                                              (Transaction.category tx)
                                              "transfer")
                                   && in_month (year today) (month today) tx)
                                (transactions db))))))%Q.
Proof.
  intros Hw Hq. unfold summaries.dashboard_expenses.
  set (rows := filter _ (transactions db)).
  rewrite bind_run.
  match goal with
  | |- context [for_each ?body rows 0%Q w] =>
      destruct (for_each_adds body
                  (fun tx => if Qltb (Transaction.personal_amount tx) 0
                             then usd_at q (account_currency_map db user) tx
                             else 0%Q)
                  (fun w => rate_holds w q))
        with (l := rows) (acc := 0%Q) (w := w)
        as (v & w' & Hrun & Hw' & Hv)
  end.
  - intros acc tx w0 Hw0.
    destruct (Qltb (Transaction.personal_amount tx) 0); cbn [negb].
    + unfold usd_at. rewrite bind_run.
      destruct (String.eqb _ "INR").
      * destruct (inr_to_usd_steady (Transaction.personal_amount tx)
                                    w0 q Hw0 Hq) as (w1 & Hrun1 & Hw1).
        rewrite Hrun1. eexists _, _.
        split; [reflexivity|]. split; [exact Hw1|reflexivity].
      * eexists _, _. split; [reflexivity|]. split; [exact Hw0|reflexivity].
    + eexists _, _. split; [reflexivity|]. split; [exact Hw0|ring].
  - exact Hw.
  - rewrite Hrun. exists (Qabs v), w'. split; [reflexivity|].
    split; [exact Hw'|].
    rewrite Hv, total_map_filter. apply Qabs_wd. ring.
Qed.

Lemma dashboard_steady
      (db : Store) (user : Z) (today : date) (w : World) (q : Q) :
  rate_holds w q -> ~ (q == 0)%Q ->
  exists total_balance monthly_expenses w1 w',
    summaries.dashboard db user today w
    = (Ok (total_balance, monthly_expenses), w')
    /\ summaries.dashboard_total_balance db user w = (Ok total_balance, w1)
    /\ summaries.dashboard_expenses db user today w1
       = (Ok monthly_expenses, w')
    /\ rate_holds w1 q.
Proof.
  intros Hw Hq.
  destruct (dashboard_total_balance_steady db user w q Hw Hq)
    as (tb & w1 & Hrun1 & Hw1 & _).
  destruct (dashboard_expenses_steady db user today w1 q Hw1 Hq)
    as (me & w' & Hrun2 & _ & _).
  exists tb, me, w1, w'. unfold summaries.dashboard.
  rewrite bind_run, Hrun1, bind_run, Hrun2.
  split; [reflexivity|]. split; [reflexivity|].
  split; [reflexivity|exact Hw1].
Qed.

Ltac decide_string_tests :=
  repeat match goal with
         | |- context [String.eqb ?a ?b] =>
             let v := eval vm_compute in (String.eqb a b) in
             change (String.eqb a b) with v
         end.

(** *** The month's expenses on the dashboard and in the report *)

Lemma filter_of_map {A B : Type} (p : B -> bool) (g : A -> B) (l : list A) :
  filter p (map g l) = map g (filter (fun x => p (g x)) l).
Proof.
  induction l as [|x l IH]; [reflexivity|].
  cbn [map filter]. destruct (p (g x)); cbn [map]; now rewrite IH.
Qed.

Lemma filter_filter_both {A : Type} (f g : A -> bool) (l : list A) :
  filter f (filter g l) = filter (fun x => g x && f x) l.
Proof.
  induction l as [|x l IH]; [reflexivity|].
  cbn [filter]. destruct (g x); cbn [filter andb]; [|exact IH].
  destruct (f x); now rewrite IH.
Qed.

Lemma Qabs_total_nonpos {A : Type} (f : A -> Q) (l : list A) :
  (forall x, In x l -> (f x <= 0)%Q) ->
  (Qabs (total (map f l)) == total (map (fun x => Qabs (f x)) l))%Q.
Proof.
  intro Hneg.
  assert (H : (total (map f l) <= 0)%Q
              /\ (total (map (fun x => Qabs (f x)) l)
                  == - total (map f l))%Q).
  { induction l as [|x l IH].
    - cbn [map total fold_right]. split; lra.
    - destruct IH as [IH1 IH2]; [intros y Hy; apply Hneg; now right|].
      cbn [map]. rewrite !total_cons.
      pose proof (Hneg x (or_introl eq_refl)) as Hx.
      pose proof (Qabs_neg (f x) Hx) as Ex.
      split; lra. }
  destruct H as [H1 H2]. rewrite H2. now apply Qabs_neg.
Qed.

Lemma usd_at_sign (q : Q) (currency_map : list (Z * string))
      (tx : Transaction.t) :
  (0 < q)%Q ->
  Qltb (usd_at q currency_map tx) 0 = Qltb (Transaction.personal_amount tx) 0.
Proof.
  intro Hq. unfold usd_at.
  destruct (String.eqb _ "INR"); [|reflexivity].
  apply eq_true_iff_eq. rewrite !Qltb_lt.
  set (p := Transaction.personal_amount tx).
  rewrite <- (Qmult_lt_r (p / q) 0 q Hq).
  assert (E : (p / q * q == p)%Q) by (field; lra).
  rewrite E, Qmult_0_l. reflexivity.
Qed.

(** X22.  This month's expenses are the same number on the dashboard and
    in the monthly report of the current month.  The dashboard selects the
    rows by the sign of the full amount and then skips those whose
    personal amount is not negative; the report goes by the sign of the
    converted personal amount alone.  When both pages are produced, the
    two figures agree while the cache holds a positive rate, provided no
    transaction has a negative personal amount without a negative amount,
    which holds of every transaction the transaction form stores. *)
Theorem dashboard_expenses_match_report
        (db : Store) (user : Z) (today : date) (w : World) (q : Q) :
  rate_holds w q -> (0 < q)%Q ->
  forallb Notions.share_follows_amount (transactions db) = true ->
  forall total_balance monthly_expenses rep w1 w2,
    summaries.dashboard db user today w
    = (Ok (total_balance, monthly_expenses), w1) ->
    monthly_report db user (year today) (month today) w = (Ok rep, w2) ->
    (monthly_expenses == total_expenses rep)%Q.
Proof.
  intros Hw Hpos Hshares tb me rep w1 w2 Hdash Hrep.
  assert (Hq : ~ (q == 0)%Q) by lra.
  destruct (dashboard_steady db user today w q Hw Hq)
    as (tb' & me' & w0 & w1' & Hdash' & _ & Hme & Hw0).
  rewrite Hdash in Hdash'. injection Hdash' as <- <- <-.
  destruct (dashboard_expenses_steady db user today w0 q Hw0 Hq)
    as (me' & w1' & Hme' & _ & Eme).
  rewrite Hme in Hme'. injection Hme' as <- <-.
  destruct (monthly_report_at_rate _ _ _ _ _ _ _ _ Hw Hq Hrep)
    as (_ & Eexp & _).
  rewrite Eme, Eexp. unfold expense_sum, monthly_transactions.
  rewrite filter_of_map, map_map, !filter_filter_both. cbn [fst].
  set (cm := account_currency_map db user).
  set (ids := map Account.id (accounts_of_user db user)).
  assert (Hsame :
            filter (fun x =>
                      mem_Z (Transaction.account_id x) ids
                      && in_month (year today) (month today) x
                      && is_expense (usd_at q cm x, x))
                   (transactions db)
            = filter (fun x =>
                        mem_Z (Transaction.account_id x) ids
                        && Qltb (Transaction.amount x) 0
                        && negb (String.eqb (Transaction.category x)
                                            "transfer")
                        && in_month (year today) (month today) x
                        && Qltb (Transaction.personal_amount x) 0)
                     (transactions db)).
  { apply filter_ext_in. intros x Hx.
    rewrite forallb_forall in Hshares. specialize (Hshares x Hx).
    unfold Notions.share_follows_amount in Hshares.
    unfold is_expense, not_transfer. cbn [fst snd].
    rewrite (usd_at_sign q cm x Hpos).
    destruct (mem_Z _ ids), (in_month _ _ x),
      (Qltb (Transaction.personal_amount x) 0),
      (Qltb (Transaction.amount x) 0),
      (negb (String.eqb (Transaction.category x) "transfer"));
      try reflexivity; discriminate Hshares. }
  rewrite Hsame. apply Qabs_total_nonpos.
  intros x Hx. apply filter_In in Hx. destruct Hx as [_ Hx].
  apply andb_true_iff in Hx. destruct Hx as [_ Hx].
  pose proof (usd_at_sign q cm x Hpos) as Hsign. rewrite Hx in Hsign.
  apply Qltb_lt in Hsign. now apply Qlt_le_weak.
Qed.

Lemma dashboard_expenses_match_report_witness :
  exists total_balance monthly_expenses rep w1 w2,
    summaries.dashboard Samples.ledger 7 (Samples.jan 31) Samples.steady_world
    = (Ok (total_balance, monthly_expenses), w1)
    /\ monthly_report Samples.ledger 7 2024 1 Samples.steady_world
       = (Ok rep, w2)
    /\ (monthly_expenses == total_expenses rep)%Q.
Proof.
  do 5 eexists. split; [reflexivity|]. split; [reflexivity|].
  eapply (dashboard_expenses_match_report Samples.ledger 7 (Samples.jan 31)
            Samples.steady_world 83%Q steady_world_holds eq_refl eq_refl);
    reflexivity.
Defined.

(** *** An invariant of the stored transactions *)

Lemma share_follows_amount_without_share (tx : Transaction.t) :
  Transaction.my_share tx = None ->
  Notions.share_follows_amount tx = true.
Proof.
  intro H. unfold Notions.share_follows_amount, Transaction.personal_amount.
  rewrite H. now destruct (Qltb (Transaction.amount tx) 0).
Qed.

Lemma add_transaction_outcomes
      (db : Store) (user : Z) (req : request TransactionForm.t) :
  transactions (snd (add_transaction db user req)) = transactions db
  \/ exists form,
      req = POST form
      /\ fst (add_transaction db user req)
         = Redirect "account_detail" "success".
Proof.
  unfold add_transaction.
  destruct (accounts_of_user db user); [now left|].
  destruct req as [| |form]; try (now left).
  cbn [validate_on_submit].
  destruct (TransactionForm.validate _ _ form); [|now left].
  destruct (account_of_user db _ user); [|now left].
  destruct (resolve_category db user form) as [[category_name db1]|];
    [|now left].
  right. exists form. split; reflexivity.
Qed.

Lemma transfer_outcomes
      (db : Store) (user : Z) (req : request TransferForm.t) :
  exists session,
    transactions (snd (transfer db user req))
    = (transactions db ++ session)%list
    /\ Forall (fun tx => Transaction.my_share tx = None) session.
Proof.
  assert (Hsame : exists session,
             transactions db = (transactions db ++ session)%list
             /\ Forall (fun tx => Transaction.my_share tx = None) session).
  { exists []. split; [now rewrite app_nil_r|constructor]. }
  unfold transfer.
  destruct (_ <? 2)%nat; [exact Hsame|].
  destruct req as [| |form]; try exact Hsame.
  cbn [validate_on_submit].
  destruct (TransferForm.validate _ form); [|exact Hsame].
  destruct (_ =? _); [exact Hsame|].
  destruct (account_of_user db (TransferForm.from_account_id form) user);
    [|exact Hsame].
  destruct (account_of_user db (TransferForm.to_account_id form) user);
    [|exact Hsame].
  eexists. split; [reflexivity|]. repeat constructor.
Qed.

Lemma add_fixed_deposit_outcomes
      (db : Store) (user : Z) (req : request FixedDepositForm.t) :
  exists session,
    transactions (snd (add_fixed_deposit db user req))
    = (transactions db ++ session)%list
    /\ Forall (fun tx => Transaction.my_share tx = None) session.
Proof.
  assert (Hsame : exists session,
             transactions db = (transactions db ++ session)%list
             /\ Forall (fun tx => Transaction.my_share tx = None) session).
  { exists []. split; [now rewrite app_nil_r|constructor]. }
  unfold add_fixed_deposit.
  destruct (inr_accounts_of_user db user); [exact Hsame|].
  destruct req as [| |form]; try exact Hsame.
  cbn [validate_on_submit].
  destruct (FixedDepositForm.validate _ form); [|exact Hsame].
  destruct (sql.first _); [|exact Hsame].
  eexists. split; [reflexivity|].
  destruct (FixedDepositForm.debit_from_account form); repeat constructor.
Qed.

(** X23.  The three views that store transactions keep this invariant of
    the ledger, whatever the request and its outcome: no stored
    transaction has a negative personal amount without a negative amount.
    ([add_transaction] gives the share the sign of the amount, which is
    never zero as the form wants at least 0.01; a transfer and the debit
    of a fixed deposit store no share.) *)
Theorem views_keep_shares_with_amounts (db : Store) (user : Z) :
  forallb Notions.share_follows_amount (transactions db) = true ->
  (forall req,
      forallb Notions.share_follows_amount
              (transactions (snd (add_transaction db user req))) = true)
  /\ (forall req,
         forallb Notions.share_follows_amount
                 (transactions (snd (transfer db user req))) = true)
  /\ (forall req,
         forallb Notions.share_follows_amount
                 (transactions (snd (add_fixed_deposit db user req))) = true).
Proof.
  intro Hinv.
  assert (Hsession : forall session,
             Forall (fun tx => Transaction.my_share tx = None) session ->
             forallb Notions.share_follows_amount
                     (transactions db ++ session) = true).
  { intros session Hnone. rewrite forallb_app, Hinv. cbn [andb].
    apply forallb_forall. intros tx Hin.
    rewrite Forall_forall in Hnone.
    now apply share_follows_amount_without_share, Hnone. }
  split; [|split].
  - intro req.
    destruct (add_transaction_outcomes db user req)
      as [Hsame|(form & -> & Hdone)]; [now rewrite Hsame|].
    destruct (add_transaction db user (POST form)) as [resp db'] eqn:Hrun.
    cbn [fst snd] in Hdone |- *. subst resp.
    destruct (add_transaction_run _ _ _ _ Hrun)
      as (Hmin & _ & _ & tx & Htxs & _ & Hamount & Hshare).
    rewrite Htxs, forallb_app, Hinv. cbn [forallb andb]. rewrite andb_true_r.
    assert (Hpos : (0 < Qabs (TransactionForm.amount form))%Q).
    { rewrite Qabs_pos; lra. }
    unfold Notions.share_follows_amount, Transaction.personal_amount.
    rewrite Hshare, Hamount.
    destruct (String.eqb (TransactionForm.transaction_type form) "expense").
    + apply orb_true_iff. right. apply Qltb_lt. lra.
    + apply orb_true_iff. left. apply negb_true_iff.
      assert (Hnot : forall x, (0 <= x)%Q -> Qltb x 0 = false).
      { intros x Hx. destruct (Qltb x 0) eqn:E; [|reflexivity].
        apply Qltb_lt in E. lra. }
      destruct (TransactionForm.my_share form) as [share|];
        [destruct (Qnonzero share)|]; apply Hnot;
        try apply Qabs_nonneg; lra.
  - intro req. destruct (transfer_outcomes db user req) as (s & -> & Hs).
    now apply Hsession.
  - intro req.
    destruct (add_fixed_deposit_outcomes db user req) as (s & -> & Hs).
    now apply Hsession.
Qed.

Lemma views_keep_shares_with_amounts_witness :
  forallb Notions.share_follows_amount
          (transactions
             (snd (add_transaction Samples.ledger 7
                     (POST (TransactionForm.mk 1 "expense" 80
                              (Some 30%Q) "Lunch" "dining" ""
                              (Samples.jan 21)))))) = true.
Proof.
  apply (proj1 (views_keep_shares_with_amounts Samples.ledger 7 eq_refl)).
Defined.

(** *** backup.py: pruning *)

Lemma string_compare_refl (s : string) : String.compare s s = Eq.
Proof.
  induction s as [|c s IH]; [reflexivity|].
  cbn [String.compare]. unfold Ascii.compare. now rewrite N.compare_refl.
Qed.

Lemma string_compare_lt_trans (a b c : string) :
  String.compare a b = Lt -> String.compare b c = Lt ->
  String.compare a c = Lt.
Proof.
  revert b c. induction a as [|x a IH]; intros [|y b] [|z c];
    cbn [String.compare]; try discriminate; try reflexivity.
  unfold Ascii.compare.
  destruct (N.compare_spec (N_of_ascii x) (N_of_ascii y)) as [Exy|Lxy|Gxy];
    try discriminate;
    destruct (N.compare_spec (N_of_ascii y) (N_of_ascii z)) as [Eyz|Lyz|Gyz];
    try discriminate; intros H1 H2.
  - rewrite Exy, Eyz, N.compare_refl. now apply IH with b.
  - rewrite Exy. apply N.compare_lt_iff in Lyz. now rewrite Lyz.
  - rewrite <- Eyz. apply N.compare_lt_iff in Lxy. now rewrite Lxy.
  - assert (H : (N_of_ascii x < N_of_ascii z)%N) by lia.
    apply N.compare_lt_iff in H. now rewrite H.
Qed.

Lemma string_leb_trans (a b c : string) :
  String.leb a b = true -> String.leb b c = true -> String.leb a c = true.
Proof.
  unfold String.leb.
  destruct (String.compare a b) eqn:Eab; try discriminate;
    destruct (String.compare b c) eqn:Ebc; try discriminate; intros _ _.
  - apply String.compare_eq_iff in Eab, Ebc. subst.
    now rewrite string_compare_refl.
  - apply String.compare_eq_iff in Eab. subst. now rewrite Ebc.
  - apply String.compare_eq_iff in Ebc. subst. now rewrite Eab.
  - now rewrite (string_compare_lt_trans a b c Eab Ebc).
Qed.

Lemma insert_sorted_In (x y : string) (l : list string) :
  In y (backup.insert_sorted x l) <-> y = x \/ In y l.
Proof.
  induction l as [|n l IH]; cbn [backup.insert_sorted In].
  - intuition.
  - destruct (String.leb x n); cbn [In]; [intuition|].
    rewrite IH. intuition.
Qed.

Lemma sorted_In (y : string) (l : list string) :
  In y (backup.sorted l) <-> In y l.
Proof.
  induction l as [|n l IH]; cbn [backup.sorted In]; [reflexivity|].
  rewrite insert_sorted_In, IH. intuition.
Qed.

Lemma insert_sorted_keeps_order (x : string) (l : list string) :
  StronglySorted (fun a b => String.leb a b = true) l ->
  StronglySorted (fun a b => String.leb a b = true)
                 (backup.insert_sorted x l).
Proof.
  induction 1 as [|n l Hl IH Hn]; cbn [backup.insert_sorted].
  - repeat constructor.
  - destruct (String.leb x n) eqn:E.
    + constructor; [now constructor|].
      constructor; [exact E|].
      rewrite Forall_forall in Hn |- *. intros y Hy.
      apply string_leb_trans with n; [exact E|now apply Hn].
    + constructor; [exact IH|].
      rewrite Forall_forall in Hn |- *. intros y Hy.
      apply insert_sorted_In in Hy. destruct Hy as [->|Hy]; [|now apply Hn].
      destruct (String.leb_total x n) as [H|H]; [congruence|exact H].
Qed.

Lemma sorted_is_in_order (l : list string) :
  StronglySorted (fun a b => String.leb a b = true) (backup.sorted l).
Proof.
  induction l as [|n l IH]; cbn [backup.sorted]; [constructor|].
  now apply insert_sorted_keeps_order.
Qed.

Lemma sorted_NoDup (l : list string) : NoDup l -> NoDup (backup.sorted l).
Proof.
  assert (Hins : forall x m, NoDup m -> ~ In x m ->
                             NoDup (backup.insert_sorted x m)).
  { intros x m Hm. induction Hm as [|n m Hn Hm IH];
      intro Hx; cbn [backup.insert_sorted].
    - repeat constructor. intros [].
    - destruct (String.leb x n).
      + constructor; [exact Hx|now constructor].
      + constructor.
        * rewrite insert_sorted_In. intros [->|H]; [|contradiction].
          apply Hx. now left.
        * apply IH. intro H. apply Hx. now right. }
  induction 1 as [|n l Hn Hl IH]; cbn [backup.sorted]; [constructor|].
  apply Hins; [exact IH|]. now rewrite sorted_In.
Qed.

Lemma filter_insert_sorted (p : string -> bool) (x : string)
      (l : list string) :
  StronglySorted (fun a b => String.leb a b = true) l ->
  filter p (backup.insert_sorted x l)
  = if p x then backup.insert_sorted x (filter p l) else filter p l.
Proof.
  induction 1 as [|n l Hl IH Hn]; cbn [backup.insert_sorted filter].
  - now destruct (p x).
  - destruct (String.leb x n) eqn:E; cbn [filter].
    + destruct (p x) eqn:Px; [|reflexivity].
      assert (Hfront : forall m,
                 (forall y, In y m -> String.leb x y = true) ->
                 backup.insert_sorted x m = x :: m).
      { intros [|y m] Hm; [reflexivity|]. cbn [backup.insert_sorted].
        now rewrite (Hm y (or_introl eq_refl)). }
      rewrite Hfront; [reflexivity|].
      intros y Hy.
      assert (Hin : In y (n :: l)).
      { destruct (p n); [|now right; apply filter_In in Hy].
        destruct Hy as [<-|Hy]; [now left|].
        right. now apply filter_In in Hy. }
      destruct Hin as [<-|Hin]; [exact E|].
      rewrite Forall_forall in Hn.
      apply string_leb_trans with n; [exact E|now apply Hn].
    + rewrite IH. destruct (p n), (p x); cbn [backup.insert_sorted];
        rewrite ?E; reflexivity.
Qed.

Lemma sorted_filter (p : string -> bool) (l : list string) :
  backup.sorted (filter p l) = filter p (backup.sorted l).
Proof.
  induction l as [|n l IH]; [reflexivity|].
  cbn [filter backup.sorted].
  rewrite filter_insert_sorted by apply sorted_is_in_order.
  destruct (p n); [|exact IH].
  cbn [backup.sorted]. now rewrite IH.
Qed.

Lemma filter_out_firstn (k : nat) (l : list string) :
  NoDup l ->
  filter (fun n => negb (mem_str n (firstn k l))) l = skipn k l.
Proof.
  intro Hl. revert k. induction Hl as [|a l Ha Hl IH]; intro k.
  - now destruct k.
  - destruct k as [|k].
    + cbn [firstn skipn]. apply forallb_filter_id.
      apply forallb_forall. reflexivity.
    + cbn [firstn skipn filter]. unfold mem_str at 1. cbn [existsb].
      rewrite String.eqb_refl. cbn [orb negb].
      rewrite <- (IH k). apply filter_ext_in.
      intros n Hn. unfold mem_str. cbn [existsb].
      destruct (String.eqb n a) eqn:E; [|reflexivity].
      apply String.eqb_eq in E. subst n. contradiction.
Qed.

Lemma in_firstn {A : Type} (k : nat) (l : list A) (x : A) :
  In x (firstn k l) -> In x l.
Proof.
  intro H. rewrite <- (firstn_skipn k l). apply in_or_app. now left.
Qed.

Lemma in_order_across (l1 l2 : list string) :
  StronglySorted (fun a b => String.leb a b = true) (l1 ++ l2) ->
  forall a b, In a l1 -> In b l2 -> String.leb a b = true.
Proof.
  induction l1 as [|x l1 IH]; intros Hs a b Ha Hb; [destruct Ha|].
  inversion Hs as [|? ? Hrest Hx]; subst.
  destruct Ha as [<-|Ha].
  - rewrite Forall_forall in Hx. apply Hx. apply in_or_app. now right.
  - now apply IH.
Qed.

(** Unlinking files that are no directories removes them, one after the
    other, and goes on with the rest. *)
Lemma unlink_each_files (files rest : list string) (dir : backup.directory) :
  Forall (fun n => backup.is_dir dir n = false) files ->
  backup.unlink_each (files ++ rest) dir
  = backup.unlink_each rest
      {| backup.dir_exists := backup.dir_exists dir;
         backup.names :=
           filter (fun n => negb (mem_str n files)) (backup.names dir);
         backup.is_dir := backup.is_dir dir |}.
Proof.
  revert dir. induction files as [|old files IH]; intros dir Hfiles.
  - cbn [app]. f_equal. destruct dir as [e ns d]. cbn.
    f_equal. symmetry. apply forallb_filter_id.
    apply forallb_forall. reflexivity.
  - inversion Hfiles as [|? ? Hold Hrest]; subst.
    cbn [app backup.unlink_each]. unfold backup.unlink at 1. rewrite Hold.
    rewrite IH by exact Hrest.
    cbn [backup.dir_exists backup.names backup.is_dir].
    f_equal. f_equal. rewrite filter_filter_both.
    apply filter_ext. intro n. unfold mem_str. cbn [existsb].
    now destruct (String.eqb n old).
Qed.

Lemma list_backups_NoDup (dir : backup.directory) :
  NoDup (backup.names dir) -> NoDup (backup.list_backups dir).
Proof.
  intro Hnames. unfold backup.list_backups.
  destruct (negb (backup.dir_exists dir)); [constructor|].
  apply sorted_NoDup, NoDup_filter, Hnames.
Qed.

Lemma list_backups_spec (dir : backup.directory) (n : string) :
  In n (backup.list_backups dir)
  <-> backup.dir_exists dir = true /\ In n (backup.names dir)
      /\ backup.is_backup n = true.
Proof.
  unfold backup.list_backups.
  destruct (backup.dir_exists dir); cbn [negb].
  - rewrite sorted_In, filter_In. tauto.
  - split; [intros []|intros [H _]; discriminate H].
Qed.

(** Without its [j] oldest backups a directory lists the other ones. *)
Lemma list_backups_without_oldest (dir : backup.directory) (j : nat) :
  NoDup (backup.names dir) ->
  backup.list_backups
    {| backup.dir_exists := backup.dir_exists dir;
       backup.names :=
         filter (fun n => negb (mem_str n (firstn j (backup.list_backups dir))))
                (backup.names dir);
       backup.is_dir := backup.is_dir dir |}
  = skipn j (backup.list_backups dir).
Proof.
  intro Hnames.
  rewrite <- (filter_out_firstn j _ (list_backups_NoDup dir Hnames)).
  set (doomed := firstn j (backup.list_backups dir)).
  unfold backup.list_backups. cbn [backup.dir_exists backup.names].
  destruct (negb (backup.dir_exists dir)); [reflexivity|].
  rewrite <- sorted_filter. f_equal.
  rewrite !filter_filter_both. apply filter_ext.
  intro n. apply andb_comm.
Qed.

(** X24.  Pruning keeps the seven newest backups and nothing else goes.
    For a directory whose entries have distinct names, and provided none
    of the backups to delete is a directory, [_prune_old_backups]
    succeeds and afterwards
    - the backups are the last [MAX_BACKUPS] of the backups before, in
      the same order, so there are [min 7 n] of them;
    - every entry that does not match ['finance_tracker_*.db'] is still
      there, and no entry has appeared;
    - every entry that went sorts before or with every backup that
      stayed. *)
Theorem prune_keeps_newest_backups (dir : backup.directory) :
  NoDup (backup.names dir) ->
  Forall (fun n => backup.is_dir dir n = false)
         (backup.all_but_last backup.MAX_BACKUPS (backup.list_backups dir)) ->
  exists dir',
    backup._prune_old_backups dir = (backup.Done, dir')
    /\ backup.list_backups dir'
       = skipn (List.length (backup.list_backups dir) - backup.MAX_BACKUPS)
               (backup.list_backups dir)
    /\ List.length (backup.list_backups dir')
       = Nat.min backup.MAX_BACKUPS (List.length (backup.list_backups dir))
    /\ (forall n, backup.is_backup n = false ->
                  (In n (backup.names dir') <-> In n (backup.names dir)))
    /\ (forall n, In n (backup.names dir') -> In n (backup.names dir))
    /\ (forall gone kept,
           In gone (backup.names dir) -> ~ In gone (backup.names dir') ->
           In kept (backup.list_backups dir') ->
           String.leb gone kept = true).
Proof.
  intros Hnames Hfiles.
  set (backups := backup.list_backups dir) in *.
  set (k := (List.length backups - backup.MAX_BACKUPS)%nat).
  assert (Hdoomed : backup.all_but_last backup.MAX_BACKUPS backups
                    = firstn k backups) by reflexivity.
  rewrite Hdoomed in Hfiles.
  set (dir' := {| backup.dir_exists := backup.dir_exists dir;
                  backup.names :=
                    filter (fun n => negb (mem_str n (firstn k backups)))
                           (backup.names dir);
                  backup.is_dir := backup.is_dir dir |}).
  assert (Hrun : backup._prune_old_backups dir = (backup.Done, dir')).
  { unfold backup._prune_old_backups. fold backups. rewrite Hdoomed.
    rewrite <- (app_nil_r (firstn k backups)) at 1.
    now rewrite unlink_each_files. }
  assert (Hsorted : StronglySorted (fun a b => String.leb a b = true) backups).
  { unfold backups, backup.list_backups.
    destruct (negb (backup.dir_exists dir)); [constructor|].
    apply sorted_is_in_order. }
  assert (Hmatch : forall n, In n backups -> backup.is_backup n = true).
  { intros n Hn. now apply list_backups_spec in Hn. }
  assert (Hlist : backup.list_backups dir' = skipn k backups)
    by apply (list_backups_without_oldest dir k Hnames).
  exists dir'. split; [exact Hrun|]. split; [exact Hlist|].
  split; [|split; [|split]].
  - rewrite Hlist, length_skipn. unfold k. lia.
  - intros n Hn. cbn [backup.names dir']. rewrite filter_In.
    split; [tauto|]. intro Hin. split; [exact Hin|].
    apply negb_true_iff. destruct (mem_str n (firstn k backups)) eqn:E;
      [|reflexivity].
    unfold mem_str in E. apply existsb_exists in E.
    destruct E as (m & Hm & E). apply String.eqb_eq in E. subst m.
    apply in_firstn, Hmatch in Hm. congruence.
  - intros n Hn. cbn [backup.names dir'] in Hn.
    now apply filter_In in Hn.
  - intros gone kept Hgone Hleft Hkept.
    rewrite Hlist in Hkept.
    apply (in_order_across (firstn k backups) (skipn k backups));
      [now rewrite firstn_skipn| |exact Hkept].
    cbn [backup.names dir'] in Hleft. rewrite filter_In in Hleft.
    destruct (mem_str gone (firstn k backups)) eqn:E.
    + unfold mem_str in E. apply existsb_exists in E.
      destruct E as (m & Hm & E). apply String.eqb_eq in E. now subst m.
    + exfalso. apply Hleft. split; [exact Hgone|reflexivity].
Qed.

Lemma prune_keeps_newest_backups_witness :
  exists dir',
    backup._prune_old_backups Notions.crowded = (backup.Done, dir')
    /\ backup.list_backups dir'
       = ["finance_tracker_2024-01-03_00-00-00.db";
          "finance_tracker_2024-01-04_00-00-00.db";
          "finance_tracker_2024-01-05_00-00-00.db";
          "finance_tracker_2024-01-06_00-00-00.db";
          "finance_tracker_2024-01-07_00-00-00.db";
          "finance_tracker_2024-01-08_00-00-00.db";
          "finance_tracker_2024-01-09_00-00-00.db"]
    /\ In "notes.txt" (backup.names dir')
    /\ In "finance_tracker.db" (backup.names dir').
Proof.
  assert (Hnames : NoDup (backup.names Notions.crowded)).
  { cbn [backup.names Notions.crowded].
    repeat (constructor; [cbn [In]; intuition discriminate|]).
    constructor. }
  assert (Hfiles : Forall (fun n => backup.is_dir Notions.crowded n = false)
                          (backup.all_but_last backup.MAX_BACKUPS
                             (backup.list_backups Notions.crowded))).
  { apply Forall_forall. reflexivity. }
  destruct (prune_keeps_newest_backups Notions.crowded Hnames Hfiles)
    as (dir' & Hrun & Hlist & _ & Hother & _).
  exists dir'. split; [exact Hrun|]. split; [rewrite Hlist; reflexivity|].
  split; apply Hother; try reflexivity; cbn; tauto.
Defined.

(** X25.  A directory among the backups to delete stops the pruning: the
    backups before it in the order are deleted, the call fails at the
    directory, and it and every backup after it stay, so that more than
    [MAX_BACKUPS] backups remain. *)
Theorem prune_stops_at_a_directory
        (dir : backup.directory) (files : list string) (folder : string)
        (rest : list string) :
  NoDup (backup.names dir) ->
  backup.all_but_last backup.MAX_BACKUPS (backup.list_backups dir)
  = (files ++ folder :: rest)%list ->
  Forall (fun n => backup.is_dir dir n = false) files ->
  backup.is_dir dir folder = true ->
  exists dir',
    backup._prune_old_backups dir = (backup.IsADirectoryError folder, dir')
    /\ backup.list_backups dir'
       = skipn (List.length files) (backup.list_backups dir)
    /\ (backup.MAX_BACKUPS < List.length (backup.list_backups dir'))%nat
    /\ In folder (backup.list_backups dir')
    /\ forall n, In n (backup.names dir) -> ~ In n files ->
                 In n (backup.names dir').
Proof.
  intros Hnames Hdoomed Hfiles Hfolder.
  set (backups := backup.list_backups dir) in *.
  set (k := (List.length backups - backup.MAX_BACKUPS)%nat).
  assert (Hk : firstn k backups = (files ++ folder :: rest)%list)
    by exact Hdoomed.
  assert (Hlen : (List.length files < k
                  /\ List.length files < List.length backups)%nat).
  { pose proof (f_equal (@List.length string) Hk) as H.
    rewrite length_firstn, length_app in H. cbn [List.length] in H. lia. }
  assert (Hfirst : files = firstn (List.length files) backups).
  { pose proof (f_equal (firstn (List.length files)) Hk) as H.
    rewrite firstn_firstn, firstn_app, firstn_all, Nat.sub_diag in H.
    cbn [firstn] in H. rewrite app_nil_r in H.
    replace (Nat.min (List.length files) k) with (List.length files) in H
      by lia.
    now symmetry. }
  set (dir' := {| backup.dir_exists := backup.dir_exists dir;
                  backup.names :=
                    filter (fun n => negb (mem_str n files))
                           (backup.names dir);
                  backup.is_dir := backup.is_dir dir |}).
  assert (Hlist : backup.list_backups dir'
                  = skipn (List.length files) backups).
  { pose proof (list_backups_without_oldest dir (List.length files) Hnames)
      as H.
    fold backups in H. rewrite <- Hfirst in H. exact H. }
  exists dir'. split; [|split; [exact Hlist|split; [|split]]].
  - unfold backup._prune_old_backups. fold backups. rewrite Hdoomed.
    rewrite unlink_each_files by exact Hfiles.
    cbn [backup.unlink_each]. unfold backup.unlink.
    cbn [backup.is_dir]. now rewrite Hfolder.
  - rewrite Hlist, length_skipn. unfold k in Hlen.
    unfold backup.MAX_BACKUPS in *. lia.
  - rewrite Hlist.
    assert (Hsplit : skipn (List.length files) (firstn k backups)
                     = (folder :: rest)%list).
    { rewrite Hk, skipn_app, skipn_all, Nat.sub_diag. reflexivity. }
    assert (Hin : In folder (skipn (List.length files) (firstn k backups)))
      by (rewrite Hsplit; now left).
    rewrite <- (firstn_skipn k backups) at 1.
    rewrite skipn_app. apply in_or_app. now left.
  - intros n Hn Hnot. cbn [backup.names dir']. apply filter_In.
    split; [exact Hn|].
    apply negb_true_iff. destruct (mem_str n files) eqn:E; [|reflexivity].
    unfold mem_str in E. apply existsb_exists in E.
    destruct E as (m & Hm & E). apply String.eqb_eq in E. subst m.
    contradiction.
Qed.

Lemma prune_stops_at_a_directory_witness :
  exists dir',
    backup._prune_old_backups Notions.blocked
    = (backup.IsADirectoryError "finance_tracker_2024-01-02_00-00-00.db",
       dir')
    /\ List.length (backup.list_backups dir') = 8%nat.
Proof.
  assert (Hnames : NoDup (backup.names Notions.blocked)).
  { cbn [backup.names Notions.blocked Notions.crowded].
    repeat (constructor; [cbn [In]; intuition discriminate|]).
    constructor. }
  destruct (prune_stops_at_a_directory
              Notions.blocked
              ["finance_tracker_2024-01-01_00-00-00.db"]
              "finance_tracker_2024-01-02_00-00-00.db" []
              Hnames eq_refl)
    as (dir' & Hrun & Hlist & _).
  - repeat constructor.
  - reflexivity.
  - exists dir'. split; [exact Hrun|]. rewrite Hlist. reflexivity.
Defined.

(** *** The category a transaction creates *)

Lemma normalised_char_is_plain (c : ascii) :
  Notions.plain_char
    (if Ascii.eqb (lower_char c) " "%char then "_"%char else lower_char c)
  = true.
Proof.
  destruct c as [[] [] [] [] [] [] [] []]; vm_compute; reflexivity.
Qed.

Lemma normalised_name_is_plain (s : string) :
  Notions.all_chars Notions.plain_char (replace_space (lower s)) = true.
Proof.
  induction s as [|c s IH]; [reflexivity|].
  cbn [lower replace_space Notions.all_chars].
  now rewrite normalised_char_is_plain, IH.
Qed.

Lemma first_filter_none {A : Type} (f : A -> bool) (l : list A) :
  sql.first (filter f l) = None -> forall x, In x l -> f x = false.
Proof.
  induction l as [|a l IH]; intros H x Hx; [destruct Hx|].
  cbn [filter] in H. destruct (f a) eqn:E; [discriminate H|].
  destruct Hx as [<-|Hx]; [exact E|now apply IH].
Qed.

Lemma resolve_category_categories
      (db : Store) (user : Z) (form : TransactionForm.t)
      (category_name : string) (db1 : Store) :
  resolve_category db user form = Some (category_name, db1) ->
  categories db1 = categories db
  \/ (categories db1
      = (categories db
         ++ [{| Category.user_id := Some user;
                Category.name := category_name |}])%list
      /\ category_name <> ""
      /\ Notions.all_chars Notions.plain_char category_name = true
      /\ forall c, In c (Category.get_user_categories (categories db) user) ->
                   Category.name c <> category_name).
Proof.
  unfold resolve_category.
  destruct (String.eqb (TransactionForm.category form) "__new__");
    [|intros [= _ <-]; now left].
  set (new_cat_name :=
         replace_space (lower (strip (TransactionForm.new_category form)))).
  destruct (String.eqb new_cat_name "") eqn:Hempty; [discriminate|].
  destruct (sql.first _) eqn:Hexisting; intros [= <- <-]; [now left|].
  right. split; [reflexivity|]. split; [now apply String.eqb_neq|].
  split; [apply normalised_name_is_plain|].
  intros c Hc Hname.
  pose proof (first_filter_none _ _ Hexisting c) as Hnone.
  cbv beta in Hnone.
  unfold Category.get_user_categories in Hc.
  apply in_app_or in Hc.
  destruct Hc as [Hc|Hc]; apply filter_In in Hc; destruct Hc as [Hin Hc];
    specialize (Hnone Hin); rewrite Hc, Hname, String.eqb_refl in Hnone;
    [rewrite orb_true_r in Hnone|]; discriminate Hnone.
Qed.

(** X26.  The only category [add_transaction] ever creates is the new
    one the form names.  Whatever the request, the categories afterwards
    are the ones before, or the ones before followed by a single new
    category; that category belongs to the user, its name is not empty
    and has neither a space nor a capital letter, and no category the
    user could already choose (a default one or one of their own) had
    that name.  So the rows stay distinct: the unique constraint on
    [(user_id, name)] is never violated. *)
Theorem add_transaction_new_category
        (db : Store) (user : Z) (req : request TransactionForm.t) :
  let db' := snd (add_transaction db user req) in
  (categories db' = categories db
   \/ exists c,
       categories db' = (categories db ++ [c])%list
       /\ Category.user_id c = Some user
       /\ Category.name c <> ""
       /\ Notions.all_chars Notions.plain_char (Category.name c) = true
       /\ forall c0,
           In c0 (Category.get_user_categories (categories db) user) ->
           Category.name c0 <> Category.name c)
  /\ (NoDup (categories db) -> NoDup (categories db')).
Proof.
  intro db'.
  assert (Hcases :
            categories db' = categories db
            \/ exists c,
                categories db' = (categories db ++ [c])%list
                /\ Category.user_id c = Some user
                /\ Category.name c <> ""
                /\ Notions.all_chars Notions.plain_char (Category.name c)
                   = true
                /\ forall c0,
                    In c0 (Category.get_user_categories (categories db) user) ->
                    Category.name c0 <> Category.name c).
  { subst db'. unfold add_transaction.
    destruct (accounts_of_user db user); [now left|].
    destruct req as [| |form]; try (now left).
    cbn [validate_on_submit].
    destruct (TransactionForm.validate _ _ form); [|now left].
    destruct (account_of_user db _ user); [|now left].
    destruct (resolve_category db user form) as [[category_name db1]|] eqn:Hcat;
      [|now left].
    cbn [snd commit_transactions categories].
    destruct (resolve_category_categories _ _ _ _ _ Hcat)
      as [Hsame|(Hnew & Hname & Hplain & Hfresh)]; [now left|].
    right. eexists. split; [exact Hnew|]. repeat split; assumption. }
  split; [exact Hcases|].
  intro Hdistinct.
  destruct Hcases as [->|(c & -> & Huser & _ & _ & Hfresh)]; [exact Hdistinct|].
  apply NoDup_app.
  - exact Hdistinct.
  - constructor; [intros []|constructor].
  - intros c0 Hc0 [Heq|[]]. subst c0.
    apply (Hfresh c); [|reflexivity].
    unfold Category.get_user_categories. apply in_or_app. right.
    apply filter_In. split; [exact Hc0|].
    unfold Category.owned_by. rewrite Huser. apply Z.eqb_refl.
Qed.

Lemma add_transaction_new_category_witness :
  categories
    (snd (add_transaction Samples.ledger 7
            (POST (TransactionForm.mk 1 "expense" 25 None "Kibble"
                     "__new__" "  Pet Food " (Samples.jan 22)))))
  = (categories Samples.ledger ++ [Category.mk (Some 7) "pet_food"])%list
  /\ NoDup (categories
              (snd (add_transaction Samples.ledger 7
                      (POST (TransactionForm.mk 1 "expense" 25 None "Kibble"
                               "__new__" "  Pet Food " (Samples.jan 22)))))).
Proof.
  split; [reflexivity|].
  apply (proj2 (add_transaction_new_category Samples.ledger 7 _)).
  cbn [categories Samples.ledger].
  repeat (constructor; [cbn [In]; intuition discriminate|]).
  constructor.
Defined.

(** *** The budget page and the monthly report *)

Lemma track_follows_tally (d : list (string * Q)) (i x p : Q)
      (tx : Transaction.t) :
  budget_view.track (d, i) p tx
  = (fst (fst (tally (d, i, x) p tx)), snd (fst (tally (d, i, x) p tx))).
Proof.
  unfold budget_view.track, tally.
  destruct (Qltb 0 p && _); [reflexivity|].
  destruct (Qltb p 0 && _); reflexivity.
Qed.

Lemma budget_loop_follows_report (currency_map : list (Z * string))
      (txs : list Transaction.t) (d : list (string * Q)) (i x : Q)
      (w : World) :
  for_each (fun acc tx => bind (personal_in_usd currency_map tx)
                               (fun personal =>
                                  ret (budget_view.track acc personal tx)))
           txs (d, i) w
  = match for_each (fun acc tx => bind (personal_in_usd currency_map tx)
                                       (fun personal =>
                                          ret (tally acc personal tx)))
                   txs (d, i, x) w with
    | (Ok (d', i', _), w') => (Ok (d', i'), w')
    | (Raise e, w') => (Raise e, w')
    end.
Proof.
  revert d i x w. induction txs as [|tx txs IH]; intros d i x w.
  - reflexivity.
  - cbn [for_each]. rewrite !bind_run.
    destruct (personal_in_usd currency_map tx w) as [[p|e] w1];
      [|reflexivity].
    unfold ret at 1 3. cbv beta iota.
    rewrite (track_follows_tally d i x p tx).
    destruct (tally (d, i, x) p tx) as [[d1 i1] x1]. cbn [fst snd].
    apply IH.
Qed.

Lemma guarded_contributions_run
      (db : Store) (user : Z) (today : date) (account_type : string)
      (w : World) :
  budget_view.guarded_contributions db user today account_type w
  = contributions db user (year today) (month today) account_type w.
Proof.
  unfold budget_view.guarded_contributions, contributions.
  destruct (filter _ (accounts_of_user db user)); [|reflexivity].
  assert (Hnone : forall l,
             filter (fun tx =>
                       mem_Z (Transaction.account_id tx) (map Account.id [])
                       && Qltb 0 (Transaction.amount tx)
                       && String.eqb (Transaction.category tx) "transfer"
                       && in_month (year today) (month today) tx) l = []).
  { induction l as [|tx l IH]; [reflexivity|]. exact IH. }
  now rewrite Hnone.
Qed.

(** X27.  The budget page and the monthly report of the current month
    show the same actual figures.  Started in the same state of the
    converter, whatever the rate does, when both are produced the budget's
    actual income is the report's total income, its expenses by category
    are the report's, and the savings and investment contributions are
    the same numbers. *)
Theorem budget_actuals_match_report
        (db : Store) (user : Z) (today : date) (w : World)
        (rep : report) (figures : budget_view.actuals) (w1 w2 : World) :
  monthly_report db user (year today) (month today) w = (Ok rep, w1) ->
  budget_view.budget_actuals db user today w = (Ok figures, w2) ->
  budget_view.actual_income figures = total_income rep
  /\ budget_view.actual_expenses figures = expenses rep
  /\ budget_view.savings_contributions figures = savings_contributions rep
  /\ budget_view.investment_contributions figures
     = investment_contributions rep.
Proof.
  unfold monthly_report, budget_view.budget_actuals.
  rewrite !bind_run.
  rewrite (budget_loop_follows_report _ _ [] 0%Q 0%Q w).
  match goal with
  | |- context [for_each ?body ?l ?acc w] =>
      destruct (for_each body l acc w) as [[[[d i] x]|e] wa]
  end; [|discriminate].
  rewrite !bind_run, !guarded_contributions_run.
  destruct (contributions db user _ _ "savings" wa) as [[s|e] wb];
    [|discriminate].
  rewrite !bind_run, !guarded_contributions_run.
  destruct (contributions db user _ _ "investment" wb) as [[v|e] wc];
    [|discriminate].
  rewrite !bind_run. unfold lift.
  destruct (new_date _ _ 1) as [first_day|e]; [|discriminate].
  match goal with
  | |- context [for_each ?body ?l ?acc wc] =>
      destruct (for_each body l acc wc) as [[c|e] wd]
  end; [|discriminate].
  unfold ret. intros [= <- _] [= <- _].
  repeat split.
Qed.

Lemma budget_actuals_match_report_witness :
  exists rep w1 figures w2,
    monthly_report Samples.ledger 7 2024 1 Samples.steady_world = (Ok rep, w1)
    /\ budget_view.budget_actuals Samples.ledger 7 (Samples.jan 31)
                                  Samples.steady_world
       = (Ok figures, w2)
    /\ budget_view.actual_expenses figures = expenses rep.
Proof.
  do 4 eexists. split; [reflexivity|]. split; [reflexivity|].
  eapply (proj1 (proj2 (budget_actuals_match_report
                          Samples.ledger 7 (Samples.jan 31)
                          Samples.steady_world _ _ _ _ eq_refl eq_refl))).
Defined.

(** *** The list of fixed deposits *)

Lemma date_le_spec (a b : date) :
  date_le a b = true
  <-> year a < year b
      \/ (year a = year b
          /\ (month a < month b \/ (month a = month b /\ day a <= day b))).
Proof.
  unfold date_le, date_compare.
  destruct (Z.compare_spec (year a) (year b));
    destruct (Z.compare_spec (month a) (month b));
    destruct (Z.compare_spec (day a) (day b));
    split; intro; try reflexivity; try discriminate; lia.
Qed.

Lemma date_le_trans (a b c : date) :
  date_le a b = true -> date_le b c = true -> date_le a c = true.
Proof.
  rewrite !date_le_spec. lia.
Qed.

Lemma date_le_total (a b : date) :
  date_le a b = true \/ date_le b a = true.
Proof.
  rewrite !date_le_spec. lia.
Qed.

Lemma insert_by_maturity_In (x y : FixedDeposit.t) (l : list FixedDeposit.t) :
  In y (deposits_view.insert_by_maturity x l) <-> y = x \/ In y l.
Proof.
  induction l as [|r l IH]; cbn [deposits_view.insert_by_maturity In].
  - intuition.
  - destruct (date_le _ _); cbn [In]; [intuition|].
    rewrite IH. intuition.
Qed.

Lemma order_by_maturity_In (y : FixedDeposit.t) (l : list FixedDeposit.t) :
  In y (deposits_view.order_by_maturity l) <-> In y l.
Proof.
  induction l as [|r l IH]; cbn [deposits_view.order_by_maturity In];
    [reflexivity|].
  rewrite insert_by_maturity_In, IH. intuition.
Qed.

Lemma order_by_maturity_sorted (l : list FixedDeposit.t) :
  StronglySorted
    (fun x y => date_le (FixedDeposit.maturity_date x)
                        (FixedDeposit.maturity_date y) = true)
    (deposits_view.order_by_maturity l).
Proof.
  induction l as [|fd l IH]; cbn [deposits_view.order_by_maturity];
    [constructor|].
  induction IH as [|r rows Hrows IHrows Hr];
    cbn [deposits_view.insert_by_maturity].
  - repeat constructor.
  - destruct (date_le (FixedDeposit.maturity_date fd)
                      (FixedDeposit.maturity_date r)) eqn:E.
    + constructor; [now constructor|].
      constructor; [exact E|].
      rewrite Forall_forall in Hr |- *. intros y Hy.
      apply date_le_trans with (FixedDeposit.maturity_date r);
        [exact E|now apply Hr].
    + constructor; [exact IHrows|].
      rewrite Forall_forall in Hr |- *. intros y Hy.
      apply insert_by_maturity_In in Hy.
      destruct Hy as [->|Hy]; [|now apply Hr].
      destruct (date_le_total (FixedDeposit.maturity_date fd)
                              (FixedDeposit.maturity_date r)) as [H|H];
        [congruence|exact H].
Qed.

Lemma order_by_maturity_desc_In (y : FixedDeposit.t)
      (l : list FixedDeposit.t) :
  In y (deposits_view.order_by_maturity_desc l) <-> In y l.
Proof.
  assert (Hins : forall x rows,
             In y (deposits_view.insert_by_maturity_desc x rows)
             <-> y = x \/ In y rows).
  { intros x rows. induction rows as [|r rows IH];
      cbn [deposits_view.insert_by_maturity_desc In].
    - intuition.
    - destruct (date_le _ _); cbn [In]; [intuition|].
      rewrite IH. intuition. }
  induction l as [|r l IH]; cbn [deposits_view.order_by_maturity_desc In];
    [reflexivity|].
  rewrite Hins, IH. intuition.
Qed.

Lemma order_by_maturity_desc_sorted (l : list FixedDeposit.t) :
  StronglySorted
    (fun x y => date_le (FixedDeposit.maturity_date y)
                        (FixedDeposit.maturity_date x) = true)
    (deposits_view.order_by_maturity_desc l).
Proof.
  assert (Hins : forall y x rows,
             In y (deposits_view.insert_by_maturity_desc x rows)
             <-> y = x \/ In y rows).
  { intros y x rows. induction rows as [|r rows IH];
      cbn [deposits_view.insert_by_maturity_desc In].
    - intuition.
    - destruct (date_le _ _); cbn [In]; [intuition|].
      rewrite IH. intuition. }
  induction l as [|fd l IH]; cbn [deposits_view.order_by_maturity_desc];
    [constructor|].
  induction IH as [|r rows Hrows IHrows Hr];
    cbn [deposits_view.insert_by_maturity_desc].
  - repeat constructor.
  - destruct (date_le (FixedDeposit.maturity_date r)
                      (FixedDeposit.maturity_date fd)) eqn:E.
    + constructor; [now constructor|].
      constructor; [exact E|].
      rewrite Forall_forall in Hr |- *. intros y Hy.
      apply date_le_trans with (FixedDeposit.maturity_date r);
        [now apply Hr|exact E].
    + constructor; [exact IHrows|].
      rewrite Forall_forall in Hr |- *. intros y Hy.
      apply Hins in Hy.
      destruct Hy as [->|Hy]; [|now apply Hr].
      destruct (date_le_total (FixedDeposit.maturity_date r)
                              (FixedDeposit.maturity_date fd)) as [H|H];
        [congruence|exact H].
Qed.

Lemma firstn_sorted {A : Type} (R : A -> A -> Prop) (n : nat) (l : list A) :
  StronglySorted R l -> StronglySorted R (firstn n l).
Proof.
  revert n. induction l as [|x l IH]; intros n Hl.
  - destruct n; constructor.
  - destruct n; [constructor|]. cbn [firstn].
    inversion Hl as [|? ? Hrest Hx]; subst.
    constructor; [now apply IH|].
    rewrite Forall_forall in Hx |- *. intros y Hy.
    apply Hx. now apply in_firstn in Hy.
Qed.

Lemma mem_Z_ids (ids : list Z) (l : list Account.t) (k : Z) :
  ids = map Account.id l ->
  mem_Z k ids = true <-> exists a, In a l /\ Account.id a = k.
Proof.
  intros ->. unfold mem_Z. rewrite existsb_exists. split.
  - intros (i & Hi & E). apply in_map_iff in Hi. destruct Hi as (a & <- & Ha).
    apply Z.eqb_eq in E. exists a. split; [exact Ha|now symmetry].
  - intros (a & Ha & E). exists (Account.id a). split; [now apply in_map|].
    apply Z.eqb_eq. now symmetry.
Qed.

(** X28.  The rows of the page of fixed deposits.  The active deposits
    it selects are exactly the deposits of the store that are not matured
    and sit on an INR account of the user, in ascending order of maturity
    date.  The matured deposits it selects are matured deposits on INR
    accounts of the user, in descending order of maturity date, at most
    10 of them; one that is left out is left out because 10 are
    selected. *)
Theorem fixed_deposits_list_rows (db : Store) (user : Z) :
  (forall fd,
      In fd (deposits_view.active_fds db user)
      <-> In fd (fixed_deposits db)
          /\ FixedDeposit.is_matured fd = false
          /\ exists a, In a (inr_accounts_of_user db user)
                       /\ Account.id a = FixedDeposit.account_id fd)
  /\ StronglySorted
       (fun x y => date_le (FixedDeposit.maturity_date x)
                           (FixedDeposit.maturity_date y) = true)
       (deposits_view.active_fds db user)
  /\ (forall fd,
         In fd (deposits_view.matured_fds db user) ->
         In fd (fixed_deposits db)
         /\ FixedDeposit.is_matured fd = true
         /\ exists a, In a (inr_accounts_of_user db user)
                      /\ Account.id a = FixedDeposit.account_id fd)
  /\ StronglySorted
       (fun x y => date_le (FixedDeposit.maturity_date y)
                           (FixedDeposit.maturity_date x) = true)
       (deposits_view.matured_fds db user)
  /\ (List.length (deposits_view.matured_fds db user) <= 10)%nat
  /\ (forall fd,
         In fd (fixed_deposits db) ->
         FixedDeposit.is_matured fd = true ->
         (exists a, In a (inr_accounts_of_user db user)
                    /\ Account.id a = FixedDeposit.account_id fd) ->
         In fd (deposits_view.matured_fds db user)
         \/ List.length (deposits_view.matured_fds db user) = 10%nat).
Proof.
  set (mine := inr_accounts_of_user db user).
  set (ids := map Account.id mine).
  assert (Hids : forall k, mem_Z k ids = true
                           <-> exists a, In a mine /\ Account.id a = k)
    by (intro k; now apply mem_Z_ids).
  set (active := fun fd => mem_Z (FixedDeposit.account_id fd) ids
                           && negb (FixedDeposit.is_matured fd)).
  set (matured := fun fd => mem_Z (FixedDeposit.account_id fd) ids
                            && FixedDeposit.is_matured fd).
  assert (Hnone : forall p : FixedDeposit.t -> bool,
             ids = [] ->
             filter (fun fd => mem_Z (FixedDeposit.account_id fd) ids
                               && p fd) (fixed_deposits db) = []).
  { intros p ->. induction (fixed_deposits db) as [|fd l IH];
      [reflexivity|exact IH]. }
  assert (Hactive : deposits_view.active_fds db user
                    = deposits_view.order_by_maturity
                        (filter active (fixed_deposits db))).
  { unfold deposits_view.active_fds. fold mine. fold ids.
    destruct ids eqn:E; [|reflexivity].
    unfold active. now rewrite (Hnone _ eq_refl). }
  assert (Hmatured : deposits_view.matured_fds db user
                     = firstn 10
                         (deposits_view.order_by_maturity_desc
                            (filter matured (fixed_deposits db)))).
  { unfold deposits_view.matured_fds. fold mine. fold ids.
    destruct ids eqn:E; [|reflexivity].
    unfold matured. now rewrite (Hnone _ eq_refl). }
  split; [|split; [|split; [|split; [|split]]]].
  - intro fd. rewrite Hactive, order_by_maturity_In, filter_In.
    unfold active. rewrite andb_true_iff, negb_true_iff, Hids. tauto.
  - rewrite Hactive. apply order_by_maturity_sorted.
  - intros fd Hin. rewrite Hmatured in Hin. apply in_firstn in Hin.
    apply order_by_maturity_desc_In, filter_In in Hin.
    unfold matured in Hin. rewrite andb_true_iff, Hids in Hin. tauto.
  - rewrite Hmatured. apply firstn_sorted, order_by_maturity_desc_sorted.
  - rewrite Hmatured, length_firstn. lia.
  - intros fd Hin Hm Ha. rewrite Hmatured.
    set (rows := deposits_view.order_by_maturity_desc
                   (filter matured (fixed_deposits db))).
    destruct (Nat.le_gt_cases (List.length rows) 10) as [Hle|Hgt].
    + left. rewrite firstn_all2 by exact Hle.
      apply order_by_maturity_desc_In, filter_In. split; [exact Hin|].
      unfold matured. rewrite andb_true_iff, Hids. tauto.
    + right. rewrite length_firstn. lia.
Qed.

Lemma fixed_deposits_list_rows_witness :
  (List.length (deposits_view.matured_fds Samples.ledger 7) <= 10)%nat.
Proof.
  apply (proj1 (proj2 (proj2 (proj2 (proj2 (fixed_deposits_list_rows
                                              Samples.ledger 7)))))).
Defined.

(** *** The order of the accounts *)

Lemma NoDup_map_same {A B : Type} (f : A -> B) (l : list A) (a b : A) :
  NoDup (map f l) -> In a l -> In b l -> f a = f b -> a = b.
Proof.
  induction l as [|x l IH]; intros Hl Ha Hb Hf; [destruct Ha|].
  cbn [map] in Hl. inversion Hl as [|? ? Hx Hrest]; subst.
  destruct Ha as [<-|Ha], Hb as [<-|Hb].
  - reflexivity.
  - exfalso. apply Hx. rewrite Hf. now apply in_map.
  - exfalso. apply Hx. rewrite <- Hf. now apply in_map.
  - now apply IH.
Qed.

Lemma reorder_step
      (db : Store) (user x index : Z) :
  NoDup (map Account.id (accounts db)) ->
  let db1 :=
    match account_of_user db x user with
    | Some account => reorder.set_display_order (Account.id account) index db
    | None => db
    end in
  categories db1 = categories db
  /\ transactions db1 = transactions db
  /\ fixed_deposits db1 = fixed_deposits db
  /\ map Account.id (accounts db1) = map Account.id (accounts db)
  /\ forall k a,
      nth_error (accounts db) k = Some a ->
      exists a1,
        nth_error (accounts db1) k = Some a1
        /\ a1 = Account.mk (Account.id a) (Account.user_id a)
                           (Account.name a) (Account.account_type a)
                           (Account.currency a) (Account.initial_balance a)
                           (Account.display_order a1)
        /\ (Account.user_id a = user -> Account.id a = x ->
            Account.display_order a1 = index)
        /\ (Account.user_id a <> user \/ Account.id a <> x ->
            Account.display_order a1 = Account.display_order a).
Proof.
  intros Hids db1. subst db1.
  destruct (account_of_user db x user) as [account|] eqn:Hfound.
  - destruct (account_of_user_spec _ _ _ _ Hfound) as (Hin & Hid & Huser).
    cbn [reorder.set_display_order accounts categories transactions
         fixed_deposits].
    split; [reflexivity|]. split; [reflexivity|]. split; [reflexivity|].
    split.
    + rewrite map_map. apply map_ext. intro a.
      now destruct (Account.id a =? Account.id account).
    + intros k a Hk. rewrite nth_error_map, Hk. cbn [option_map].
      eexists. split; [reflexivity|].
      destruct (Account.id a =? Account.id account) eqn:E.
      * apply Z.eqb_eq in E.
        assert (Hsame : a = account).
        { apply (NoDup_map_same Account.id (accounts db)); try assumption.
          now apply nth_error_In with k. }
        subst a. cbn. split; [reflexivity|]. split; [reflexivity|].
        intros [H|H]; [contradiction|]. congruence.
      * destruct a; cbn. split; [reflexivity|]. split; [|reflexivity].
        intros _ H. apply Z.eqb_neq in E. cbn in E, H. congruence.
  - split; [reflexivity|]. split; [reflexivity|]. split; [reflexivity|].
    split; [reflexivity|].
    intros k a Hk. exists a. split; [exact Hk|].
    split; [now destruct a|]. split; [|reflexivity].
    intros Huser Hid. exfalso.
    unfold account_of_user in Hfound.
    pose proof (first_filter_none _ _ Hfound a (nth_error_In _ _ Hk)) as H.
    cbv beta in H. rewrite Huser, Hid, !Z.eqb_refl in H. discriminate H.
Qed.


Lemma sql_integer_spec (n : Z) :
  (- 2 ^ 63 <= n < 2 ^ 63 -> sql.integer n = Ok n)
  /\ (~ (- 2 ^ 63 <= n < 2 ^ 63) -> sql.integer n = Raise OverflowError).
Proof.
  unfold sql.integer.
  destruct (- 2 ^ 63 <=? n) eqn:E1; destruct (n <? 2 ^ 63) eqn:E2;
    cbn [andb]; split; intro H; try reflexivity; exfalso;
    try apply Z.leb_le in E1; try apply Z.ltb_lt in E2;
    try apply Z.leb_gt in E1; try apply Z.ltb_ge in E2; lia.
Qed.

Lemma reorder_from_positions (user : Z) (order : list Z) :
  forall (index : Z) (db : Store),
    NoDup (map Account.id (accounts db)) -> NoDup order ->
    (forall x, In x order -> - 2 ^ 63 <= x < 2 ^ 63) ->
    exists db',
      reorder.reorder_from user index order db = Ok db'
      /\ categories db' = categories db
      /\ transactions db' = transactions db
      /\ fixed_deposits db' = fixed_deposits db
      /\ forall k a,
          nth_error (accounts db) k = Some a ->
          exists a',
            nth_error (accounts db') k = Some a'
            /\ a' = Account.mk (Account.id a) (Account.user_id a)
                               (Account.name a) (Account.account_type a)
                               (Account.currency a) (Account.initial_balance a)
                               (Account.display_order a')
            /\ (Account.user_id a <> user \/ ~ In (Account.id a) order ->
                Account.display_order a' = Account.display_order a)
            /\ (Account.user_id a = user ->
                forall i, nth_error order i = Some (Account.id a) ->
                          Account.display_order a' = index + Z.of_nat i).
Proof.
  induction order as [|x rest IH]; intros index db Hids Horder Hrange.
  - exists db. cbn [reorder.reorder_from].
    split; [reflexivity|].
    split; [reflexivity|]. split; [reflexivity|]. split; [reflexivity|].
    intros k a Hk. exists a. split; [exact Hk|].
    split; [now destruct a|]. split; [reflexivity|].
    intros _ [|i] H; discriminate H.
  - inversion Horder as [|? ? Hx Hrest]; subst.
    cbn [reorder.reorder_from].
    rewrite (proj1 (sql_integer_spec x) (Hrange x (or_introl eq_refl))).
    destruct (reorder_step db user x index Hids)
      as (Hc1 & Ht1 & Hf1 & Hids1 & Hstep).
    set (db1 := match account_of_user db x user with
                | Some account =>
                    reorder.set_display_order (Account.id account) index db
                | None => db
                end) in *.
    assert (Hids' : NoDup (map Account.id (accounts db1)))
      by now rewrite Hids1.
    destruct (IH (index + 1) db1 Hids' Hrest
                 (fun y Hy => Hrange y (or_intror Hy)))
      as (db' & Hrun & Hc & Ht & Hf & Hall).
    exists db'. split; [exact Hrun|].
    split; [now rewrite Hc|]. split; [now rewrite Ht|].
    split; [now rewrite Hf|].
    intros k a Hk.
    destruct (Hstep k a Hk) as (a1 & Hk1 & Ha1 & Hset & Hkept).
    destruct (Hall k a1 Hk1) as (a' & Hk' & Ha' & Hsame & Hpos).
    assert (Hid1 : Account.id a1 = Account.id a) by (rewrite Ha1; reflexivity).
    assert (Huser1 : Account.user_id a1 = Account.user_id a)
      by (rewrite Ha1; reflexivity).
    exists a'. split; [exact Hk'|]. split; [|split].
    + rewrite Ha'. rewrite Ha1. reflexivity.
    + intros H. rewrite Hsame, Hkept.
      * reflexivity.
      * destruct H as [H|H]; [now left|].
        right. intro E. apply H. now left.
      * rewrite Hid1, Huser1.
        destruct H as [H|H]; [now left|].
        right. intro E. apply H. now right.
    + intros Huser [|i] Hi.
      * cbn [nth_error] in Hi. injection Hi as Hi.
        rewrite Hsame.
        -- rewrite (Hset Huser (eq_sym Hi)). cbn. lia.
        -- right. rewrite Hid1, <- Hi. exact Hx.
      * cbn [nth_error] in Hi.
        rewrite (Hpos (eq_trans Huser1 Huser) i); [lia|].
        now rewrite Hid1.
Qed.

(** A key that is no 64-bit integer stops the loop, wherever it stands
    in the order. *)
Lemma reorder_from_overflow (user : Z) (order : list Z) :
  forall (index : Z) (db : Store),
    (exists x, In x order /\ ~ (- 2 ^ 63 <= x < 2 ^ 63)) ->
    reorder.reorder_from user index order db = Raise OverflowError.
Proof.
  induction order as [|y rest IH]; intros index db (x & Hin & Hx).
  - destruct Hin.
  - cbn [reorder.reorder_from].
    destruct (sql_integer_spec y) as [Hsmall Hlarge].
    destruct (Z_le_dec (- 2 ^ 63) y) as [H1|H1];
      [destruct (Z_lt_dec y (2 ^ 63)) as [H2|H2]|].
    + rewrite Hsmall by lia. apply IH.
      destruct Hin as [->|Hin]; [exfalso; apply Hx; lia|].
      now exists x.
    + rewrite Hlarge by lia. reflexivity.
    + rewrite Hlarge by lia. reflexivity.
Qed.

(** X29.  Reordering the accounts.  A body that is not JSON is answered
    with 415 and one without an order with 400, and nothing changes.  For
    an order that is a list of integers: when one of them is no 64-bit
    integer the lookup raises, the answer is 500 and nothing is
    committed.  Otherwise, for accounts with distinct keys and an order
    without repetition, the answer is 200 and display orders are all
    that is written: the other tables and every other field of every
    account stay; an account of the user named in the order gets its
    position in the order as display order; an account that is not named,
    or belongs to another user even though it is named, keeps its display
    order. *)
Theorem reorder_accounts_sets_positions
        (db : Store) (user : Z) (order : list Z) :
  NoDup (map Account.id (accounts db)) -> NoDup order ->
  reorder.reorder_accounts db user reorder.NotJson = (415, db)
  /\ reorder.reorder_accounts db user reorder.NoOrder = (400, db)
  /\ ((exists x, In x order /\ ~ (- 2 ^ 63 <= x < 2 ^ 63)) ->
      reorder.reorder_accounts db user (reorder.Order order) = (500, db))
  /\ ((forall x, In x order -> - 2 ^ 63 <= x < 2 ^ 63) ->
      exists db',
        reorder.reorder_accounts db user (reorder.Order order) = (200, db')
        /\ categories db' = categories db
        /\ transactions db' = transactions db
        /\ fixed_deposits db' = fixed_deposits db
        /\ forall k a,
            nth_error (accounts db) k = Some a ->
            exists a',
              nth_error (accounts db') k = Some a'
              /\ a' = Account.mk (Account.id a) (Account.user_id a)
                                 (Account.name a) (Account.account_type a)
                                 (Account.currency a)
                                 (Account.initial_balance a)
                                 (Account.display_order a')
              /\ (Account.user_id a <> user \/ ~ In (Account.id a) order ->
                  Account.display_order a' = Account.display_order a)
              /\ (Account.user_id a = user ->
                  forall i, nth_error order i = Some (Account.id a) ->
                            Account.display_order a' = Z.of_nat i)).
Proof.
  intros Hids Horder.
  split; [reflexivity|]. split; [reflexivity|]. split.
  - intro Hbad. cbn [reorder.reorder_accounts].
    now rewrite (reorder_from_overflow user order 0 db Hbad).
  - intro Hrange.
    destruct (reorder_from_positions user order 0 db Hids Horder Hrange)
      as (db' & Hrun & Hc & Ht & Hf & Hall).
    exists db'. cbn [reorder.reorder_accounts]. rewrite Hrun.
    split; [reflexivity|]. split; [exact Hc|]. split; [exact Ht|].
    split; [exact Hf|]. exact Hall.
Qed.

Lemma reorder_accounts_sets_positions_witness :
  exists db',
    reorder.reorder_accounts Samples.ledger 7 (reorder.Order [3; 1; 2])
    = (200, db')
    /\ map Account.display_order (accounts db') = [1; 2; 0]
    /\ reorder.reorder_accounts Samples.ledger 7
                                (reorder.Order [3; 2 ^ 63; 2])
       = (500, Samples.ledger).
Proof.
  assert (Hids : NoDup (map Account.id (accounts Samples.ledger))).
  { cbn. repeat constructor; cbn; intuition discriminate. }
  destruct (proj2 (proj2 (proj2 (reorder_accounts_sets_positions
                                   Samples.ledger 7 [3; 1; 2] Hids
                                   ltac:(repeat constructor; cbn;
                                         intuition discriminate)))))
    as (db' & Hrun & _).
  { intros x [<-|[<-|[<-|[]]]]; lia. }
  exists db'. split; [exact Hrun|].
  split.
  - vm_compute in Hrun. injection Hrun as <-. reflexivity.
  - reflexivity.
Defined.

(** ** Properties of the balances, the converter and the report on
    binary64 amounts *)

Section Binary64Ledger.
Import binary64 ledger.

(** *** Facts of binary64 arithmetic *)

Lemma add_zero_r (x : float) :
  is_nan x = false -> eqb (add x zero) x = true.
Proof.
  destruct x as [[|]|[|]| |s m e]; intro H; try reflexivity; try discriminate H.
  unfold add, zero, eqb, SFeqb. simpl.
  destruct s; rewrite Z.compare_refl, Pos.compare_cont_refl; reflexivity.
Qed.

Lemma sub_zero_r (x : float) : sub x zero = x.
Proof. destruct x as [[|]|[|]| |s m e]; reflexivity. Qed.

(** The aggregate with its [coalesce]: the sum of the rows, or 0 when
    there is no row or the sum is no number. *)
Lemma coalesce_sum (values : list float) :
  coalesce_0 (sql_sum values)
  = if is_nan (sum values) then zero else sum values.
Proof.
  destruct values as [|v values].
  - reflexivity.
  - unfold sql_sum, sql_real. destruct (is_nan (sum (v :: values))); reflexivity.
Qed.

(** *** C1: the running balance *)

(** An account with an income and an expense that are both infinite:
    the sum of the amounts is no number, the database answers [NULL] and
    the balance is the initial balance. *)
Lemma current_balance_infinite_amounts_counterexample :
  Account.initial_balance checking = Some (decimal 153676 100)
  /\ map Transaction.amount (transactions_of [windfall; ruin] checking)
     = [S754_infinity false; S754_infinity true]
  /\ add (decimal 153676 100) (sum [S754_infinity false; S754_infinity true])
     = S754_nan
  /\ Account.current_balance [windfall; ruin] checking
     = Ok (decimal 153676 100).
Proof. repeat split. Qed.

(** C1 (amended).  For every account whose initial balance is stored,
    [current_balance] is the initial balance plus the sum of the amounts
    of the account's transactions, added in the order of the rows from 0,
    whenever that sum is a number; when it is not, the balance is the
    initial balance plus 0.  For an account without transactions it
    equals the initial balance.  An account whose initial balance is
    [NULL] has no balance: the addition raises. *)
Theorem current_balance_is_initial_plus_sum
        (txs : list Transaction.t) (a : Account.t) :
  (forall initial,
      Account.initial_balance a = Some initial ->
      (is_nan (sum (map Transaction.amount (transactions_of txs a))) = false ->
       Account.current_balance txs a
       = Ok (add initial
                 (sum (map Transaction.amount (transactions_of txs a)))))
      /\ (is_nan (sum (map Transaction.amount (transactions_of txs a))) = true ->
          Account.current_balance txs a = Ok (add initial zero))
      /\ (transactions_of txs a = [] -> is_nan initial = false ->
          exists balance,
            Account.current_balance txs a = Ok balance
            /\ eqb balance initial = true))
  /\ (Account.initial_balance a = None ->
      Account.current_balance txs a = Raise TypeError).
Proof.
  unfold Account.current_balance, transactions_of. split.
  - intros initial ->. rewrite coalesce_sum. repeat split.
    + intros ->. reflexivity.
    + intros ->. reflexivity.
    + intros -> Hnan. exists (add initial zero). split; [reflexivity|].
      now apply add_zero_r.
  - intros ->. reflexivity.
Qed.

Lemma current_balance_is_initial_plus_sum_witness :
  Account.current_balance (transactions book) checking
  = Ok (add (decimal 153676 100)
            (sum (map Transaction.amount
                      (transactions_of (transactions book) checking)))).
Proof.
  apply (proj1 (proj1 (current_balance_is_initial_plus_sum
                         (transactions book) checking)
                      (decimal 153676 100) eq_refl)).
  vm_compute. reflexivity.
Defined.

(** *** C6: the balance correction *)

Lemma ledger_account_of_user_spec
      (db : Store) (account_id user : Z) (a : Account.t) :
  account_of_user db account_id user = Some a ->
  In a (accounts db) /\ Account.id a = account_id /\ Account.user_id a = user.
Proof.
  unfold account_of_user.
  destruct (filter _ (accounts db)) as [|a0 rest] eqn:Hf; [discriminate|].
  intros [= <-].
  assert (Hin : In a0 (filter (fun a => (Account.id a =? account_id)
                                        && (Account.user_id a =? user))
                              (accounts db)))
    by (rewrite Hf; now left).
  apply filter_In in Hin. destruct Hin as [Hin Hb].
  apply andb_true_iff in Hb. destruct Hb as [H1 H2].
  apply Z.eqb_eq in H1, H2. auto.
Qed.

(** The account found after the update is the account found before it
    with the new initial balance. *)
Lemma ledger_account_of_user_set_initial_balance
      (db : Store) (account_id user : Z) (v : option float) (a : Account.t) :
  account_of_user db account_id user = Some a ->
  account_of_user (set_initial_balance account_id v db) account_id user
  = Some (Account.mk (Account.id a) (Account.user_id a) (Account.name a)
                     (Account.account_type a) (Account.currency a) v).
Proof.
  unfold account_of_user. simpl.
  induction (accounts db) as [|a0 rest IH]; simpl; [discriminate|].
  destruct (Account.id a0 =? account_id) eqn:Hid; simpl.
  - rewrite Hid. simpl.
    destruct (Account.user_id a0 =? user); simpl.
    + intros [= <-]. reflexivity.
    + exact IH.
  - rewrite Hid. simpl. exact IH.
Qed.

Lemma set_initial_balance_others
      (db : Store) (account_id : Z) (v : option float) (x : Account.t) :
  In x (accounts db) -> Account.id x <> account_id ->
  In x (accounts (set_initial_balance account_id v db)).
Proof.
  intros Hin Hid. simpl. apply in_map_iff. exists x. split; [|exact Hin].
  destruct (Account.id x =? account_id) eqn:E; [|reflexivity].
  apply Z.eqb_eq in E. contradiction.
Qed.

(** A target of 32114.72 for an account with one withdrawal of 31409.37:
    the initial balance becomes 63524.09 and the balance afterwards is
    32114.719999999998. *)
Lemma update_balance_rounding_counterexample :
  exists db' w' a',
    update_balance book 7 2
      (POST (UpdateBalanceForm.mk (decimal 3211472 100) "USD"))
      (steady_at (JNum 83))
    = (Ok (Redirect "account_detail" "success", db'), w')
    /\ account_of_user db' 2 7 = Some a'
    /\ Account.initial_balance a' = Some (decimal 6352409 100)
    /\ Account.current_balance (transactions db') a'
       = Ok (S754_finite false 8827627015692615 (-38))
    /\ decimal 3211472 100 = S754_finite false 8827627015692616 (-38)
    /\ eqb (S754_finite false 8827627015692615 (-38)) (decimal 3211472 100)
       = false.
Proof.
  do 3 eexists. split; [reflexivity|]. split; [reflexivity|].
  repeat split.
Qed.

(** C6 (amended).  For an account of the user that is not of type
    ['investment'] the balance correction is refused whatever the
    request, and nothing changes.  For an investment account and a form
    that validates, the target balance is converted to the account's
    currency when it was entered in another one; when that gives [B], the
    operation goes through and stores as the initial balance of the
    account [B] less the sum [S] of the amounts of its transactions, the
    difference rounded to a float, touching no other account and no
    transaction.  The current balance of the account is then that
    difference plus [S], rounded again: it is [B] when the account has no
    transactions, and need not be otherwise.  When the difference is no
    number, [NULL] is stored and the account has no current balance. *)
Theorem update_balance_sets_initial_balance
        (db : Store) (user account_id : Z) (account : Account.t) (w : World) :
  sql.integer account_id = Ok account_id ->
  account_of_user db account_id user = Some account ->
  (Account.account_type account <> "investment" ->
   forall req,
     update_balance db user account_id req w
     = (Ok (Redirect "account_detail" "warning", db), w))
  /\ (Account.account_type account = "investment" ->
      forall form B w1,
        UpdateBalanceForm.validate form = true ->
        (UpdateBalanceForm.input_currency form = Account.currency account
         /\ B = UpdateBalanceForm.new_balance form /\ w1 = w
         \/ UpdateBalanceForm.input_currency form <> Account.currency account
            /\ convert_currency (UpdateBalanceForm.new_balance form)
                                (UpdateBalanceForm.input_currency form)
                                (Account.currency account) w
               = (Ok B, w1)) ->
        exists db' account' S,
          S = coalesce_0
                (sql_sum (map Transaction.amount
                              (transactions_of (transactions db) account)))
          /\ update_balance db user account_id (POST form) w
             = (Ok (Redirect "account_detail" "success", db'), w1)
          /\ transactions db' = transactions db
          /\ (forall x, In x (accounts db) -> Account.id x <> account_id ->
                        In x (accounts db'))
          /\ account_of_user db' account_id user = Some account'
          /\ Account.initial_balance account' = sql_real (sub B S)
          /\ (is_nan (sub B S) = false ->
              Account.current_balance (transactions db') account'
              = Ok (add (sub B S) S))
          /\ (is_nan (sub B S) = true ->
              Account.current_balance (transactions db') account'
              = Raise TypeError)
          /\ (transactions_of (transactions db) account = [] ->
              is_nan B = false ->
              exists balance,
                Account.current_balance (transactions db') account'
                = Ok balance
                /\ eqb balance B = true)).
Proof.
  intros Hkey Hacc.
  pose proof (ledger_account_of_user_spec _ _ _ _ Hacc) as (_ & Hid & _).
  assert (Hstart : forall req,
             update_balance db user account_id req w
             = (if negb (String.eqb (Account.account_type account)
                                    "investment")
                then ret (Redirect "account_detail" "warning", db)
                else
                  match validate_on_submit UpdateBalanceForm.validate req with
                  | Some form =>
                      bind
                        (if negb (String.eqb
                                    (UpdateBalanceForm.input_currency form)
                                    (Account.currency account))
                         then convert_currency
                                (UpdateBalanceForm.new_balance form)
                                (UpdateBalanceForm.input_currency form)
                                (Account.currency account)
                         else ret (UpdateBalanceForm.new_balance form))
                        (fun new_balance =>
                           ret (Redirect "account_detail" "success",
                                set_initial_balance (Account.id account)
                                  (sql_real
                                     (sub new_balance
                                        (coalesce_0
                                           (sql_sum
                                              (map Transaction.amount
                                                 (filter
                                                    (fun tx =>
                                                       Transaction.account_id tx
                                                       =? account_id)
                                                    (transactions db)))))))
                                  db))
                  | None =>
                      match req with
                      | GET =>
                          bind (lift (Account.current_balance
                                        (transactions db) account))
                               (fun _ => ret (Render "update_balance.html", db))
                      | _ => ret (Render "update_balance.html", db)
                      end
                  end) w).
  { intro req. unfold update_balance. rewrite bind_run. unfold lift.
    rewrite Hkey. cbv beta iota. rewrite Hacc. reflexivity. }
  split.
  - intros Htype req. rewrite Hstart.
    destruct (String.eqb (Account.account_type account) "investment") eqn:E.
    + apply String.eqb_eq in E. contradiction.
    + reflexivity.
  - intros Htype form B w1 Hvalid Hconv.
    set (S := coalesce_0
                (sql_sum (map Transaction.amount
                              (transactions_of (transactions db) account)))).
    assert (Hcode : coalesce_0
                      (sql_sum
                         (map Transaction.amount
                              (filter (fun tx => Transaction.account_id tx
                                                 =? account_id)
                                      (transactions db))))
                    = S).
    { unfold S, transactions_of. rewrite Hid. reflexivity. }
    pose proof (ledger_account_of_user_set_initial_balance
                  db account_id user (sql_real (sub B S)) account Hacc)
      as Hacc'.
    eexists (set_initial_balance account_id (sql_real (sub B S)) db), _, S.
    split; [reflexivity|].
    split.
    { rewrite Hstart, Htype.
      change (negb ("investment" =? "investment")%string) with false.
      cbv iota. unfold validate_on_submit. rewrite Hvalid. cbv iota.
      rewrite Hcode, Hid, bind_run.
      destruct Hconv as [(Hcur & -> & ->)|(Hcur & Hrun)].
      - rewrite Hcur, String.eqb_refl. reflexivity.
      - apply String.eqb_neq in Hcur. rewrite Hcur. cbn [negb].
        rewrite Hrun. reflexivity. }
    split; [reflexivity|].
    split; [intros x Hx Hne; now apply set_initial_balance_others|].
    split; [exact Hacc'|].
    split; [reflexivity|].
    assert (Hbal : forall v,
               Account.current_balance
                 (transactions (set_initial_balance account_id v db))
                 (Account.mk (Account.id account) (Account.user_id account)
                             (Account.name account)
                             (Account.account_type account)
                             (Account.currency account) v)
               = match v with
                 | Some i => Ok (add i S)
                 | None => Raise TypeError
                 end).
    { intro v. unfold Account.current_balance. simpl.
      rewrite Hid, Hcode. reflexivity. }
    rewrite Hbal. unfold sql_real.
    split; [intros ->; reflexivity|].
    split; [intros ->; reflexivity|].
    intros Hnone HB.
    assert (S = zero) as -> by (unfold S; rewrite Hnone; reflexivity).
    rewrite sub_zero_r, HB.
    exists (add B zero). split; [reflexivity|]. now apply add_zero_r.
Qed.

Lemma update_balance_sets_initial_balance_witness :
  exists db' account' w',
    update_balance book 7 2
      (POST (UpdateBalanceForm.mk (decimal 3211472 100) "USD"))
      (steady_at (JNum 83))
    = (Ok (Redirect "account_detail" "success", db'), w')
    /\ account_of_user db' 2 7 = Some account'
    /\ Account.current_balance (transactions db') account'
       = Ok (add (sub (decimal 3211472 100) (decimal (-3140937) 100))
                 (decimal (-3140937) 100)).
Proof.
  destruct (proj2 (update_balance_sets_initial_balance book 7 2 brokerage
                     (steady_at (JNum 83)) eq_refl eq_refl)
                  eq_refl (UpdateBalanceForm.mk (decimal 3211472 100) "USD")
                  (decimal 3211472 100) (steady_at (JNum 83)) eq_refl
                  (or_introl (conj eq_refl (conj eq_refl eq_refl))))
    as (db' & account' & S & HS & Hrun & _ & _ & Hacc & _ & Hbal & _).
  exists db', account', (steady_at (JNum 83)).
  split; [exact Hrun|]. split; [exact Hacc|].
  rewrite Hbal; subst S; vm_compute; reflexivity.
Defined.

(** *** C7: the round trip of a conversion *)










(** *** C4: the monthly report *)























(** *** When conversions fail *)




End Binary64Ledger.
